(** * WinHTML Editor: the native coordination shell (Go, [package main])

    A shallow embedding of the single-instance arbitration, the advisory
    file-lock registry, the two ephemeral stores and the HTTP control API,
    together with the properties the specification states about them.

    Go strings and byte slices are both sequences of bytes: they are
    embedded as [string] (a list of 8-bit [ascii]).  The process-wide maps
    are [gmap]s.  Calls into the operating system are answered by an
    environment record, one answer per call site, so that every outcome
    the code distinguishes can be exercised. *)

From Stdlib Require Import ZArith NArith QArith Ascii String List Lia Bool DecimalString.
From stdpp Require Import base gmap strings list.

Local Open Scope string_scope.

(** ** Errors *)

(** A fallible Go call [(v, err)]: either the value or the error text. *)
Inductive res (A : Type) : Type :=
| Ok (a : A)
| Err (msg : string).
Arguments Ok {A} a.
Arguments Err {A} msg.

Definition is_ok {A} (r : res A) : bool :=
  match r with Ok _ => true | Err _ => false end.

(** ** Package [strings] *)

Module Strings.

Definition len (s : string) : nat := String.length s.

(** [s[i:]] *)
Fixpoint drop (n : nat) (s : string) : string :=
  match n, s with
  | O, _ => s
  | S n', String _ s' => drop n' s'
  | S _, EmptyString => EmptyString
  end.

(** [s[:i]] *)
Fixpoint take (n : nat) (s : string) : string :=
  match n, s with
  | O, _ => EmptyString
  | S n', String c s' => String c (take n' s')
  | S _, EmptyString => EmptyString
  end.

Definition HasPrefix (s prefix : string) : bool := String.prefix prefix s.

Definition HasSuffix (s suffix : string) : bool :=
  (len suffix <=? len s)%nat
  && String.eqb (drop (len s - len suffix) s) suffix.

Definition TrimSuffix (s suffix : string) : string :=
  if HasSuffix s suffix then take (len s - len suffix) s else s.

Definition contains_byte (chars : string) (c : ascii) : bool :=
  existsb (Ascii.eqb c) (list_ascii_of_string chars).

(** [IndexAny]: index of the first byte of [s] that occurs in [chars],
    or [-1].  (The source only passes the ASCII set ["?#"].) *)
Fixpoint IndexAny (s chars : string) : Z :=
  match s with
  | EmptyString => (-1)%Z
  | String c s' =>
      if contains_byte chars c then 0%Z
      else let i := IndexAny s' chars in
           if (i =? -1)%Z then (-1)%Z else (i + 1)%Z
  end.

(** [Replace(s, old, new, n)] for a non-empty [old]: the first [n]
    non-overlapping occurrences, left to right.  [skip] counts the bytes
    of an occurrence that are still to be dropped. *)
Fixpoint replace_from (old new : string) (n skip : nat) (s : string) : string :=
  match s with
  | EmptyString => EmptyString
  | String c s' =>
      match skip with
      | S k => replace_from old new n k s'
      | O =>
          match n with
          | O => s
          | S n' =>
              if String.prefix old s
              then String.append new (replace_from old new n' (Nat.pred (len old)) s')
              else String c (replace_from old new n 0 s')
          end
      end
  end.

(** With an empty [old] Go inserts [new] at the start (and after every
    rune while [n] lasts); only the first insertion is modelled. *)
Definition Replace (s old new : string) (n : nat) : string :=
  match old with
  | EmptyString => match n with O => s | S _ => String.append new s end
  | _ => replace_from old new n 0 s
  end.

(** No more occurrences than bytes. *)
Definition ReplaceAll (s old new : string) : string :=
  Replace s old new (len s + 1).

End Strings.

(** ** Package [encoding/hex] *)

Module Hex.

Definition hextable : string := "0123456789abcdef".

Definition digit (n : N) : ascii :=
  nth (N.to_nat n) (list_ascii_of_string hextable) "0"%char.

(** [EncodeToString]: two digits per byte, high nibble first. *)
Fixpoint EncodeToString (src : string) : string :=
  match src with
  | EmptyString => EmptyString
  | String b rest =>
      String (digit (N_of_ascii b / 16))
        (String (digit (N_of_ascii b mod 16)) (EncodeToString rest))
  end.

Definition is_lower_hex (c : ascii) : bool :=
  Strings.contains_byte hextable c.

End Hex.

(** ** Package [encoding/base64], [StdEncoding] *)

Module Base64.

Definition encodeStd : string :=
  "ABCDEFGHIJKLMNOPQRSTUVWXYZabcdefghijklmnopqrstuvwxyz0123456789+/".

Definition pad : ascii := "="%char.

(** [enc.encode[n]] *)
Definition enc (n : N) : ascii :=
  nth (N.to_nat n) (list_ascii_of_string encodeStd) pad.

(** [enc.decodeMap[c]], [None] for a byte outside the alphabet. *)
Definition dec (c : ascii) : option N :=
  let n := N_of_ascii c in
  if (65 <=? n)%N && (n <=? 90)%N then Some (n - 65)%N
  else if (97 <=? n)%N && (n <=? 122)%N then Some (n - 71)%N
  else if (48 <=? n)%N && (n <=? 57)%N then Some (n + 4)%N
  else if (n =? 43)%N then Some 62%N
  else if (n =? 47)%N then Some 63%N
  else None.

(** The 24-bit group [b0<<16 | b1<<8 | b2] and its four 6-bit digits. *)
Definition group (b0 b1 b2 : ascii) : N :=
  (N_of_ascii b0 * 65536 + N_of_ascii b1 * 256 + N_of_ascii b2)%N.

Definition sextet (val : N) (i : N) : ascii :=
  enc ((val / 2 ^ (18 - 6 * i)) mod 64)%N.

Fixpoint EncodeToString (src : string) : string :=
  match src with
  | EmptyString => EmptyString
  | String b0 EmptyString =>
      let val := group b0 zero zero in
      String (sextet val 0) (String (sextet val 1)
        (String pad (String pad EmptyString)))
  | String b0 (String b1 EmptyString) =>
      let val := group b0 b1 zero in
      String (sextet val 0) (String (sextet val 1)
        (String (sextet val 2) (String pad EmptyString)))
  | String b0 (String b1 (String b2 rest)) =>
      let val := group b0 b1 b2 in
      String (sextet val 0) (String (sextet val 1)
        (String (sextet val 2) (String (sextet val 3)
           (EncodeToString rest))))
  end.

(** The decoder drops carriage returns and line feeds wherever they
    stand. *)
Definition is_newline (c : ascii) : bool :=
  Ascii.eqb c "010"%char || Ascii.eqb c "013"%char.

Fixpoint strip_newlines (s : string) : string :=
  match s with
  | EmptyString => EmptyString
  | String c rest =>
      if is_newline c then strip_newlines rest
      else String c (strip_newlines rest)
  end.

Definition quantum (x y z w : N) : N :=
  (x * 262144 + y * 4096 + z * 64 + w)%N.

Definition byte_of (val : N) (i : N) : ascii :=
  ascii_of_N ((val / 2 ^ (16 - 8 * i)) mod 256)%N.

Definition corrupt : res string := Err "illegal base64 data".

(** Quanta of four digits; padding only closes the input. *)
Fixpoint decode_quanta (s : string) : res string :=
  match s with
  | EmptyString => Ok EmptyString
  | String a (String b (String c (String d rest))) =>
      match dec a, dec b with
      | Some x, Some y =>
          if Ascii.eqb c pad then
            if Ascii.eqb d pad && String.eqb rest EmptyString
            then Ok (String (byte_of (quantum x y 0 0) 0) EmptyString)
            else corrupt
          else
            match dec c with
            | Some z =>
                if Ascii.eqb d pad then
                  if String.eqb rest EmptyString
                  then let val := quantum x y z 0 in
                       Ok (String (byte_of val 0)
                             (String (byte_of val 1) EmptyString))
                  else corrupt
                else
                  match dec d with
                  | Some w =>
                      match decode_quanta rest with
                      | Ok out =>
                          let val := quantum x y z w in
                          Ok (String (byte_of val 0) (String (byte_of val 1)
                                (String (byte_of val 2) out)))
                      | Err e => Err e
                      end
                  | None => corrupt
                  end
            | None => corrupt
            end
      | _, _ => corrupt
      end
  | _ => corrupt
  end.

Definition DecodeString (s : string) : res string :=
  decode_quanta (strip_newlines s).

End Base64.

(** ** The Go standard library behind the program

    The functions the program imports from [path/filepath], [strings]
    (the Unicode-aware ones), [net/url] and [net/http] are not part of the
    repository.  The program is embedded over any implementation of
    them. *)

Class GoLib := {
  GOOS : string;
  filepath_Clean : string → string;
  filepath_Dir : string → string;
  filepath_Base : string → string;
  filepath_Ext : string → string;
  filepath_Join : list string → string;
  filepath_FromSlash : string → string;
  filepath_Abs : string → string;
  strings_ToLower : string → string;
  strings_EqualFold : string → string → bool;
  url_QueryEscape : string → string;
  url_QueryUnescape : string → res string;
  http_DetectContentType : string → string;
  float64 : Type;
  float64_zero : float64;
  float64_one : float64;
  float64_le_zero : float64 → bool;
  strconv_ParseFloat : string → res float64
}.

(** ** Open files *)

(** [*os.File]: the descriptor and the name it was opened with. *)
Record File := { fd : nat; fname : string }.

Global Instance File_eq_dec : EqDecision File.
Proof. solve_decision. Defined.

(** The read handles this process currently holds open on behalf of the
    lock registry, with the next free descriptor. *)
Record Handles := { openFiles : list File; nextFd : nat }.

(** [os.Open(path)] when the operating system grants it. *)
Definition os_Open_granted (path : string) (h : Handles) : File * Handles :=
  let f := {| fd := nextFd h; fname := path |} in
  (f, {| openFiles := f :: openFiles h; nextFd := S (nextFd h) |}).

(** [f.Close()] *)
Definition File_Close (f : File) (h : Handles) : Handles :=
  {| openFiles := filter (λ g, fd g ≠ fd f) (openFiles h); nextFd := nextFd h |}.

(** ** File locking *)

(** [activeFileHandles] together with the handles it refers to. *)
Record Locks := {
  activeFileHandles : gmap string File;
  handles : Handles
}.

Definition no_locks : Locks :=
  {| activeFileHandles := ∅; handles := {| openFiles := []; nextFd := 0 |} |}.

Section FileLocking.
Context `{GoLib}.

Definition getLockKey (path : string) : string :=
  if String.eqb GOOS "windows"
  then strings_ToLower (filepath_Clean path)
  else filepath_Clean path.

(** [lockFile]; [open] is the answer of [os.Open(path)], asked only when
    the key is not registered yet. *)
Definition lockFile (open : res unit) (path : string) (st : Locks) : Locks :=
  let key := getLockKey path in
  match activeFileHandles st !! key with
  | Some _ => st
  | None =>
      match open with
      | Ok _ =>
          let '(f, h) := os_Open_granted path (handles st) in
          {| activeFileHandles := <[key := f]> (activeFileHandles st);
             handles := h |}
      | Err _ => st
      end
  end.

Definition unlockFile (path : string) (st : Locks) : Locks :=
  let key := getLockKey path in
  match activeFileHandles st !! key with
  | Some f =>
      {| activeFileHandles := delete key (activeFileHandles st);
         handles := File_Close f (handles st) |}
  | None => st
  end.

(** [unlockAll]: the loop closes and deletes every entry, in any order. *)
Definition unlockAll (st : Locks) : Locks :=
  {| activeFileHandles := ∅;
     handles := map_fold (λ _ f h, File_Close f h) (handles st)
                  (activeFileHandles st) |}.

(** The number of open handles held for a canonical path. *)
Definition handlesFor (key : string) (st : Locks) : nat :=
  length (filter (λ f, getLockKey (fname f) = key) (openFiles (handles st))).

(** The registry states the three operations can produce. *)
Inductive lock_step : Locks → Locks → Prop :=
| step_lock open path st : lock_step st (lockFile open path st)
| step_unlock path st : lock_step st (unlockFile path st)
| step_unlockAll st : lock_step st (unlockAll st).

Definition reachable (st : Locks) : Prop := rtc lock_step no_locks st.

End FileLocking.

(** ** Regular expressions of [inlineLocalImages]

    The two patterns are matched the way Go's [regexp] does, leftmost
    first; both are deterministic enough that no backtracking choice is
    visible in the result. *)

Module Regexp.

(** [\s] is [[\t\n\f\r ]]. *)
Definition is_space (c : ascii) : bool :=
  Strings.contains_byte (String "009" (String "010" (String "012"
    (String "013" (String " " EmptyString))))) c.

(** One letter under [(?i)]: the lower-case byte or its upper-case
    form. *)
Definition fold_eq (lower c : ascii) : bool :=
  Ascii.eqb c lower
  || Ascii.eqb c (ascii_of_N (N_of_ascii lower - 32)).

(** [[^>]*>]: the number of bytes up to and including the first [>]. *)
Fixpoint through_gt (s : string) : option nat :=
  match s with
  | EmptyString => None
  | String c rest =>
      if Ascii.eqb c ">" then Some 1%nat else S <$> through_gt rest
  end.

(** [(?i)<img\s+[^>]*>] anchored at the start of [s]: the length of the
    match. *)
Definition imgTagRe_at (s : string) : option nat :=
  match s with
  | String c0 (String c1 (String c2 (String c3 (String c4 rest)))) =>
      if Ascii.eqb c0 "<" && fold_eq "i" c1 && fold_eq "m" c2
         && fold_eq "g" c3 && is_space c4
      then (λ n, 5 + n)%nat <$> through_gt rest
      else None
  | _ => None
  end.

(** Outcome of a Go call that may panic. *)
Inductive outcome (A : Type) : Type :=
| Done (a : A)
| Panic (msg : string).
Arguments Done {A} a.
Arguments Panic {A} msg.

#[global] Instance outcome_ret : MRet outcome := λ A a, Done a.
#[global] Instance outcome_bind : MBind outcome := λ A B k o,
  match o with Done a => k a | Panic e => Panic e end.
#[global] Instance outcome_fmap : FMap outcome := λ A B f o,
  match o with Done a => Done (f a) | Panic e => Panic e end.

(** [re.ReplaceAllStringFunc(src, repl)] for a pattern that never
    matches the empty string: every match, found left to right and not
    overlapping the previous one, is replaced by [repl] of it.  [skip]
    counts the bytes of the current match still to be passed over. *)
Fixpoint replace_all (re_at : string → option nat)
    (repl : string → outcome string) (skip : nat) (src : string)
    : outcome string :=
  match src with
  | EmptyString => Done EmptyString
  | String c rest =>
      match skip with
      | S k => replace_all re_at repl k rest
      | O =>
          match re_at src with
          | Some n =>
              match repl (Strings.take n src) with
              | Done out =>
                  match replace_all re_at repl (Nat.pred n) rest with
                  | Done tail => Done (String.append out tail)
                  | Panic e => Panic e
                  end
              | Panic e => Panic e
              end
          | None =>
              match replace_all re_at repl 0 rest with
              | Done tail => Done (String c tail)
              | Panic e => Panic e
              end
          end
      end
  end.

Definition ReplaceAllStringFunc (re_at : string → option nat)
    (src : string) (repl : string → outcome string) : outcome string :=
  replace_all re_at repl 0 src.

Definition dquote : ascii := "034"%char.

(** [\s*]: the run of white space and what follows it. *)
Fixpoint spaces (s : string) : string * string :=
  match s with
  | String c rest =>
      if is_space c
      then let '(sp, tl) := spaces rest in (String c sp, tl)
      else (EmptyString, s)
  | EmptyString => (EmptyString, EmptyString)
  end.

(** [[^q]*q]: the text before the first [q], when there is one. *)
Fixpoint until_quote (q : ascii) (s : string) : option string :=
  match s with
  | EmptyString => None
  | String c rest =>
      if Ascii.eqb c q then Some EmptyString
      else String c <$> until_quote q rest
  end.

(** [(?i)src]: under case folding [s] also stands for the long s,
    U+017F, the two bytes C5 BF. *)
Definition src_word (s : string) : option (string * string) :=
  match s with
  | String c0 (String c1 (String c2 rest)) =>
      if fold_eq "s" c0 && fold_eq "r" c1 && fold_eq "c" c2
      then Some (Strings.take 3 s, rest)
      else
        match rest with
        | String c3 rest' =>
            if Ascii.eqb c0 "197" && Ascii.eqb c1 "191"
               && fold_eq "r" c2 && fold_eq "c" c3
            then Some (Strings.take 4 s, rest')
            else None
        | EmptyString => None
        end
  | _ => None
  end.

(** The attribute proper, anchored at the start of [s]: the word
    [src], white space, [=], white space, and a value between double
    quotes that holds no double quote or between single quotes that
    holds no single quote.  The result is the matched text with the
    groups 2 (quoted value), 3 (double-quoted content) and 4
    (single-quoted content); a group that took no part is empty. *)
Definition src_attr (s : string) : option (string * string * string * string) :=
  match src_word s with
  | Some (word, s1) =>
      let '(sp1, s2) := spaces s1 in
      match s2 with
      | String "=" s3 =>
          let '(sp2, s4) := spaces s3 in
          match s4 with
          | String q s5 =>
              if Ascii.eqb q dquote || Ascii.eqb q "'" then
                match until_quote q s5 with
                | Some body =>
                    let quoted := String q (String.append body (String q EmptyString)) in
                    let text := String.append word (String.append sp1
                                  (String "=" (String.append sp2 quoted))) in
                    if Ascii.eqb q dquote
                    then Some (text, quoted, body, EmptyString)
                    else Some (text, quoted, EmptyString, body)
                | None => None
                end
              else None
          | EmptyString => None
          end
      | _ => None
      end
  | None => None
  end.

(** [(?i)(\s|^)src...] anchored at the start of [s]; [bot] tells whether
    this is the beginning of the text.  The result is the slice
    [match[0..4]]. *)
Definition srcRe_at (bot : bool) (s : string) : option (list string) :=
  let with_space :=
    match s with
    | String c rest =>
        if is_space c then
          match src_attr rest with
          | Some (text, g2, g3, g4) =>
              Some [String c text; String c EmptyString; g2; g3; g4]
          | None => None
          end
        else None
    | EmptyString => None
    end in
  match with_space with
  | Some m => Some m
  | None =>
      if bot then
        match src_attr s with
        | Some (text, g2, g3, g4) => Some [text; EmptyString; g2; g3; g4]
        | None => None
        end
      else None
  end.

Fixpoint find_from (bot : bool) (s : string) : option (list string) :=
  match srcRe_at bot s with
  | Some m => Some m
  | None =>
      match s with
      | EmptyString => None
      | String _ rest => find_from false rest
      end
  end.

(** [srcRe.FindStringSubmatch(s)]; [None] is Go's [nil]. *)
Definition srcRe_FindStringSubmatch (s : string) : option (list string) :=
  find_from true s.

(** [match[i]], which panics out of range. *)
Definition index (m : list string) (i : nat) : outcome string :=
  match nth_error m i with
  | Some x => Done x
  | None => Panic "runtime error: index out of range"
  end.

End Regexp.

(** ** JSON documents and the request structs *)

#[local] Set Warnings "-register-all".

Inductive JSON : Type :=
| JNull
| JBool (b : bool)
| JNumber (literal : string)
| JString (s : string)
| JArray (items : list JSON)
| JObject (members : list (string * JSON)).

(** The request structs of the source.  Rocq's record fields share one
    name space, so [LockRequest.Path], [ScreenshotRequest.Html],
    [PdfExportRequest.Html] and [PdfExportRequest.Path] appear as
    [LockPath], [ShotHtml], [PdfHtml] and [PdfPath]. *)
Record FileData := { FileName : string; Data : string }.

Record DialogResponse := { Path : string }.

Record LockRequest := { LockPath : string }.

Record ScreenshotRequest := { ShotHtml : string; Width : Z }.

(** What [json.Marshal] and [json.Encoder.Encode] write for the two
    values the program sends. *)
Definition json_of_FileData (f : FileData) : JSON :=
  JObject [("fileName", JString (FileName f)); ("data", JString (Data f))].

Definition json_of_DialogResponse (d : DialogResponse) : JSON :=
  JObject [("path", JString (Path d))].

(** Decimal literals of Go's [int]. *)
Definition is_digit (c : ascii) : bool :=
  (48 <=? N_of_ascii c)%N && (N_of_ascii c <=? 57)%N.

Fixpoint digits_value (acc : Z) (s : string) : option Z :=
  match s with
  | EmptyString => Some acc
  | String c rest =>
      if is_digit c
      then digits_value (10 * acc + Z.of_N (N_of_ascii c - 48)) rest
      else None
  end.

Definition decimal (lit : string) : option Z :=
  match lit with
  | EmptyString => None
  | String "-" (String c rest) => Z.opp <$> digits_value 0 (String c rest)
  | _ => digits_value 0 lit
  end.

(** The range of Go's [int] on the 64-bit platforms the program runs
    on. *)
Definition math_MinInt64 : Z := (-9223372036854775808)%Z.
Definition math_MaxInt64 : Z := 9223372036854775807%Z.

(** [strconv.ParseInt(lit, 10, 64)], by which [encoding/json] reads a
    number into an [int]: a literal that is not a decimal integer, or
    whose value does not fit, is an error. *)
Definition parse_int (lit : string) : option Z :=
  match decimal lit with
  | Some v =>
      if (math_MinInt64 <=? v)%Z && (v <=? math_MaxInt64)%Z
      then Some v else None
  | None => None
  end.

Definition itoa (n : N) : string := NilEmpty.string_of_uint (N.to_uint n).

Section Decoding.
Context `{GoLib}.

Record PdfExportRequest := { PdfHtml : string; PdfPath : string; Scale : float64 }.

(** A key of the document addresses a struct field when it is the
    field's JSON name, exactly or up to case. *)
Definition names_field (field key : string) : bool :=
  String.eqb key field || strings_EqualFold key field.

Definition type_error : string := "json: cannot unmarshal value into Go struct field".

(** The members that address [field], decoded in document order by
    [conv]: [null] leaves the field alone, a later member overwrites an
    earlier one, a value of the wrong kind is an error. *)
Fixpoint decode_field {A} (conv : JSON → option A) (field : string)
    (members : list (string * JSON)) (cur : A) : res A :=
  match members with
  | [] => Ok cur
  | (key, v) :: rest =>
      if names_field field key then
        match v with
        | JNull => decode_field conv field rest cur
        | _ =>
            match conv v with
            | Some a => decode_field conv field rest a
            | None => Err type_error
            end
        end
      else decode_field conv field rest cur
  end.

Definition as_string (v : JSON) : option string :=
  match v with JString s => Some s | _ => None end.

Definition as_int (v : JSON) : option Z :=
  match v with JNumber lit => parse_int lit | _ => None end.

Definition as_float (v : JSON) : option float64 :=
  match v with
  | JNumber lit =>
      match strconv_ParseFloat lit with
      | Ok f => Some f
      | Err _ => None
      end
  | _ => None
  end.

(** [json.NewDecoder(r.Body).Decode(&req)] into a zeroed struct; [None]
    is a body that is not a JSON document. *)
Definition decode_struct {A} (fields : list (string * JSON) → res A)
    (zero : A) (body : option JSON) : res A :=
  match body with
  | None => Err "invalid character looking for beginning of value"
  | Some JNull => Ok zero
  | Some (JObject members) => fields members
  | Some _ => Err "json: cannot unmarshal value into Go value"
  end.

Definition decode_LockRequest : option JSON → res LockRequest :=
  decode_struct
    (λ ms, match decode_field as_string "path" ms "" with
           | Ok p => Ok {| LockPath := p |}
           | Err e => Err e
           end)
    {| LockPath := "" |}.

Definition decode_FileData : option JSON → res FileData :=
  decode_struct
    (λ ms, match decode_field as_string "fileName" ms "",
                 decode_field as_string "data" ms "" with
           | Ok n, Ok d => Ok {| FileName := n; Data := d |}
           | Err e, _ | _, Err e => Err e
           end)
    {| FileName := ""; Data := "" |}.

Definition decode_ScreenshotRequest : option JSON → res ScreenshotRequest :=
  decode_struct
    (λ ms, match decode_field as_string "html" ms "",
                 decode_field as_int "width" ms 0%Z with
           | Ok h, Ok w => Ok {| ShotHtml := h; Width := w |}
           | Err e, _ | _, Err e => Err e
           end)
    {| ShotHtml := ""; Width := 0 |}.

Definition decode_PdfExportRequest : option JSON → res PdfExportRequest :=
  decode_struct
    (λ ms, match decode_field as_string "html" ms "",
                 decode_field as_string "path" ms "",
                 decode_field as_float "scale" ms float64_zero with
           | Ok h, Ok p, Ok sc => Ok {| PdfHtml := h; PdfPath := p; Scale := sc |}
           | Err e, _, _ | _, Err e, _ | _, _, Err e => Err e
           end)
    {| PdfHtml := ""; PdfPath := ""; Scale := float64_zero |}.

End Decoding.

(** ** Requests and responses *)

(** [*multipart.FileHeader]: the client's file name and the part's bytes. *)
Record FileHeader := { Filename : string; PartBytes : string }.

(** [r.MultipartForm] *)
Record Form := {
  FormValues : gmap string (list string);
  FormFiles : gmap string (list FileHeader)
}.

Inductive RequestBody : Type :=
| JSONBody (doc : JSON)
| MultipartBody (form : Form)
| OtherBody (raw : string).

Record Request := {
  Method : string;
  URLPath : string;
  Query : gmap string (list string);
  Body : RequestBody
}.

Definition body_json (r : Request) : option JSON :=
  match Body r with JSONBody doc => Some doc | _ => None end.

(** [r.URL.Query()[key]] *)
Definition Query_values (r : Request) (key : string) : list string :=
  default [] (Query r !! key).

(** [r.URL.Query().Get(key)] *)
Definition Query_Get (r : Request) (key : string) : string :=
  match Query_values r key with v :: _ => v | [] => "" end.

(** [r.ParseMultipartForm]: the form, or an error for any other body. *)
Definition ParseMultipartForm (r : Request) : res Form :=
  match Body r with
  | MultipartBody f => Ok f
  | _ => Err "request Content-Type isn't multipart/form-data"
  end.

(** [r.FormValue(key)]: the first of the URL's values and then the
    form's. *)
Definition FormValue (r : Request) (f : Form) (key : string) : string :=
  match (Query_values r key ++ default [] (FormValues f !! key))%list with
  | v :: _ => v
  | [] => ""
  end.

(** What has been written to the [http.ResponseWriter]. *)
Inductive Chunk : Type :=
| Raw (bytes : string)
| JSONLine (doc : JSON).

Record ResponseWriter := {
  Header : gmap string string;
  Status : option nat;
  Written : list Chunk
}.

Definition new_response : ResponseWriter :=
  {| Header := ∅; Status := None; Written := [] |}.

Definition Header_Set (k v : string) (w : ResponseWriter) : ResponseWriter :=
  {| Header := <[k := v]> (Header w); Status := Status w; Written := Written w |}.

(** The first [WriteHeader] fixes the status; [Write] implies 200. *)
Definition WriteHeader (code : nat) (w : ResponseWriter) : ResponseWriter :=
  {| Header := Header w;
     Status := Some (default code (Status w));
     Written := Written w |}.

Definition Write_chunk (c : Chunk) (w : ResponseWriter) : ResponseWriter :=
  {| Header := Header w;
     Status := Some (default 200%nat (Status w));
     Written := Written w ++ [c] |}.

Definition Write (bytes : string) : ResponseWriter → ResponseWriter :=
  Write_chunk (Raw bytes).

(** [json.NewEncoder(w).Encode(v)] *)
Definition Encode (doc : JSON) : ResponseWriter → ResponseWriter :=
  Write_chunk (JSONLine doc).

Definition newline : string := String "010" EmptyString.

(** [http.Error(w, msg, code)] *)
Definition http_Error (msg : string) (code : nat) (w : ResponseWriter)
    : ResponseWriter :=
  Write (String.append msg newline)
    (WriteHeader code
       (Header_Set "X-Content-Type-Options" "nosniff"
          (Header_Set "Content-Type" "text/plain; charset=utf-8"
             {| Header := delete "Content-Length" (Header w);
                Status := Status w; Written := Written w |}))).

Definition http_NotFound : ResponseWriter → ResponseWriter :=
  http_Error "404 page not found" 404.

(** The status the client sees. *)
Definition StatusCode (w : ResponseWriter) : nat := default 200%nat (Status w).

Definition StatusOK : nat := 200.
Definition StatusBadRequest : nat := 400.
Definition StatusNotFound : nat := 404.
Definition StatusInternalServerError : nat := 500.

(** ** The process and its environment *)

Definition APP_PORT : N := 58888.

Definition time_Millisecond : Z := 1000000.
Definition time_Second : Z := 1000 * time_Millisecond.

Record FileInfo := { IsDir : bool }.

(** The process-wide stores and the lock registry. *)
Record Server := {
  fileStore : gmap string FileData;
  renderStore : gmap string string;
  locks : Locks
}.

Definition empty_server : Server :=
  {| fileStore := ∅; renderStore := ∅; locks := no_locks |}.

Definition set_fileStore (m : gmap string FileData) (srv : Server) : Server :=
  {| fileStore := m; renderStore := renderStore srv; locks := locks srv |}.

Definition set_renderStore (m : gmap string string) (srv : Server) : Server :=
  {| fileStore := fileStore srv; renderStore := m; locks := locks srv |}.

Definition set_locks (l : Locks) (srv : Server) : Server :=
  {| fileStore := fileStore srv; renderStore := renderStore srv; locks := l |}.

(** ** What the process does

    The types below are parametric in the type [F] of [float64] values,
    which the library behind the program provides. *)

(** The steps handed to [chromedp.Run]. *)
Inductive Action {F : Type} : Type :=
| EmulateViewport (width height : Z) (deviceScale : string)
| Navigate (url : string)
| WaitVisible (selector : string)
| Sleep (d : Z)
| FullScreenshot (quality : Z)
| PrintToPDF (printBackground : bool) (paperWidth paperHeight : string)
    (marginTop marginBottom marginLeft marginRight : string)
    (scale : F).

(** One headless run: the allocator's executable (empty for the default),
    the deadline, and the actions. *)
Record RenderJob {F : Type} : Type := {
  execPath : string;
  deadline : Z;
  actions : list (@Action F)
}.

(** What the process does to the world outside its own memory, in order.
    [Go] is a goroutine started and not waited for. *)
Inductive Effect {F : Type} : Type :=
| ShowWindow (hwnd cmd : Z)
| Exec (argv : list string)
| LogPrint (msg : string)
| FsMkdirAll (path : string)
| FsCreate (path : string)
| FsCopy (path bytes : string)
| FsWriteFile (path bytes : string)
| HttpPost (url contentType : string) (body : JSON) (timeout : Z)
| Render (job : @RenderJob F)
| TimeSleep (d : Z)
| OsExit (code : Z)
| Go (body : list Effect)
| HttpServe (addr : string)
| RunTrayApp (url : string).

(** The outcome of the placement block of the save handler: where the
    assets and the document go, or the message of the early return;
    either way with the calls made so far. *)
Inductive Placed {F : Type} : Type :=
| PlaceAt (finalDir finalHtmlPath : string) (eff : list (@Effect F))
| PlaceFailed (msg : string) (eff : list (@Effect F)).

(** How [main] ends up: a secondary instance returns at once; a primary
    one has its stores set up and runs the server and the tray loop. *)
Inductive Started {F : Type} : Type :=
| Secondary (trace : list (@Effect F))
| Primary (srv : Server) (trace : list (@Effect F)).

Section Program.
Context `{GoLib}.

Local Abbreviation Action := (@Action float64).
Local Abbreviation RenderJob := (@RenderJob float64).
Local Abbreviation Effect := (@Effect float64).

(** The answers of the operating system and of the other processes to
    the calls made while one request (or [main]) runs.  [chromedp_Run]
    is told what the server would serve at the job's URL. *)
Record Env := {
  rand_Read : string;
  os_Open : string → res unit;
  os_Create : string → res unit;
  os_MkdirAll : string → res unit;
  os_ReadFile : string → res string;
  os_WriteFile : string → string → res unit;
  os_Stat : string → res FileInfo;
  os_Getenv : string → string;
  io_Copy : string → string → res unit;
  FileHeader_Open : FileHeader → res unit;
  exec_Start : list string → res unit;
  GetConsoleWindow : Z;
  GetOpenFileNameW : Z * string;
  GetSaveFileNameW : string → Z * string;
  chromedp_Run : RenderJob → ResponseWriter → res string;
  net_Listen : string → res unit;
  http_Post : string → JSON → res unit;
  FileServer : Request → ResponseWriter → ResponseWriter
}.

Definition is_windows : bool := String.eqb GOOS "windows".

(** *** Helpers *)

Definition zero_byte_buffer (n : nat) : string :=
  string_of_list_ascii (repeat zero n).

(** [generateID]: eight bytes from the system's generator, in hex.  The
    buffer is eight bytes long whatever [rand.Read] delivers. *)
Definition generateID (env : Env) : string :=
  let b := Strings.take 8 (String.append (rand_Read env) (zero_byte_buffer 8)) in
  Hex.EncodeToString b.

Definition openDefaultBrowser (env : Env) (url : string) : list Effect :=
  let start argv :=
    Exec argv ::
    match exec_Start env argv with
    | Ok _ => []
    | Err e => [LogPrint (String.append "Error opening default browser: " e)]
    end in
  if String.eqb GOOS "windows"
  then start ["rundll32"; "url.dll,FileProtocolHandler"; url]
  else if String.eqb GOOS "linux" then start ["xdg-open"; url]
  else if String.eqb GOOS "darwin" then start ["open"; url]
  else [].

Definition first_existing (env : Env) (paths : list string) : option string :=
  List.find (λ p, is_ok (os_Stat env p)) paths.

Definition findBrowserPath (env : Env) : string :=
  if negb is_windows then ""
  else
    let edgePaths :=
      ["C:\Program Files (x86)\Microsoft\Edge\Application\msedge.exe";
       "C:\Program Files\Microsoft\Edge\Application\msedge.exe"] in
    let chromePaths :=
      ["C:\Program Files\Google\Chrome\Application\chrome.exe";
       "C:\Program Files (x86)\Google\Chrome\Application\chrome.exe";
       filepath_Join [os_Getenv env "LOCALAPPDATA";
                      "Google\Chrome\Application\chrome.exe"]] in
    match first_existing env edgePaths with
    | Some p => p
    | None => default "" (first_existing env chromePaths)
    end.

Definition encodeHeaderValue (s : string) : string :=
  Strings.ReplaceAll (url_QueryEscape s) "+" "%20".

Definition is_html_ext (ext : string) : bool :=
  String.eqb ext ".html" || String.eqb ext ".htm".

(** *** [inlineLocalImages] *)

Definition remote_src (srcContent : string) : bool :=
  Strings.HasPrefix srcContent "data:"
  || Strings.HasPrefix srcContent "http:"
  || Strings.HasPrefix srcContent "https:"
  || Strings.HasPrefix srcContent "//".

(** The file an image reference names, relative to [baseDir]. *)
Definition image_path (baseDir srcContent : string) : string :=
  let cleanPath :=
    let idx := Strings.IndexAny srcContent "?#" in
    if (idx =? -1)%Z then srcContent
    else Strings.take (Z.to_nat idx) srcContent in
  let cleanPath :=
    match url_QueryUnescape cleanPath with
    | Ok unescaped => unescaped
    | Err _ => cleanPath
    end in
  let cleanPath := filepath_FromSlash cleanPath in
  filepath_Join [baseDir; cleanPath].

(** The function handed to [ReplaceAllStringFunc]. *)
Definition inline_tag (env : Env) (baseDir imgTag : string)
    : Regexp.outcome string :=
  match Regexp.srcRe_FindStringSubmatch imgTag with
  | None => Regexp.Done imgTag
  | Some m =>
      m3 ← Regexp.index m 3;
      '(srcContent, quoteChar) ←
        (if String.eqb m3 ""
         then m4 ← Regexp.index m 4; Regexp.Done (m4, "'")
         else Regexp.Done (m3, String Regexp.dquote EmptyString));
      if remote_src srcContent then Regexp.Done imgTag
      else
        let fullPath := image_path baseDir srcContent in
        match os_ReadFile env fullPath with
        | Err _ => Regexp.Done imgTag
        | Ok data =>
            let mimeType := http_DetectContentType data in
            let base64Data := Base64.EncodeToString data in
            let newDataURI :=
              String.append "data:" (String.append mimeType
                (String.append ";base64," base64Data)) in
            m1 ← Regexp.index m 1;
            let newSrcAttr :=
              String.append m1 (String.append "src="
                (String.append quoteChar
                   (String.append newDataURI quoteChar))) in
            m0 ← Regexp.index m 0;
            Regexp.Done (Strings.Replace imgTag m0 newSrcAttr 1)
        end
  end.

(** The body of [inlineLocalImages], before the deferred [recover]. *)
Definition inlineLocalImages_body (env : Env) (htmlContent htmlFilePath : string)
    : Regexp.outcome string :=
  let baseDir := filepath_Dir htmlFilePath in
  Regexp.ReplaceAllStringFunc Regexp.imgTagRe_at htmlContent
    (inline_tag env baseDir).

(** A recovered panic ends the function with the zero value of its
    unnamed result, the empty string. *)
Definition inlineLocalImages (env : Env) (htmlContent htmlFilePath : string)
    : string :=
  match inlineLocalImages_body env htmlContent htmlFilePath with
  | Regexp.Done out => out
  | Regexp.Panic _ => ""
  end.

End Program.

(** ** The HTTP control API *)

Section Handlers.
Context `{GoLib}.

Local Abbreviation Effect := (@Effect float64).
Local Abbreviation Placed := (@Placed float64).
Local Abbreviation Started := (@Started float64).

(** A handler's result: the response, the stores afterwards, and what it
    did to the outside. *)
Definition Reply : Type := ResponseWriter * Server * list Effect.

Definition listenAddr : string := String.append "127.0.0.1:" (itoa APP_PORT).
Definition targetUrl : string := String.append "http://" listenAddr.

(** Deferred functions run when the handler returns, on every path. *)
Definition defer (cleanup : Server → Server) (body : Reply) : Reply :=
  let '(w, srv, eff) := body in (w, cleanup srv, eff).

Definition SW_HIDE : Z := 0.

(** *** Native dialogs *)

Definition getNativeOpenDialog (env : Env) : res string :=
  let '(ret, buf) := GetOpenFileNameW env in
  if (ret =? 0)%Z then Err "cancelled" else Ok buf.

Definition getNativeSaveDialog (env : Env) (filterType : string) : res string :=
  let defExt :=
    if String.eqb filterType "pdf" then "pdf"
    else if String.eqb filterType "md" then "md"
    else "html" in
  let '(ret, buf) := GetSaveFileNameW env defExt in
  if (ret =? 0)%Z then Err "cancelled" else Ok buf.

(** *** Routes, in the order the handler tests them *)

Definition serve_kill (w : ResponseWriter) (srv : Server) : Reply :=
  (WriteHeader StatusOK w,
   set_locks (unlockAll (locks srv)) srv,
   [Go [TimeSleep (100 * time_Millisecond); OsExit 0]]).

Definition serve_lock (env : Env) (r : Request) (w : ResponseWriter)
    (srv : Server) : Reply :=
  let srv' :=
    match decode_LockRequest (body_json r) with
    | Ok req =>
        if negb (String.eqb (LockPath req) "")
        then set_locks (lockFile (os_Open env (LockPath req)) (LockPath req)
                          (locks srv)) srv
        else srv
    | Err _ => srv
    end in
  (WriteHeader StatusOK w, srv', []).

Definition serve_unlock (r : Request) (w : ResponseWriter) (srv : Server)
    : Reply :=
  let srv' :=
    match decode_LockRequest (body_json r) with
    | Ok req =>
        if negb (String.eqb (LockPath req) "")
        then set_locks (unlockFile (LockPath req) (locks srv)) srv
        else srv
    | Err _ => srv
    end in
  (WriteHeader StatusOK w, srv', []).

Definition serve_dialog_open (env : Env) (w : ResponseWriter) (srv : Server)
    : Reply :=
  let w := Header_Set "Content-Type" "application/json" w in
  match getNativeOpenDialog env with
  | Err _ => (Encode (json_of_DialogResponse {| Path := "" |}) w, srv, [])
  | Ok path => (Encode (json_of_DialogResponse {| Path := path |}) w, srv, [])
  end.

Definition serve_dialog_save (env : Env) (r : Request) (w : ResponseWriter)
    (srv : Server) : Reply :=
  let filter := Query_Get r "filter" in
  let w := Header_Set "Content-Type" "application/json" w in
  match getNativeSaveDialog env filter with
  | Err _ => (Encode (json_of_DialogResponse {| Path := "" |}) w, srv, [])
  | Ok path => (Encode (json_of_DialogResponse {| Path := path |}) w, srv, [])
  end.

Definition serve_cli_handover (env : Env) (r : Request) (w : ResponseWriter)
    (srv : Server) : Reply :=
  match decode_FileData (body_json r) with
  | Err e => (http_Error e StatusBadRequest w, srv, [])
  | Ok payload =>
      let payload :=
        match Base64.DecodeString (Data payload) with
        | Ok dataBytes =>
            let ext := strings_ToLower (filepath_Ext (FileName payload)) in
            if is_html_ext ext then
              let processed :=
                inlineLocalImages env dataBytes (FileName payload) in
              {| FileName := FileName payload;
                 Data := Base64.EncodeToString processed |}
            else payload
        | Err _ => payload
        end in
      let newID := generateID env in
      let srv := set_fileStore (<[newID := payload]> (fileStore srv)) srv in
      let url := String.append targetUrl (String.append "/?fileId=" newID) in
      (Write newID w, srv, [Go (openDefaultBrowser env url)])
  end.

Definition serve_open_file (env : Env) (r : Request) (w : ResponseWriter)
    (srv : Server) : Reply :=
  match Query_values r "path" with
  | filePath :: _ =>
      if String.eqb filePath "" then
        (http_Error "Empty file path" StatusBadRequest w, srv, [])
      else
        match os_ReadFile env filePath with
        | Err e =>
            (http_Error (String.append "Failed to read file: " e)
               StatusNotFound w, srv, [])
        | Ok content =>
            let ext := strings_ToLower (filepath_Ext filePath) in
            let '(mimeType, finalContent) :=
              if is_html_ext ext
              then ("text/html", inlineLocalImages env content filePath)
              else if String.eqb ext ".pdf" then ("application/pdf", content)
              else if String.eqb ext ".docx"
              then ("application/vnd.openxmlformats-officedocument.wordprocessingml.document",
                    content)
              else ("application/octet-stream", content) in
            let w := Header_Set "Content-Type" mimeType w in
            let w := Header_Set "X-File-Name"
                       (encodeHeaderValue (filepath_Base filePath)) w in
            let w := Header_Set "X-File-Path" (encodeHeaderValue filePath) w in
            let w := Header_Set "Content-Length"
                       (itoa (N.of_nat (Strings.len finalContent))) w in
            (Write finalContent w, srv, [])
        end
  | [] =>
      let targetID := Query_Get r "fileId" in
      match fileStore srv !! targetID with
      | Some data =>
          match Base64.DecodeString (Data data) with
          | Err _ =>
              (http_Error "Failed to decode stored file"
                 StatusInternalServerError w, srv, [])
          | Ok decoded =>
              let ext := strings_ToLower (filepath_Ext (FileName data)) in
              let mimeType :=
                if is_html_ext ext then "text/html"
                else "application/octet-stream" in
              let w := Header_Set "Content-Type" mimeType w in
              let w := Header_Set "X-File-Name"
                         (encodeHeaderValue (filepath_Base (FileName data))) w in
              let w := Header_Set "X-File-Path"
                         (encodeHeaderValue (FileName data)) w in
              let w := Header_Set "Content-Length"
                         (itoa (N.of_nat (Strings.len decoded))) w in
              (Write decoded w, srv, [])
          end
      | None => (http_Error "File ID not found" StatusNotFound w, srv, [])
      end
  end.

Definition serve_render_view (r : Request) (w : ResponseWriter) (srv : Server)
    : Reply :=
  let token := Query_Get r "token" in
  match renderStore srv !! token with
  | None => (http_NotFound w, srv, [])
  | Some html =>
      (Write html (Header_Set "Content-Type" "text/html; charset=utf-8" w),
       srv, [])
  end.

Definition render_view_request (token : string) : Request :=
  {| Method := "GET"; URLPath := "/api/render-view";
     Query := {[ "token" := [token] ]}; Body := OtherBody "" |}.

(** What the headless browser is served when it navigates to the render
    URL of [token]. *)
Definition render_page (token : string) (srv : Server) : ResponseWriter :=
  (serve_render_view (render_view_request token) new_response srv).1.1.

Definition renderURL (token : string) : string :=
  String.append targetUrl (String.append "/api/render-view?token=" token).

Definition serve_screenshot (env : Env) (r : Request) (w : ResponseWriter)
    (srv : Server) : Reply :=
  match decode_ScreenshotRequest (body_json r) with
  | Err _ => (http_Error "Invalid request body" StatusBadRequest w, srv, [])
  | Ok req =>
      if String.eqb (ShotHtml req) "" then
        (http_Error "HTML content is empty" StatusBadRequest w, srv, [])
      else
        let token := generateID env in
        let srv := set_renderStore (<[token := ShotHtml req]> (renderStore srv)) srv in
        defer (λ srv, set_renderStore (delete token (renderStore srv)) srv)
          (let job :=
             {| execPath := findBrowserPath env;
                deadline := 30 * time_Second;
                actions :=
                  [EmulateViewport (Width req) 1 "3.0";
                   Navigate (renderURL token);
                   WaitVisible ".ProseMirror";
                   Sleep (500 * time_Millisecond);
                   FullScreenshot 100] |} in
           match chromedp_Run env job (render_page token srv) with
           | Err e =>
               (http_Error (String.append "Chromedp Error: " e)
                  StatusInternalServerError w, srv,
                [Render job;
                 LogPrint (String.append "Error taking screenshot: " e)])
           | Ok buf =>
               let w := Header_Set "Content-Type" "image/png" w in
               let w := Header_Set "Content-Length"
                          (itoa (N.of_nat (Strings.len buf))) w in
               (Write buf w, srv, [Render job])
           end)
  end.

Definition serve_pdf (env : Env) (r : Request) (w : ResponseWriter)
    (srv : Server) : Reply :=
  match decode_PdfExportRequest (body_json r) with
  | Err _ => (http_Error "Invalid request body" StatusBadRequest w, srv, [])
  | Ok req =>
      if String.eqb (PdfHtml req) "" || String.eqb (PdfPath req) "" then
        (http_Error "HTML content or Path is empty" StatusBadRequest w, srv, [])
      else
        let token := generateID env in
        let srv := set_renderStore (<[token := PdfHtml req]> (renderStore srv)) srv in
        defer (λ srv, set_renderStore (delete token (renderStore srv)) srv)
          (let scale :=
             if float64_le_zero (Scale req) then float64_one else Scale req in
           let job :=
             {| execPath := findBrowserPath env;
                deadline := 60 * time_Second;
                actions :=
                  [Navigate (renderURL token);
                   WaitVisible ".ProseMirror";
                   Sleep (500 * time_Millisecond);
                   PrintToPDF true "8.27" "11.69" "0.4" "0.4" "0.4" "0.4" scale] |} in
           match chromedp_Run env job (render_page token srv) with
           | Err e =>
               (http_Error (String.append "Chromedp Error: " e)
                  StatusInternalServerError w, srv,
                [Render job;
                 LogPrint (String.append "Error generating PDF: " e)])
           | Ok buf =>
               match os_WriteFile env (PdfPath req) buf with
               | Err e =>
                   (http_Error "Failed to write PDF file"
                      StatusInternalServerError w, srv,
                    [Render job; FsWriteFile (PdfPath req) buf;
                     LogPrint (String.append "Error writing PDF file: " e)])
               | Ok _ =>
                   (WriteHeader StatusOK w, srv,
                    [Render job; FsWriteFile (PdfPath req) buf])
               end
           end)
  end.

(** *** Saving *)

Definition is_markdown_ext (inputExt : string) : bool :=
  String.eqb (strings_ToLower inputExt) ".md"
  || String.eqb (strings_ToLower inputExt) ".markdown".

Definition placement (env : Env) (inputPath : string) (hasAssets : bool)
    : Placed :=
  let inputDir := filepath_Dir inputPath in
  let inputName := filepath_Base inputPath in
  let inputExt := filepath_Ext inputName in
  let inputNameNoExt := Strings.TrimSuffix inputName inputExt in
  let parentDirName := filepath_Base inputDir in
  if is_markdown_ext inputExt then
    let finalHtmlPath := inputPath in
    let finalDir :=
      filepath_Join [inputDir; String.append inputNameNoExt "_assets"] in
    if hasAssets then
      match os_MkdirAll env finalDir with
      | Err _ =>
          PlaceFailed "Failed to create assets directory" [FsMkdirAll finalDir]
      | Ok _ => PlaceAt finalDir finalHtmlPath [FsMkdirAll finalDir]
      end
    else PlaceAt finalDir finalHtmlPath []
  else
    let shouldBundle :=
      if hasAssets
      then negb (strings_EqualFold parentDirName inputNameNoExt)
      else false in
    if shouldBundle then
      let finalDir := filepath_Join [inputDir; inputNameNoExt] in
      match os_MkdirAll env finalDir with
      | Err _ => PlaceFailed "Failed to create directory" [FsMkdirAll finalDir]
      | Ok _ =>
          PlaceAt finalDir (filepath_Join [finalDir; inputName])
            [FsMkdirAll finalDir]
      end
    else PlaceAt inputDir inputPath [].

(** [r.FormFile(key)]: the first part under [key], opened. *)
Definition FormFile (env : Env) (f : Form) (key : string) : res FileHeader :=
  match FormFiles f !! key with
  | Some (fh :: _) =>
      match FileHeader_Open env fh with
      | Ok _ => Ok fh
      | Err e => Err e
      end
  | _ => Err "http: no such file"
  end.

(** The asset loop: a part that cannot be opened is skipped, a file that
    cannot be created is skipped, the result of the copy is not looked
    at. *)
Fixpoint save_assets (env : Env) (finalDir : string)
    (assets : list FileHeader) : list Effect :=
  match assets with
  | [] => []
  | fileHeader :: rest =>
      match FileHeader_Open env fileHeader with
      | Err _ => save_assets env finalDir rest
      | Ok _ =>
          let assetPath := filepath_Join [finalDir; Filename fileHeader] in
          match os_Create env assetPath with
          | Ok _ =>
              FsCreate assetPath :: FsCopy assetPath (PartBytes fileHeader)
                :: save_assets env finalDir rest
          | Err _ => save_assets env finalDir rest
          end
      end
  end.

Definition json_error (msg : string) : JSON := JObject [("error", JString msg)].

Definition serve_save_file (env : Env) (r : Request) (w : ResponseWriter)
    (srv : Server) : Reply :=
  match ParseMultipartForm r with
  | Err _ =>
      (http_Error "Failed to parse multipart form" StatusBadRequest w, srv, [])
  | Ok form =>
      let inputPath := FormValue r form "filePath" in
      if String.eqb inputPath "" then
        (http_Error "File path is empty" StatusBadRequest w, srv, [])
      else
        let assets := default [] (FormFiles form !! "assets") in
        let hasAssets := (0 <? length assets)%nat in
        match placement env inputPath hasAssets with
        | PlaceFailed msg eff =>
            (http_Error msg StatusInternalServerError w, srv, eff)
        | PlaceAt finalDir finalHtmlPath eff =>
            match FormFile env form "html" with
            | Err _ =>
                (http_Error "Content file part missing" StatusBadRequest w,
                 srv, eff)
            | Ok htmlFile =>
                let srv :=
                  set_locks (unlockFile finalHtmlPath (locks srv)) srv in
                match os_Create env finalHtmlPath with
                | Err e =>
                    let srv :=
                      set_locks (lockFile (os_Open env finalHtmlPath)
                                   finalHtmlPath (locks srv)) srv in
                    let w := WriteHeader StatusInternalServerError w in
                    (Encode (json_error
                               (String.append "Failed to write file: "
                                  (String.append e
                                     ". The file might be open in another program.")))
                       w, srv, eff)
                | Ok _ =>
                    let eff :=
                      (eff ++ [FsCreate finalHtmlPath;
                               FsCopy finalHtmlPath (PartBytes htmlFile)])%list in
                    match io_Copy env finalHtmlPath (PartBytes htmlFile) with
                    | Err e =>
                        let srv :=
                          set_locks (lockFile (os_Open env finalHtmlPath)
                                       finalHtmlPath (locks srv)) srv in
                        let w := WriteHeader StatusInternalServerError w in
                        (Encode (json_error
                                   (String.append "Failed to save content: " e))
                           w, srv, eff)
                    | Ok _ =>
                        let eff :=
                          if hasAssets
                          then (eff ++ save_assets env finalDir assets)%list
                          else eff in
                        let w := Header_Set "Content-Type" "application/json" w in
                        (Encode (json_of_DialogResponse {| Path := finalHtmlPath |})
                           w, srv, eff)
                    end
                end
            end
        end
  end.

(** *** The handler registered on the root pattern *)

Definition cors_headers (w : ResponseWriter) : ResponseWriter :=
  let w := Header_Set "Access-Control-Allow-Origin" "*" w in
  let w := Header_Set "Access-Control-Allow-Methods" "GET, POST, OPTIONS" w in
  Header_Set "Access-Control-Allow-Headers" "Content-Type" w.

Definition handler (env : Env) (r : Request) (srv : Server) : Reply :=
  let w := cors_headers new_response in
  let post := String.eqb (Method r) "POST" in
  let at_ path := String.eqb (URLPath r) path in
  if String.eqb (Method r) "OPTIONS" then (WriteHeader StatusOK w, srv, [])
  else if at_ "/api/kill" then serve_kill w srv
  else if at_ "/api/file/lock" && post then serve_lock env r w srv
  else if at_ "/api/file/unlock" && post then serve_unlock r w srv
  else if at_ "/api/dialog/open" then serve_dialog_open env w srv
  else if at_ "/api/dialog/save" then serve_dialog_save env r w srv
  else if at_ "/api/cli-handover" && post then serve_cli_handover env r w srv
  else if at_ "/api/open-file" then serve_open_file env r w srv
  else if at_ "/api/render-view" then serve_render_view r w srv
  else if at_ "/api/export/screenshot" && post then serve_screenshot env r w srv
  else if at_ "/api/export/pdf" && post then serve_pdf env r w srv
  else if at_ "/api/save-file" && post then serve_save_file env r w srv
  else (FileServer env r w, srv, []).

(** ** [main] *)

Definition hide_console (env : Env) : list Effect :=
  if is_windows then
    let hwnd := GetConsoleWindow env in
    if (hwnd =? 0)%Z then [] else [ShowWindow hwnd SW_HIDE]
  else [].

(** The branch taken when the port is busy. *)
Definition hand_over (env : Env) (args : list string) : list Effect :=
  match args with
  | _ :: filePath :: _ =>
      let absPath := filepath_Abs filePath in
      match os_Stat env absPath with
      | Ok info =>
          if negb (IsDir info) then
            match os_ReadFile env absPath with
            | Ok content =>
                let payload :=
                  {| FileName := absPath;
                     Data := Base64.EncodeToString content |} in
                let jsonData := json_of_FileData payload in
                let url := String.append targetUrl "/api/cli-handover" in
                HttpPost url "application/json" jsonData (2 * time_Second) ::
                match http_Post env url jsonData with
                | Ok _ => []
                | Err _ => []
                end
            | Err _ => []
            end
          else []
      | Err _ => []
      end
  | _ => openDefaultBrowser env targetUrl
  end.

(** The file named on the command line, put into the file store. *)
Definition initial_file (env : Env) (args : list string)
    : string * gmap string FileData :=
  match args with
  | _ :: filePath :: _ =>
      let absPath := filepath_Abs filePath in
      match os_Stat env absPath with
      | Ok info =>
          if negb (IsDir info) then
            match os_ReadFile env absPath with
            | Ok content =>
                let ext := strings_ToLower (filepath_Ext absPath) in
                let finalContent :=
                  if is_html_ext ext
                  then inlineLocalImages env content absPath
                  else content in
                let initialID := generateID env in
                (initialID,
                 {[ initialID := {| FileName := absPath;
                                    Data := Base64.EncodeToString finalContent |} ]})
            | Err _ => ("", ∅)
            end
          else ("", ∅)
      | Err _ => ("", ∅)
      end
  | _ => ("", ∅)
  end.

Definition main (env : Env) (args : list string) : Started :=
  let hidden := hide_console env in
  match net_Listen env listenAddr with
  | Err _ => Secondary (hidden ++ hand_over env args)
  | Ok _ =>
      let '(initialID, store) := initial_file env args in
      let launch :=
        if negb (String.eqb initialID "")
        then openDefaultBrowser env
               (String.append targetUrl (String.append "/?fileId=" initialID))
        else openDefaultBrowser env targetUrl in
      Primary (set_fileStore store empty_server)
        (hidden ++ [Go [HttpServe listenAddr];
                    Go (TimeSleep (200 * time_Millisecond) :: launch);
                    RunTrayApp targetUrl])
  end.

End Handlers.

(** ** A reference library: Go on Linux, ASCII text

    An executable implementation of [GoLib], used to run the program on
    concrete inputs: [path/filepath] as on Unix (separator [/], no volume
    names), case mapping on ASCII letters, [net/url] on bytes, and the
    image signatures of the content sniffer. *)

Module Linux.

Definition is_sep (c : ascii) : bool := Ascii.eqb c "/".

(** [strings.Split(path, sep)] *)
Fixpoint split (path : string) : list string :=
  match path with
  | EmptyString => [EmptyString]
  | String c rest =>
      if is_sep c then EmptyString :: split rest
      else match split rest with
           | x :: xs => String c x :: xs
           | [] => [String c EmptyString]
           end
  end.

Fixpoint join (elems : list string) : string :=
  match elems with
  | [] => EmptyString
  | [x] => x
  | x :: xs => String.append x (String "/" (join xs))
  end.

(** One element of the path against the elements kept so far (last
    first): empty and dot elements vanish, a dot-dot element removes the
    element before it, or stays when the path is relative and nothing is
    left to remove. *)
Definition clean_step (rooted : bool) (kept : list string) (elem : string)
    : list string :=
  if String.eqb elem "" || String.eqb elem "." then kept
  else if String.eqb elem ".." then
    match kept with
    | top :: below => if String.eqb top ".." then elem :: kept else below
    | [] => if rooted then [] else [elem]
    end
  else elem :: kept.

Definition Clean (path : string) : string :=
  match path with
  | EmptyString => "."
  | String c _ =>
      let rooted := is_sep c in
      let kept := fold_left (clean_step rooted) (split path) [] in
      let out := String.append (if rooted then "/" else "") (join (rev kept)) in
      if String.eqb out "" then "." else out
  end.

Definition has_sep (s : string) : bool :=
  existsb is_sep (list_ascii_of_string s).

(** [path[:i+1]] for the last separator [i]. *)
Fixpoint through_last_sep (path : string) : string :=
  match path with
  | EmptyString => EmptyString
  | String c rest =>
      if has_sep path then String c (through_last_sep rest) else EmptyString
  end.

Definition Dir (path : string) : string := Clean (through_last_sep path).

Fixpoint strip_trailing_seps (path : string) : string :=
  match path with
  | EmptyString => EmptyString
  | String c rest =>
      if forallb is_sep (list_ascii_of_string path) then EmptyString
      else String c (strip_trailing_seps rest)
  end.

Definition Base (path : string) : string :=
  match path with
  | EmptyString => "."
  | _ =>
      let path := strip_trailing_seps path in
      let path := Strings.drop (Strings.len (through_last_sep path)) path in
      if String.eqb path "" then "/" else path
  end.

(** The suffix from the last dot of the last element. *)
Fixpoint from_last_dot (elem : string) : string :=
  match elem with
  | EmptyString => EmptyString
  | String c rest =>
      if Strings.contains_byte rest "." then from_last_dot rest
      else if Ascii.eqb c "." then elem
      else EmptyString
  end.

Definition Ext (path : string) : string :=
  from_last_dot (Strings.drop (Strings.len (through_last_sep path)) path).

Fixpoint Join (elem : list string) : string :=
  match elem with
  | [] => EmptyString
  | e :: rest => if String.eqb e "" then Join rest else Clean (join elem)
  end.

Definition cwd : string := "/home/user".

Definition Abs (path : string) : string :=
  if Strings.HasPrefix path "/" then Clean path else Join [cwd; path].

Definition lower (c : ascii) : ascii :=
  let n := N_of_ascii c in
  if (65 <=? n)%N && (n <=? 90)%N then ascii_of_N (n + 32) else c.

Fixpoint ToLower (s : string) : string :=
  match s with
  | EmptyString => EmptyString
  | String c rest => String (lower c) (ToLower rest)
  end.

Definition EqualFold (s t : string) : bool := String.eqb (ToLower s) (ToLower t).

Definition upperhex : string := "0123456789ABCDEF".

Definition unreserved (c : ascii) : bool :=
  let n := N_of_ascii c in
  ((65 <=? n)%N && (n <=? 90)%N) || ((97 <=? n)%N && (n <=? 122)%N)
  || is_digit c || Strings.contains_byte "-_.~" c.

Fixpoint QueryEscape (s : string) : string :=
  match s with
  | EmptyString => EmptyString
  | String c rest =>
      if unreserved c then String c (QueryEscape rest)
      else if Ascii.eqb c " " then String "+" (QueryEscape rest)
      else
        let n := N_of_ascii c in
        let hi := nth (N.to_nat (n / 16)) (list_ascii_of_string upperhex) "0"%char in
        let lo := nth (N.to_nat (n mod 16)) (list_ascii_of_string upperhex) "0"%char in
        String "%" (String hi (String lo (QueryEscape rest)))
  end.

Definition unhex (c : ascii) : option N :=
  let n := N_of_ascii c in
  if is_digit c then Some (n - 48)%N
  else if (97 <=? n)%N && (n <=? 102)%N then Some (n - 87)%N
  else if (65 <=? n)%N && (n <=? 70)%N then Some (n - 55)%N
  else None.

Fixpoint QueryUnescape (s : string) : res string :=
  match s with
  | EmptyString => Ok EmptyString
  | String c rest =>
      if Ascii.eqb c "%" then
        match rest with
        | String a (String b rest') =>
            match unhex a, unhex b, QueryUnescape rest' with
            | Some x, Some y, Ok out => Ok (String (ascii_of_N (16 * x + y)) out)
            | Some _, Some _, Err e => Err e
            | _, _, _ => Err "invalid URL escape"
            end
        | _ => Err "invalid URL escape"
        end
      else
        match QueryUnescape rest with
        | Ok out => Ok (String (if Ascii.eqb c "+" then " "%char else c) out)
        | Err e => Err e
        end
  end.

Definition png_signature : string :=
  String "137" (String.append "PNG" (String "013" (String "010"
    (String "026" (String "010" EmptyString))))).

Definition jpeg_signature : string :=
  String "255" (String "216" (String "255" EmptyString)).

Definition DetectContentType (data : string) : string :=
  if Strings.HasPrefix data png_signature then "image/png"
  else if Strings.HasPrefix data jpeg_signature then "image/jpeg"
  else if Strings.HasPrefix data "GIF87a" || Strings.HasPrefix data "GIF89a"
  then "image/gif"
  else "application/octet-stream".

(** Plain decimal literals, as rationals. *)
Fixpoint fraction (num den : Z) (s : string) : option Q :=
  match s with
  | EmptyString => Some (Qmake num (Z.to_pos den))
  | String c rest =>
      if is_digit c
      then fraction (10 * num + Z.of_N (N_of_ascii c - 48)) (10 * den) rest
      else None
  end.

Fixpoint decimal (num : Z) (s : string) : option Q :=
  match s with
  | EmptyString => Some (inject_Z num)
  | String c rest =>
      if is_digit c then decimal (10 * num + Z.of_N (N_of_ascii c - 48)) rest
      else if Ascii.eqb c "." then fraction num 1 rest
      else None
  end.

Definition ParseFloat (lit : string) : res Q :=
  let parsed :=
    match lit with
    | String "-" rest => Qopp <$> decimal 0 rest
    | _ => decimal 0 lit
    end in
  match parsed with
  | Some q => Ok q
  | None => Err "strconv.ParseFloat: invalid syntax"
  end.

Definition lib : GoLib :=
  {| GOOS := "linux";
     filepath_Clean := Clean;
     filepath_Dir := Dir;
     filepath_Base := Base;
     filepath_Ext := Ext;
     filepath_Join := Join;
     filepath_FromSlash := λ s, s;
     filepath_Abs := Abs;
     strings_ToLower := ToLower;
     strings_EqualFold := EqualFold;
     url_QueryEscape := QueryEscape;
     url_QueryUnescape := QueryUnescape;
     http_DetectContentType := DetectContentType;
     float64 := Q;
     float64_zero := 0%Q;
     float64_one := 1%Q;
     float64_le_zero := λ q, Qle_bool q 0;
     strconv_ParseFloat := ParseFloat |}.

(** An environment in which nothing exists and nothing succeeds; the
    examples override the answers they need. *)
Definition failing {A} (what : string) : res A := Err what.

Definition bare_env : @Env lib :=
  {| rand_Read := "";
     os_Open := λ _, failing "open: no such file or directory";
     os_Create := λ _, failing "create: permission denied";
     os_MkdirAll := λ _, failing "mkdir: permission denied";
     os_ReadFile := λ _, failing "read: no such file or directory";
     os_WriteFile := λ _ _, failing "write: permission denied";
     os_Stat := λ _, failing "stat: no such file or directory";
     os_Getenv := λ _, "";
     io_Copy := λ _ _, failing "copy: input/output error";
     FileHeader_Open := λ _, Ok tt;
     exec_Start := λ _, Ok tt;
     GetConsoleWindow := 0;
     GetOpenFileNameW := (0%Z, "");
     GetSaveFileNameW := λ _, (0%Z, "");
     chromedp_Run := λ _ _, failing "context deadline exceeded";
     net_Listen := λ _, failing "bind: address already in use";
     http_Post := λ _ _, failing "connection refused";
     FileServer := λ _ w, http_NotFound w |}.

End Linux.

(** ** Vocabulary of the properties *)

Section LockInvariant.
Context `{GoLib}.

(** Every open handle is the one registered under its canonical path,
    every registered handle is open, and descriptors are not reused. *)
Record locks_ok (st : Locks) : Prop := {
  ok_open_registered :
    ∀ f, f ∈ openFiles (handles st) →
         activeFileHandles st !! getLockKey (fname f) = Some f;
  ok_registered_open :
    ∀ k f, activeFileHandles st !! k = Some f →
           f ∈ openFiles (handles st) ∧ getLockKey (fname f) = k;
  ok_fresh :
    ∀ f, f ∈ openFiles (handles st) → (fd f < nextFd (handles st))%nat;
  ok_nodup : NoDup (fd <$> openFiles (handles st))
}.

End LockInvariant.

Section Vocabulary.
Context `{GoLib}.

(** The writer a route receives: fresh, with the CORS headers set. *)
Definition w0 : ResponseWriter := cors_headers new_response.

Definition path_body (path : string) : list Chunk :=
  [JSONLine (JObject [("path", JString path)])].

(** The default extension the save dialog is opened with. *)
Definition save_dialog_defExt (r : Request) : string :=
  let filter := Query_Get r "filter" in
  if String.eqb filter "pdf" then "pdf"
  else if String.eqb filter "md" then "md" else "html".

End Vocabulary.

(** ** Sample requests *)

Definition get (path : string) (query : gmap string (list string)) : Request :=
  {| Method := "GET"; URLPath := path; Query := query; Body := OtherBody "" |}.

Definition post_json (path : string) (doc : JSON) : Request :=
  {| Method := "POST"; URLPath := path; Query := ∅; Body := JSONBody doc |}.

Definition post_form (path : string) (form : Form) : Request :=
  {| Method := "POST"; URLPath := path; Query := ∅; Body := MultipartBody form |}.

Definition dialog_open_request : Request := get "/api/dialog/open" ∅.

Definition render_view_get (token : string) : Request :=
  get "/api/render-view" {[ "token" := [token] ]}.

Definition screenshot_request : Request :=
  post_json "/api/export/screenshot"
    (JObject [("html", JString "<div class='ProseMirror'>hi</div>");
              ("width", JNumber "800")]).

Definition open_file_by_id (id : string) : Request :=
  get "/api/open-file" {[ "fileId" := [id] ]}.

Definition handover_request (fileName data : string) : Request :=
  post_json "/api/cli-handover"
    (JObject [("fileName", JString fileName); ("data", JString data)]).

Section SaveVocabulary.
Context `{GoLib}.

Local Abbreviation Effect := (@Effect float64).

(** The parts of a save request the handler looks at. *)
Definition save_inputPath (r : Request) (form : Form) : string :=
  FormValue r form "filePath".

Definition save_assets_of (form : Form) : list FileHeader :=
  default [] (FormFiles form !! "assets").

Definition save_hasAssets (form : Form) : bool :=
  (0 <? length (save_assets_of form))%nat.

Definition error_body (msg : string) : list Chunk :=
  [JSONLine (JObject [("error", JString msg)])].

(** What the asset loop does for one part. *)
Definition asset_effects (env : Env) (finalDir : string) (fh : FileHeader)
    : list Effect :=
  let assetPath := filepath_Join [finalDir; Filename fh] in
  if is_ok (FileHeader_Open env fh) && is_ok (os_Create env assetPath)
  then [FsCreate assetPath; FsCopy assetPath (PartBytes fh)]
  else [].

End SaveVocabulary.

(** An environment given by the answers the examples vary; the rest is
    as in [Linux.bare_env]. *)
Definition sample_env (open create mkdir : string → res unit)
    (copy : string → string → res unit) (read : string → res string)
    (stat : string → res FileInfo) (part : FileHeader → res unit)
    : @Env Linux.lib :=
  {| rand_Read := "winhtml!";
     os_Open := open;
     os_Create := create;
     os_MkdirAll := mkdir;
     os_ReadFile := read;
     os_WriteFile := λ _ _, Ok tt;
     os_Stat := stat;
     os_Getenv := λ _, "";
     io_Copy := copy;
     FileHeader_Open := part;
     exec_Start := λ _, Ok tt;
     GetConsoleWindow := 0;
     GetOpenFileNameW := (0%Z, "");
     GetSaveFileNameW := λ _, (0%Z, "");
     chromedp_Run := λ _ _, Err "context deadline exceeded";
     net_Listen := λ _, Err "bind: address already in use";
     http_Post := λ _ _, Err "connection refused";
     FileServer := λ _ w, http_NotFound w |}.

Definition granted : string → res unit := λ _, Ok tt.
Definition denied : string → res unit := λ _, Err "permission denied".
Definition only (path : string) : string → res unit :=
  λ p, if String.eqb p path then Ok tt else Err "permission denied".

(** Every file operation succeeds. *)
Definition willing_env : @Env Linux.lib :=
  sample_env granted granted granted (λ _ _, Ok tt)
    (λ _, Err "no such file or directory")
    (λ _, Err "no such file or directory") (λ _, Ok tt).

(** The document can be written, no asset can. *)
Definition document_only_env (document : string) : @Env Linux.lib :=
  sample_env granted (only document) granted (λ _ _, Ok tt)
    (λ _, Err "no such file or directory")
    (λ _, Err "no such file or directory") (λ _, Ok tt).

(** The target cannot be created but can be opened for reading. *)
Definition read_only_env : @Env Linux.lib :=
  sample_env granted denied granted (λ _ _, Ok tt)
    (λ _, Err "no such file or directory")
    (λ _, Err "no such file or directory") (λ _, Ok tt).

Definition save_form (filePath html : string) (assets : list FileHeader) : Form :=
  {| FormValues := {[ "filePath" := [filePath] ]};
     FormFiles :=
       <[ "html" := [{| Filename := "content"; PartBytes := html |}] ]>
         (match assets with
          | [] => ∅
          | _ => {[ "assets" := assets ]}
          end) |}.

Definition save_request (filePath html : string) (assets : list FileHeader)
    : Request :=
  post_form "/api/save-file" (save_form filePath html assets).

Definition logo : FileHeader := {| Filename := "logo.png"; PartBytes := "PNG" |}.

(** The text of a document cut at the image tags the scanner finds. *)
Inductive Segment : Type :=
| Text (c : ascii)
| ImgTag (tag : string).

Fixpoint segments_from (skip : nat) (s : string) : list Segment :=
  match s with
  | EmptyString => []
  | String c rest =>
      match skip with
      | S k => segments_from k rest
      | O =>
          match Regexp.imgTagRe_at s with
          | Some n => ImgTag (Strings.take n s) :: segments_from (Nat.pred n) rest
          | None => Text c :: segments_from 0 rest
          end
      end
  end.

Definition segments (s : string) : list Segment := segments_from 0 s.

Definition is_tag (seg : Segment) : bool :=
  match seg with ImgTag _ => true | Text _ => false end.


Definition concat_strings (l : list string) : string :=
  fold_right String.append EmptyString l.

(** *** The two patterns of [inlineLocalImages], read as descriptions
    of text *)











(** Sample documents: an image whose [src] is remote and whose [alt]
    text holds a quoted [src=]; the same without the [src] attribute;
    and an image tag inside a comment. *)
Definition quoted (s : string) : string :=
  String Regexp.dquote (s +:+ String Regexp.dquote "").




Section InlineVocabulary.
Context `{GoLib}.

Local Abbreviation Effect := (@Effect float64).
Local Abbreviation Started := (@Started float64).






(** Whether an effect, or a goroutine it starts, runs the HTTP API or
    the tray loop. *)
Fixpoint starts_service (e : Effect) : bool :=
  match e with
  | HttpServe _ | RunTrayApp _ => true
  | Go body => existsb starts_service body
  | _ => false
  end.

Definition is_post (e : Effect) : bool :=
  match e with HttpPost _ _ _ _ => true | _ => false end.

Definition trace_of (s : Started) : list Effect :=
  match s with Secondary trace | Primary _ trace => trace end.

Definition handover_post (absPath content : string) : Effect :=
  HttpPost (String.append targetUrl "/api/cli-handover") "application/json"
    (JObject [("fileName", JString absPath);
              ("data", JString (Base64.EncodeToString content))])
    (2 * time_Second).

End InlineVocabulary.

(** The port is taken; the file named on the command line exists but
    cannot be read. *)
Definition unreadable_env : @Env Linux.lib :=
  sample_env granted granted granted (λ _ _, Ok tt)
    (λ _, Err "The process cannot access the file")
    (λ _, Ok {| IsDir := false |}) (λ _, Ok tt).

(** The port is taken; the file named on the command line can be read. *)
Definition readable_env : @Env Linux.lib :=
  sample_env granted granted granted (λ _ _, Ok tt)
    (λ _, Ok "hello")
    (λ _, Ok {| IsDir := false |}) (λ _, Ok tt).

(** A document with one local image that can be read, one remote image,
    one missing image and one tag without [src]. *)
Definition image_env : @Env Linux.lib :=
  sample_env granted granted granted (λ _ _, Ok tt)
    (λ p, if String.eqb p "/docs/img/photo 1.png" then Ok "PNGDATA"
          else Err "no such file or directory")
    (λ _, Err "no such file or directory") (λ _, Ok tt).

Definition sample_page : string :=
  "<p>Hi</p><img alt='a' src='img/photo%201.png?v=2'><IMG SRC='http://x/y.png'><img src='missing.png'><img data-src='q'>tail".

(** ** The states of a running primary instance *)

Section Serving.
Context `{GoLib}.

(** The stores [main] sets up, and the stores after any number of
    requests, each answered in whatever environment it meets. *)
Inductive serving : Server → Prop :=
| serving_start env args srv trace :
    main env args = Primary srv trace → serving srv
| serving_step env r srv :
    serving srv → serving (handler env r srv).1.2.

(** The shape of the identifiers [generateID] hands out. *)
Definition is_ID (id : string) : bool :=
  (String.length id =? 16)%nat
  && forallb Hex.is_lower_hex (list_ascii_of_string id).

(** What a handler did besides answering: nothing. *)
Definition untouched (srv : Server) (reply : Reply) : Prop :=
  reply.1.2 = srv ∧ reply.2 = [].

End Serving.

(** More sample requests. *)
Definition options (path : string) : Request :=
  {| Method := "OPTIONS"; URLPath := path; Query := ∅; Body := OtherBody "" |}.

Definition lock_request (path : string) : Request :=
  post_json "/api/file/lock" (JObject [("path", JString path)]).

Definition unlock_request (path : string) : Request :=
  post_json "/api/file/unlock" (JObject [("path", JString path)]).

Definition open_file_by_path (path : string) : Request :=
  get "/api/open-file" {[ "path" := [path] ]}.

Definition garbage_post (path : string) : Request :=
  {| Method := "POST"; URLPath := path; Query := ∅; Body := OtherBody "{" |}.

(** Sample environments that differ from a given one in one answer. *)
Definition with_dialogs (ret : Z) (path : string) (env : @Env Linux.lib)
    : @Env Linux.lib :=
  {| rand_Read := rand_Read env;
     os_Open := os_Open env;
     os_Create := os_Create env;
     os_MkdirAll := os_MkdirAll env;
     os_ReadFile := os_ReadFile env;
     os_WriteFile := os_WriteFile env;
     os_Stat := os_Stat env;
     os_Getenv := os_Getenv env;
     io_Copy := io_Copy env;
     FileHeader_Open := FileHeader_Open env;
     exec_Start := exec_Start env;
     GetConsoleWindow := GetConsoleWindow env;
     GetOpenFileNameW := (ret, path);
     GetSaveFileNameW := λ _, (ret, path);
     chromedp_Run := chromedp_Run env;
     net_Listen := net_Listen env;
     http_Post := http_Post env;
     FileServer := FileServer env |}.

Definition with_render (answer : res string) (env : @Env Linux.lib)
    : @Env Linux.lib :=
  {| rand_Read := rand_Read env;
     os_Open := os_Open env;
     os_Create := os_Create env;
     os_MkdirAll := os_MkdirAll env;
     os_ReadFile := os_ReadFile env;
     os_WriteFile := os_WriteFile env;
     os_Stat := os_Stat env;
     os_Getenv := os_Getenv env;
     io_Copy := io_Copy env;
     FileHeader_Open := FileHeader_Open env;
     exec_Start := exec_Start env;
     GetConsoleWindow := GetConsoleWindow env;
     GetOpenFileNameW := GetOpenFileNameW env;
     GetSaveFileNameW := GetSaveFileNameW env;
     chromedp_Run := λ _ _, answer;
     net_Listen := net_Listen env;
     http_Post := http_Post env;
     FileServer := FileServer env |}.

Definition with_listen (answer : res unit) (env : @Env Linux.lib)
    : @Env Linux.lib :=
  {| rand_Read := rand_Read env;
     os_Open := os_Open env;
     os_Create := os_Create env;
     os_MkdirAll := os_MkdirAll env;
     os_ReadFile := os_ReadFile env;
     os_WriteFile := os_WriteFile env;
     os_Stat := os_Stat env;
     os_Getenv := os_Getenv env;
     io_Copy := io_Copy env;
     FileHeader_Open := FileHeader_Open env;
     exec_Start := exec_Start env;
     GetConsoleWindow := GetConsoleWindow env;
     GetOpenFileNameW := GetOpenFileNameW env;
     GetSaveFileNameW := GetSaveFileNameW env;
     chromedp_Run := chromedp_Run env;
     net_Listen := λ _, answer;
     http_Post := http_Post env;
     FileServer := FileServer env |}.

Definition sample_dialog_env (ret : Z) (path : string) : @Env Linux.lib :=
  with_dialogs ret path willing_env.

(** The port is free and the file on the command line can be read. *)
Definition primary_env : @Env Linux.lib := with_listen (Ok tt) readable_env.

Definition pdf_request (html path : string) : Request :=
  post_json "/api/export/pdf"
    (JObject [("html", JString html); ("path", JString path);
              ("scale", JNumber "0")]).

(** A save form that names a path but carries no content part. *)
Definition form_without_content : Form :=
  {| FormValues := {[ "filePath" := ["/docs/a.md"] ]}; FormFiles := ∅ |}.

(** The reference library on a machine that reports Windows.  Only
    [runtime.GOOS] differs: the branches on the operating system do not
    consult the path functions. *)
Definition windows_lib : GoLib :=
  {| GOOS := "windows";
     filepath_Clean := Linux.Clean;
     filepath_Dir := Linux.Dir;
     filepath_Base := Linux.Base;
     filepath_Ext := Linux.Ext;
     filepath_Join := Linux.Join;
     filepath_FromSlash := λ s, s;
     filepath_Abs := Linux.Abs;
     strings_ToLower := Linux.ToLower;
     strings_EqualFold := Linux.EqualFold;
     url_QueryEscape := Linux.QueryEscape;
     url_QueryUnescape := Linux.QueryUnescape;
     http_DetectContentType := Linux.DetectContentType;
     float64 := Q;
     float64_zero := 0%Q;
     float64_one := 1%Q;
     float64_le_zero := λ q, Qle_bool q 0;
     strconv_ParseFloat := Linux.ParseFloat |}.

(** A Windows machine on which exactly the files [installed] exist. *)
Definition windows_env (installed : list string) : @Env windows_lib :=
  {| rand_Read := "winhtml!";
     os_Open := λ _, Err "open: access denied";
     os_Create := λ _, Err "create: access denied";
     os_MkdirAll := λ _, Err "mkdir: access denied";
     os_ReadFile := λ _, Err "read: file not found";
     os_WriteFile := λ _ _, Err "write: access denied";
     os_Stat := λ p, if existsb (String.eqb p) installed
                     then Ok {| IsDir := false |}
                     else Err "stat: file not found";
     os_Getenv := λ _, "";
     io_Copy := λ _ _, Err "copy: input/output error";
     FileHeader_Open := λ _, Ok tt;
     exec_Start := λ _, Ok tt;
     GetConsoleWindow := 0;
     GetOpenFileNameW := (0%Z, "");
     GetSaveFileNameW := λ _, (0%Z, "");
     chromedp_Run := λ _ _, Err "context deadline exceeded";
     net_Listen := λ _, Err "bind: address already in use";
     http_Post := λ _ _, Err "connection refused";
     FileServer := λ _ w, http_NotFound w |}.

(** The CORS headers every answer starts with. *)
Definition has_cors (w : ResponseWriter) : Prop :=
  Header w !! "Access-Control-Allow-Origin" = Some "*" ∧
  Header w !! "Access-Control-Allow-Methods" = Some "GET, POST, OPTIONS" ∧
  Header w !! "Access-Control-Allow-Headers" = Some "Content-Type".

(* ================================================================== *)
(** * Properties *)


Section FileLockingProofs.
Context `{GoLib}.

Lemma fd_unique (l : list File) f g :
  NoDup (fd <$> l) → f ∈ l → g ∈ l → fd f = fd g → f = g.
Proof.
  induction l as [|x l IH]; simpl; intros Hnd Hf Hg Heq.
  - inversion Hf.
  - apply NoDup_cons in Hnd as [Hx Hnd].
    apply elem_of_cons in Hf as [->|Hf]; apply elem_of_cons in Hg as [->|Hg].
    + done.
    + exfalso. apply Hx. rewrite Heq. by apply list_elem_of_fmap_2.
    + exfalso. apply Hx. rewrite <- Heq. by apply list_elem_of_fmap_2.
    + by apply IH.
Qed.

Lemma locks_ok_init : locks_ok no_locks.
Proof.
  split; simpl.
  - intros f Hf. inversion Hf.
  - intros k f Hk. rewrite lookup_empty in Hk. discriminate.
  - intros f Hf. inversion Hf.
  - constructor.
Qed.

Lemma locks_ok_lockFile open path st :
  locks_ok st → locks_ok (lockFile open path st).
Proof.
  intros Hok. unfold lockFile.
  destruct (activeFileHandles st !! getLockKey path) eqn:Hk; [done|].
  destruct open as [[]|msg]; [|done].
  destruct Hok as [Hor Hro Hfr Hnd].
  split; simpl.
  - intros f Hf. apply elem_of_cons in Hf as [->|Hf]; simpl.
    + by rewrite lookup_insert_eq.
    + rewrite lookup_insert_ne; [by apply Hor|].
      intros Heq. specialize (Hor f Hf). rewrite <- Heq in Hor. congruence.
  - intros k f Hf. destruct (decide (getLockKey path = k)) as [<-|Hne].
    + rewrite lookup_insert_eq in Hf. injection Hf as <-. simpl.
      split; [apply elem_of_cons; by left|done].
    + rewrite lookup_insert_ne in Hf by done.
      destruct (Hro k f Hf) as [Hin Hkey].
      split; [apply elem_of_cons; by right|done].
  - intros f Hf. apply elem_of_cons in Hf as [->|Hf]; simpl; [lia|].
    specialize (Hfr f Hf). lia.
  - apply NoDup_cons. split; [|done].
    intros Hin. apply list_elem_of_fmap in Hin as (g & Hfd & Hg).
    specialize (Hfr _ Hg). simpl in *. lia.
Qed.

(** Closing a handle removes exactly that handle. *)
Lemma elem_of_File_Close f g h :
  NoDup (fd <$> openFiles h) → f ∈ openFiles h →
  g ∈ openFiles (File_Close f h) ↔ g ∈ openFiles h ∧ g ≠ f.
Proof.
  intros Hnd Hf. unfold File_Close. simpl. rewrite list_elem_of_filter.
  split.
  - intros [Hne Hg]. split; [done|]. by intros ->.
  - intros [Hg Hne]. split; [|done].
    intros Heq. apply Hne. by apply (fd_unique (openFiles h)).
Qed.

Lemma NoDup_fd_filter (P : File → Prop) `{!∀ x, Decision (P x)} (l : list File) :
  NoDup (fd <$> l) → NoDup (fd <$> filter P l).
Proof.
  induction l as [|x l IH]; simpl; [done|].
  intros Hnd. apply NoDup_cons in Hnd as [Hx Hnd].
  rewrite filter_cons. destruct (decide (P x)); [|by apply IH].
  simpl. apply NoDup_cons. split; [|by apply IH].
  intros Hin. apply Hx. apply list_elem_of_fmap in Hin as (g & Hfd & Hg).
  apply list_elem_of_filter in Hg as [_ Hg]. rewrite Hfd.
  by apply list_elem_of_fmap_2.
Qed.

Lemma locks_ok_unlockFile path st :
  locks_ok st → locks_ok (unlockFile path st).
Proof.
  intros Hok. unfold unlockFile.
  destruct (activeFileHandles st !! getLockKey path) as [f|] eqn:Hk; [|done].
  destruct Hok as [Hor Hro Hfr Hnd].
  destruct (Hro _ _ Hk) as [Hfin Hfkey].
  split; simpl.
  - intros g Hg.
    apply (elem_of_File_Close f g (handles st) Hnd Hfin) in Hg as [Hg Hne].
    rewrite lookup_delete_ne; [by apply Hor|].
    intros Heq. specialize (Hor g Hg). rewrite <- Heq in Hor. congruence.
  - intros k g Hg. destruct (decide (getLockKey path = k)) as [<-|Hne].
    + rewrite lookup_delete_eq in Hg. discriminate.
    + rewrite lookup_delete_ne in Hg by done.
      destruct (Hro k g Hg) as [Hin Hkey]. split; [|done].
      apply (elem_of_File_Close f g (handles st) Hnd Hfin). split; [done|].
      intros ->. congruence.
  - intros g Hg.
    apply (elem_of_File_Close f g (handles st) Hnd Hfin) in Hg as [Hg _].
    by apply Hfr.
  - by apply NoDup_fd_filter.
Qed.

(** What the closing loop of [unlockAll] leaves open: the handles that
    the registry did not hold. *)
Lemma closing_loop (m : gmap string File) (h : Handles) :
  let h' := map_fold (λ _ f h, File_Close f h) h m in
  nextFd h' = nextFd h ∧
  ∀ g, g ∈ openFiles h' ↔
       g ∈ openFiles h ∧ ∀ k f, m !! k = Some f → fd g ≠ fd f.
Proof.
  apply (map_fold_weak_ind
           (λ h' m, nextFd h' = nextFd h ∧
                    ∀ g, g ∈ openFiles h' ↔
                         g ∈ openFiles h ∧ ∀ k f, m !! k = Some f → fd g ≠ fd f)).
  - split; [done|]. intros g. split; [|by intros [? _]].
    intros Hg. split; [done|]. intros k f Hk.
    rewrite lookup_empty in Hk. discriminate.
  - intros k f m' r Hnone [Hnext IH]. split; [done|].
    intros g. unfold File_Close. simpl. rewrite list_elem_of_filter, IH.
    split.
    + intros [Hne [Hg Hall]]. split; [done|]. intros k' f' Hk'.
      destruct (decide (k = k')) as [<-|Hkk].
      * rewrite lookup_insert_eq in Hk'. by injection Hk' as <-.
      * rewrite lookup_insert_ne in Hk' by done. by eapply Hall.
    + intros [Hg Hall]. split; [|split; [done|]].
      * apply (Hall k). by rewrite lookup_insert_eq.
      * intros k' f' Hk'. apply (Hall k').
        rewrite lookup_insert_ne; [done|]. intros ->. congruence.
Qed.

Lemma unlockAll_closes_everything st :
  locks_ok st → openFiles (handles (unlockAll st)) = [].
Proof.
  intros Hok. unfold unlockAll. simpl.
  destruct (closing_loop (activeFileHandles st) (handles st)) as [_ Hin].
  destruct (map_fold _ _ _) as [l n]. simpl in *.
  destruct l as [|g l]; [done|]. exfalso.
  destruct (Hin g) as [[Hg Hall] _]; [apply elem_of_cons; by left|].
  by apply (Hall _ _ (ok_open_registered _ Hok g Hg)).
Qed.

Lemma locks_ok_unlockAll st : locks_ok st → locks_ok (unlockAll st).
Proof.
  intros Hok. pose proof (unlockAll_closes_everything st Hok) as Hnil.
  split; rewrite ?Hnil; simpl.
  - intros f Hf. inversion Hf.
  - intros k f Hk. rewrite lookup_empty in Hk. discriminate.
  - intros f Hf. inversion Hf.
  - constructor.
Qed.

Lemma reachable_locks_ok st : reachable st → locks_ok st.
Proof.
  unfold reachable. intros Hr.
  apply (rtc_ind_r (R := lock_step) (λ st, locks_ok st) no_locks);
    [apply locks_ok_init| |done].
  intros y z _ Hstep Hy.
  destruct Hstep;
    auto using locks_ok_lockFile, locks_ok_unlockFile, locks_ok_unlockAll.
Qed.

(** Under the invariant the number of open handles for a canonical path
    is read off the registry: one when the key is present, none
    otherwise. *)
Lemma handlesFor_registry key st :
  locks_ok st →
  handlesFor key st =
    match activeFileHandles st !! key with Some _ => 1%nat | None => 0%nat end.
Proof.
  intros [Hor Hro _ Hnd]. unfold handlesFor.
  assert (Hchar : ∀ g, g ∈ filter (λ f, getLockKey (fname f) = key)
                             (openFiles (handles st)) ↔
                       activeFileHandles st !! key = Some g).
  { intros g. rewrite list_elem_of_filter. split.
    - intros [<- Hg]. by apply Hor.
    - intros Hk. destruct (Hro _ _ Hk) as [Hg Hkey]. done. }
  assert (Hnd' : NoDup (filter (λ f, getLockKey (fname f) = key)
                          (openFiles (handles st)))).
  { apply NoDup_filter. by eapply NoDup_fmap_1. }
  destruct (filter _ _) as [|a [|b l]] eqn:Hfl.
  - destruct (activeFileHandles st !! key) as [f|] eqn:Hk; [|done].
    pose proof (proj2 (Hchar f) eq_refl) as Hin. inversion Hin.
  - assert (Ha : activeFileHandles st !! key = Some a)
      by (apply Hchar, elem_of_cons; by left).
    by rewrite Ha.
  - exfalso.
    assert (Ha : activeFileHandles st !! key = Some a)
      by (apply Hchar, elem_of_cons; by left).
    assert (Hb : activeFileHandles st !! key = Some b)
      by (apply Hchar, elem_of_cons; right; apply elem_of_cons; by left).
    apply NoDup_cons in Hnd' as [Hab _]. apply Hab.
    apply elem_of_cons. left. congruence.
Qed.

End FileLockingProofs.
Section LockClaims.
Context `{GoLib}.

Lemma reachable_step st st' : reachable st → lock_step st st' → reachable st'.
Proof. intros Hr Hs. by eapply rtc_r. Qed.

Lemma lockFile_held open path st :
  is_Some (activeFileHandles st !! getLockKey path) →
  lockFile open path st = st.
Proof. intros [f Hf]. unfold lockFile. by rewrite Hf. Qed.

Lemma lockFile_refused msg path st : lockFile (Err msg) path st = st.
Proof. unfold lockFile. by destruct (_ !! _). Qed.

Lemma lockFile_granted u path st :
  activeFileHandles st !! getLockKey path = None →
  activeFileHandles (lockFile (Ok u) path st) !! getLockKey path
  = Some {| fd := nextFd (handles st); fname := path |}.
Proof.
  intros Hnone. unfold lockFile. rewrite Hnone. simpl.
  by rewrite lookup_insert_eq.
Qed.

(** After [lockFile] the key is registered exactly when it was before
    or the open succeeded. *)
Lemma lockFile_registered open path st :
  is_Some (activeFileHandles (lockFile open path st) !! getLockKey path) ↔
  is_Some (activeFileHandles st !! getLockKey path) ∨ is_ok open = true.
Proof.
  destruct (activeFileHandles st !! getLockKey path) as [f|] eqn:Hk.
  - rewrite lockFile_held by (rewrite Hk; eauto). rewrite Hk.
    split; [by left|eauto].
  - destruct open as [u|msg].
    + rewrite lockFile_granted by done. split; [by right|eauto].
    + rewrite lockFile_refused, Hk. simpl.
      split; [intros [? ?]; discriminate|intros [[? ?]|?]; discriminate].
Qed.

Lemma unlockFile_unregistered path st :
  activeFileHandles (unlockFile path st) !! getLockKey path = None.
Proof.
  unfold unlockFile.
  destruct (activeFileHandles st !! getLockKey path) eqn:Hk; simpl; [|done].
  by rewrite lookup_delete_eq.
Qed.

Lemma unlockFile_free path st :
  activeFileHandles st !! getLockKey path = None → unlockFile path st = st.
Proof. intros Hk. unfold unlockFile. by rewrite Hk. Qed.

Lemma handlesFor_le_1 key st : locks_ok st → (handlesFor key st ≤ 1)%nat.
Proof.
  intros Hok. rewrite handlesFor_registry by done. destruct (_ !! _); lia.
Qed.

(** C4 (as amended).  [Lock(p); Lock(p)] leaves at most one open handle
    for the canonical form of [p] (the path cleaned, and lower-cased on
    Windows): exactly one when [p] was already locked or an open
    succeeds, and then a second call that follows a successful first one
    changes nothing; none when [p] was not locked and both opens fail,
    the error being swallowed.  In every reachable registry state there
    is at most one handle per canonical path. *)
Theorem lock_twice_at_most_one_handle st path open1 open2 :
  reachable st →
  let key := getLockKey path in
  let st1 := lockFile open1 path st in
  let st2 := lockFile open2 path st1 in
  (∀ k, (handlesFor k st ≤ 1)%nat ∧ (handlesFor k st2 ≤ 1)%nat) ∧
  (is_Some (activeFileHandles st !! key) ∨ is_ok open1 = true →
     st2 = st1 ∧ handlesFor key st2 = 1%nat) ∧
  (is_ok open2 = true → handlesFor key st2 = 1%nat) ∧
  (activeFileHandles st !! key = None →
   is_ok open1 = false → is_ok open2 = false →
     st2 = st ∧ handlesFor key st2 = 0%nat).
Proof.
  intros Hr key st1 st2.
  assert (Hr1 : reachable st1) by (eapply reachable_step; [done|constructor]).
  assert (Hr2 : reachable st2) by (eapply reachable_step; [done|constructor]).
  pose proof (reachable_locks_ok _ Hr) as Hok.
  pose proof (reachable_locks_ok _ Hr2) as Hok2.
  split; [|split; [|split]].
  - intros k. split; by apply handlesFor_le_1.
  - intros Hfirst.
    assert (Hs1 : is_Some (activeFileHandles st1 !! key))
      by by apply lockFile_registered.
    split; [by apply lockFile_held|].
    rewrite handlesFor_registry by done.
    assert (Hs : is_Some (activeFileHandles st2 !! key))
      by (apply lockFile_registered; by left).
    by destruct Hs as [f ->].
  - intros Hopen. rewrite handlesFor_registry by done.
    assert (Hs : is_Some (activeFileHandles st2 !! key))
      by (apply lockFile_registered; by right).
    by destruct Hs as [f ->].
  - intros Hnone Ho1 Ho2. subst st2 st1.
    destruct open1 as [|m1]; [discriminate|].
    destruct open2 as [|m2]; [discriminate|].
    rewrite !lockFile_refused. split; [done|].
    rewrite handlesFor_registry by done. subst key. by rewrite Hnone.
Qed.

(** C5.  [Lock(p); Unlock(p)] leaves no handle registered or open for
    the canonical form of [p], and a further [Unlock(p)] changes
    nothing; [unlockFile] has no error result. *)
Theorem lock_unlock_leaves_no_handle st path open :
  reachable st →
  let key := getLockKey path in
  let st' := unlockFile path (lockFile open path st) in
  handlesFor key st' = 0%nat ∧
  activeFileHandles st' !! key = None ∧
  unlockFile path st' = st'.
Proof.
  intros Hr key st'.
  assert (Hr' : reachable st').
  { eapply reachable_step; [|constructor].
    eapply reachable_step; [done|constructor]. }
  assert (Hk : activeFileHandles st' !! key = None)
    by apply unlockFile_unregistered.
  split; [|split; [done|by apply unlockFile_free]].
  rewrite handlesFor_registry by by apply reachable_locks_ok.
  by rewrite Hk.
Qed.

End LockClaims.

(** C4, the claim as stated fails: when the file cannot be opened, two
    calls of [lockFile] leave no handle at all. *)
Lemma lock_twice_unopenable_counterexample :
  let path := "/tmp/gone.md" in
  let refused := Err "open /tmp/gone.md: no such file or directory" in
  @handlesFor Linux.lib (@getLockKey Linux.lib path)
    (@lockFile Linux.lib refused path
       (@lockFile Linux.lib refused path no_locks)) ≠ 1%nat.
Proof. vm_compute. discriminate. Qed.

Lemma lock_twice_at_most_one_handle_witness :
  let path := "/tmp/notes.md" in
  let st2 := @lockFile Linux.lib (Ok tt) path
               (@lockFile Linux.lib (Ok tt) path no_locks) in
  @reachable Linux.lib no_locks ∧
  @handlesFor Linux.lib (@getLockKey Linux.lib path) st2 = 1%nat.
Proof.
  split; [apply rtc_refl|].
  apply (@lock_twice_at_most_one_handle Linux.lib no_locks "/tmp/notes.md"
           (Ok tt) (Ok tt) (rtc_refl _ _)).
  reflexivity.
Defined.

Lemma lock_unlock_leaves_no_handle_witness :
  let path := "/tmp/notes.md" in
  @reachable Linux.lib no_locks ∧
  @handlesFor Linux.lib (@getLockKey Linux.lib path)
    (@unlockFile Linux.lib path (@lockFile Linux.lib (Ok tt) path no_locks))
  = 0%nat.
Proof.
  split; [apply rtc_refl|].
  apply (@lock_unlock_leaves_no_handle Linux.lib no_locks "/tmp/notes.md"
           (Ok tt) (rtc_refl _ _)).
Defined.

(** ** Routing *)

Section Routing.
Context `{GoLib}.

Lemma Status_w0 : Status w0 = None.
Proof. reflexivity. Qed.

Ltac route Hm Hp := unfold handler; rewrite Hm, Hp; reflexivity.

Lemma route_dialog_open env r srv :
  Method r = "GET" → URLPath r = "/api/dialog/open" →
  handler env r srv = serve_dialog_open env w0 srv.
Proof. intros Hm Hp. route Hm Hp. Qed.

Lemma route_dialog_save env r srv :
  Method r = "GET" → URLPath r = "/api/dialog/save" →
  handler env r srv = serve_dialog_save env r w0 srv.
Proof. intros Hm Hp. route Hm Hp. Qed.

Lemma route_cli_handover env r srv :
  Method r = "POST" → URLPath r = "/api/cli-handover" →
  handler env r srv = serve_cli_handover env r w0 srv.
Proof. intros Hm Hp. route Hm Hp. Qed.

Lemma route_open_file env r srv :
  Method r = "GET" → URLPath r = "/api/open-file" →
  handler env r srv = serve_open_file env r w0 srv.
Proof. intros Hm Hp. route Hm Hp. Qed.

Lemma route_render_view env r srv :
  Method r = "GET" → URLPath r = "/api/render-view" →
  handler env r srv = serve_render_view r w0 srv.
Proof. intros Hm Hp. route Hm Hp. Qed.

Lemma route_screenshot env r srv :
  Method r = "POST" → URLPath r = "/api/export/screenshot" →
  handler env r srv = serve_screenshot env r w0 srv.
Proof. intros Hm Hp. route Hm Hp. Qed.

Lemma route_pdf env r srv :
  Method r = "POST" → URLPath r = "/api/export/pdf" →
  handler env r srv = serve_pdf env r w0 srv.
Proof. intros Hm Hp. route Hm Hp. Qed.

Lemma route_save_file env r srv :
  Method r = "POST" → URLPath r = "/api/save-file" →
  handler env r srv = serve_save_file env r w0 srv.
Proof. intros Hm Hp. route Hm Hp. Qed.

(** Status and body after the writer's operations. *)
Lemma StatusCode_Write_fresh c w :
  Status w = None → StatusCode (Write_chunk c w) = 200%nat.
Proof. intros Hs. unfold StatusCode, Write_chunk. simpl. by rewrite Hs. Qed.

Lemma Status_Header_Set k v w : Status (Header_Set k v w) = Status w.
Proof. reflexivity. Qed.

Lemma Written_Header_Set k v w : Written (Header_Set k v w) = Written w.
Proof. reflexivity. Qed.

Lemma StatusCode_http_Error msg code w :
  Status w = None → StatusCode (http_Error msg code w) = code.
Proof.
  intros Hs. unfold http_Error, StatusCode, Write, Write_chunk, WriteHeader.
  simpl. by rewrite Hs.
Qed.

End Routing.

(** ** Dialogs *)

Section DialogClaims.
Context `{GoLib}.

(** C9.  When the native open or save dialog returns without a selection
    (the Win32 call returns 0), GET /api/dialog/open and GET
    /api/dialog/save answer with status 200 and the JSON body whose
    [path] is the empty string; no store is touched. *)
Theorem dialog_cancel_is_empty_path env r srv :
  Method r = "GET" →
  (URLPath r = "/api/dialog/open" ∧ (GetOpenFileNameW env).1 = 0%Z) ∨
  (URLPath r = "/api/dialog/save" ∧
   (GetSaveFileNameW env (save_dialog_defExt r)).1 = 0%Z) →
  let '(w, srv', eff) := handler env r srv in
  StatusCode w = 200%nat ∧
  Written w = path_body "" ∧
  Header w !! "Content-Type" = Some "application/json" ∧
  srv' = srv ∧ eff = [].
Proof.
  intros Hm [[Hp Hret]|[Hp Hret]].
  - rewrite route_dialog_open by done.
    unfold serve_dialog_open, getNativeOpenDialog.
    destruct (GetOpenFileNameW env) as [ret buf]. simpl in Hret. subst ret.
    simpl. done.
  - rewrite route_dialog_save by done.
    unfold serve_dialog_save, getNativeSaveDialog.
    fold (save_dialog_defExt r).
    destruct (GetSaveFileNameW env (save_dialog_defExt r)) as [ret buf].
    simpl in Hret. subst ret. simpl. done.
Qed.

End DialogClaims.

Lemma dialog_cancel_is_empty_path_witness :
  let '(w, srv', eff) :=
    @handler Linux.lib Linux.bare_env dialog_open_request empty_server in
  StatusCode w = 200%nat ∧
  Written w = path_body "" ∧
  Header w !! "Content-Type" = Some "application/json" ∧
  srv' = empty_server ∧ eff = [].
Proof.
  apply (@dialog_cancel_is_empty_path Linux.lib Linux.bare_env
           dialog_open_request empty_server).
  - reflexivity.
  - left. split; reflexivity.
Defined.

(** ** The render store *)

Section RenderStoreClaims.
Context `{GoLib}.

Lemma Query_Get_singleton path key v :
  Query_Get (get path {[ key := [v] ]}) key = v.
Proof. unfold Query_Get, Query_values. simpl. by rewrite lookup_singleton_eq. Qed.

Lemma render_view_unknown_token env token srv :
  renderStore srv !! token = None →
  StatusCode (handler env (render_view_get token) srv).1.1 = 404%nat.
Proof.
  intros Hnone. rewrite route_render_view by done.
  unfold serve_render_view, render_view_get.
  rewrite Query_Get_singleton, Hnone. simpl.
  by apply StatusCode_http_Error.
Qed.

(** While the driver runs, the page behind the token is the stored
    HTML. *)
Lemma render_page_stored token html srv :
  let srv1 := set_renderStore (<[token := html]> (renderStore srv)) srv in
  StatusCode (render_page token srv1) = 200%nat ∧
  Written (render_page token srv1) = [Raw html].
Proof.
  unfold render_page, serve_render_view, render_view_request, Query_Get,
    Query_values. simpl.
  rewrite lookup_singleton_eq. simpl. by rewrite lookup_insert_eq.
Qed.

Lemma defer_delete_token token (body : Reply) :
  renderStore
    (defer (λ srv, set_renderStore (delete token (renderStore srv)) srv) body).1.2
  !! token = None.
Proof. destruct body as [[w srv] eff]. simpl. by rewrite lookup_delete_eq. Qed.

(** C2.  Every run of the screenshot or PDF export handler that stores
    the HTML under a render token returns with the token absent from the
    render store, whatever the driver and the file system answer
    (render error, deadline, write error, success); a GET
    /api/render-view for that token issued next is answered 404. *)
Theorem render_token_deleted_on_return env r srv :
  Method r = "POST" →
  (URLPath r = "/api/export/screenshot" ∧
     ∃ req, decode_ScreenshotRequest (body_json r) = Ok req ∧
            ShotHtml req ≠ "") ∨
  (URLPath r = "/api/export/pdf" ∧
     ∃ req, decode_PdfExportRequest (body_json r) = Ok req ∧
            PdfHtml req ≠ "" ∧ PdfPath req ≠ "") →
  let token := generateID env in
  let srv' := (handler env r srv).1.2 in
  renderStore srv' !! token = None ∧
  ∀ env', StatusCode (handler env' (render_view_get token) srv').1.1 = 404%nat.
Proof.
  intros Hm Hroute token srv'.
  assert (Hgone : renderStore srv' !! token = None).
  { subst srv'. destruct Hroute as [[Hp (req & Hdec & Hhtml)]
                                   |[Hp (req & Hdec & Hhtml & Hpath)]].
    - rewrite route_screenshot by done. unfold serve_screenshot.
      rewrite Hdec.
      apply String.eqb_neq in Hhtml. rewrite Hhtml.
      apply defer_delete_token.
    - rewrite route_pdf by done. unfold serve_pdf. rewrite Hdec.
      apply String.eqb_neq in Hhtml, Hpath. rewrite Hhtml, Hpath. simpl.
      apply defer_delete_token. }
  split; [done|]. intros env'. by apply render_view_unknown_token.
Qed.

End RenderStoreClaims.

Lemma render_token_deleted_on_return_witness :
  let token := @generateID Linux.lib Linux.bare_env in
  let srv' := (@handler Linux.lib Linux.bare_env screenshot_request empty_server).1.2 in
  renderStore srv' !! token = None ∧
  ∀ env', StatusCode (@handler Linux.lib env' (render_view_get token) srv').1.1
          = 404%nat.
Proof.
  apply (@render_token_deleted_on_return Linux.lib Linux.bare_env
           screenshot_request empty_server).
  - reflexivity.
  - left. split; [reflexivity|].
    eexists. split; [vm_compute; reflexivity|]. simpl. discriminate.
Defined.

(** ** Strings *)

Lemma append_cons c s t : String.append (String c s) t = String c (String.append s t).
Proof. reflexivity. Qed.

Lemma append_nil_l s : String.append EmptyString s = s.
Proof. reflexivity. Qed.

Lemma append_nil_r s : String.append s EmptyString = s.
Proof. induction s as [|c s IH]; [done|]. by rewrite append_cons, IH. Qed.

Lemma append_assoc s t u :
  String.append (String.append s t) u = String.append s (String.append t u).
Proof. induction s as [|c s IH]; [done|]. by rewrite !append_cons, IH. Qed.

Lemma length_append s t :
  String.length (String.append s t) = (String.length s + String.length t)%nat.
Proof. induction s as [|c s IH]; [done|]. rewrite append_cons. simpl. by rewrite IH. Qed.

Lemma take_length n s :
  (n ≤ String.length s)%nat → String.length (Strings.take n s) = n.
Proof.
  revert s. induction n as [|n IH]; intros [|c s] Hn; simpl in *; try done; try lia.
  rewrite IH; [done|lia].
Qed.

Lemma take_drop n s : String.append (Strings.take n s) (Strings.drop n s) = s.
Proof.
  revert s. induction n as [|n IH]; intros [|c s]; simpl; try done.
  by rewrite append_cons, IH.
Qed.


Lemma drop_append_length s t : Strings.drop (String.length s) (String.append s t) = t.
Proof. induction s as [|c s IH]; [done|]. by rewrite append_cons. Qed.

(** ** Hexadecimal identifiers *)

Section HexFacts.

Lemma hex_digit_lower n : (n < 16)%N → Hex.is_lower_hex (Hex.digit n) = true.
Proof.
  intros Hn. destruct n as [|p]; [reflexivity|].
  do 4 (destruct p as [p|p|]; try reflexivity); lia.
Qed.

Lemma hex_length src :
  String.length (Hex.EncodeToString src) = (2 * String.length src)%nat.
Proof. induction src as [|b src IH]; simpl; [done|]. rewrite IH. lia. Qed.

Lemma hex_lower src :
  forallb Hex.is_lower_hex (list_ascii_of_string (Hex.EncodeToString src)) = true.
Proof.
  induction src as [|b src IH]; [done|].
  pose proof (N_ascii_bounded b) as Hb.
  cbn [Hex.EncodeToString list_ascii_of_string forallb].
  rewrite IH, !hex_digit_lower; [done| |].
  - apply N.mod_lt. discriminate.
  - apply N.Div0.div_lt_upper_bound. lia.
Qed.

End HexFacts.

(** ** Base64 round trip *)

Section Base64Facts.

Lemma dec_enc n : (n < 64)%N → Base64.dec (Base64.enc n) = Some n.
Proof.
  intros Hn. destruct n as [|p]; [reflexivity|].
  do 6 (destruct p as [p|p|]; try reflexivity); lia.
Qed.

Lemma enc_plain n :
  (n < 64)%N →
  Ascii.eqb (Base64.enc n) Base64.pad = false ∧
  Base64.is_newline (Base64.enc n) = false.
Proof.
  intros Hn. destruct n as [|p]; [done|].
  do 6 (destruct p as [p|p|]; try done); lia.
Qed.

Lemma digit_lt v d : ((v / d) mod 64 < 64)%N.
Proof. apply N.mod_lt. discriminate. Qed.

Lemma div_4096 v : (v / 4096 = v / 64 / 64)%N.
Proof. by rewrite N.Div0.div_div. Qed.

Lemma div_262144 v : (v / 262144 = v / 64 / 64 / 64)%N.
Proof. by rewrite !N.Div0.div_div. Qed.

Lemma div_65536 v : (v / 65536 = v / 256 / 256)%N.
Proof. by rewrite N.Div0.div_div. Qed.

(** Quotient and remainder by [d], as two fresh numbers. *)
Ltac euclid x d :=
  let Hq := fresh "Hq" in
  let Hr := fresh "Hr" in
  pose proof (N.div_mod x d ltac:(discriminate)) as Hq;
  pose proof (N.mod_lt x d ltac:(discriminate)) as Hr;
  generalize dependent (x mod d)%N; intros ? ? ?.

(** The four digits of a 24-bit group put it together again. *)
Lemma quantum_digits v :
  (v < 16777216)%N →
  Base64.quantum (v / 262144 mod 64) (v / 4096 mod 64) (v / 64 mod 64)
    (v / 1 mod 64) = v.
Proof.
  intros Hv. unfold Base64.quantum.
  rewrite div_262144, div_4096, N.div_1_r.
  euclid (v / 64 / 64 / 64)%N 64%N.
  generalize dependent (v / 64 / 64 / 64 / 64)%N. intros q4 ?.
  euclid (v / 64 / 64)%N 64%N.
  generalize dependent (v / 64 / 64 / 64)%N. intros q3 ? ?.
  euclid (v / 64)%N 64%N.
  generalize dependent (v / 64 / 64)%N. intros q2 ? ?.
  euclid v 64%N.
  generalize dependent (v / 64)%N. intros q1 ? ?.
  lia.
Qed.

Lemma group_lt a b c : (Base64.group a b c < 16777216)%N.
Proof.
  unfold Base64.group.
  pose proof (N_ascii_bounded a). pose proof (N_ascii_bounded b).
  pose proof (N_ascii_bounded c). lia.
Qed.

Lemma bytes_of_sum na nb nc :
  (na < 256)%N → (nb < 256)%N → (nc < 256)%N →
  let v := (na * 65536 + nb * 256 + nc)%N in
  (v / 65536 mod 256 = na)%N ∧ (v / 256 mod 256 = nb)%N ∧
  (v / 1 mod 256 = nc)%N.
Proof.
  intros Ha Hb Hc v. subst v.
  replace (na * 65536 + nb * 256 + nc)%N
    with (nc + (nb + na * 256) * 256)%N by lia.
  rewrite div_65536, N.div_1_r.
  rewrite !N.div_add by discriminate. rewrite (N.div_small nc) by done.
  rewrite N.add_0_l.
  rewrite !N.div_add by discriminate. rewrite (N.div_small nb) by done.
  rewrite N.add_0_l, !N.Div0.mod_add.
  by rewrite !N.mod_small.
Qed.

Lemma group_bytes a b c :
  let v := Base64.group a b c in
  Base64.byte_of v 0 = a ∧ Base64.byte_of v 1 = b ∧ Base64.byte_of v 2 = c.
Proof.
  cbv zeta. unfold Base64.byte_of, Base64.group.
  change (2 ^ (16 - 8 * 0))%N with 65536%N.
  change (2 ^ (16 - 8 * 1))%N with 256%N.
  change (2 ^ (16 - 8 * 2))%N with 1%N.
  destruct (bytes_of_sum (N_of_ascii a) (N_of_ascii b) (N_of_ascii c))
    as (H1 & H2 & H3); try apply N_ascii_bounded.
  by rewrite H1, H2, H3, !ascii_N_embedding.
Qed.

(** With a zero last byte the last digit is zero, with two zero bytes
    the last two. *)
Lemma group_low_digit a b :
  (Base64.group a b zero / 1 mod 64 = 0)%N.
Proof.
  unfold Base64.group. change (N_of_ascii zero) with 0%N.
  rewrite N.div_1_r, N.add_0_r.
  replace (N_of_ascii a * 65536 + N_of_ascii b * 256)%N
    with ((N_of_ascii a * 1024 + N_of_ascii b * 4) * 64)%N by lia.
  apply N.Div0.mod_mul.
Qed.

Lemma group_low_digits a :
  (Base64.group a zero zero / 64 mod 64 = 0)%N.
Proof.
  unfold Base64.group. change (N_of_ascii zero) with 0%N.
  rewrite N.mul_0_l, !N.add_0_r.
  replace (N_of_ascii a * 65536)%N with (N_of_ascii a * 1024 * 64)%N by lia.
  rewrite N.div_mul by discriminate.
  replace (N_of_ascii a * 1024)%N with (N_of_ascii a * 16 * 64)%N by lia.
  apply N.Div0.mod_mul.
Qed.

Lemma dec_sextet v i :
  Base64.dec (Base64.sextet v i) = Some ((v / 2 ^ (18 - 6 * i)) mod 64)%N.
Proof. apply dec_enc, digit_lt. Qed.

Lemma sextet_not_pad v i : Ascii.eqb (Base64.sextet v i) Base64.pad = false.
Proof. apply enc_plain, digit_lt. Qed.

Lemma sextet_not_newline v i : Base64.is_newline (Base64.sextet v i) = false.
Proof. apply enc_plain, digit_lt. Qed.

(** The decoder on a full quantum and on the two padded ones. *)
Lemma decode_quanta_full a b c d rest x y z w :
  Base64.dec a = Some x → Base64.dec b = Some y →
  Ascii.eqb c Base64.pad = false → Base64.dec c = Some z →
  Ascii.eqb d Base64.pad = false → Base64.dec d = Some w →
  Base64.decode_quanta (String a (String b (String c (String d rest)))) =
    match Base64.decode_quanta rest with
    | Ok out =>
        let val := Base64.quantum x y z w in
        Ok (String (Base64.byte_of val 0) (String (Base64.byte_of val 1)
              (String (Base64.byte_of val 2) out)))
    | Err e => Err e
    end.
Proof.
  intros Ha Hb Hc Hc' Hd Hd'. cbn [Base64.decode_quanta].
  by rewrite Ha, Hb, Hc, Hc', Hd, Hd'.
Qed.

Lemma decode_quanta_pad1 a b c x y z :
  Base64.dec a = Some x → Base64.dec b = Some y →
  Ascii.eqb c Base64.pad = false → Base64.dec c = Some z →
  Base64.decode_quanta
    (String a (String b (String c (String Base64.pad EmptyString)))) =
    let val := Base64.quantum x y z 0 in
    Ok (String (Base64.byte_of val 0)
          (String (Base64.byte_of val 1) EmptyString)).
Proof.
  intros Ha Hb Hc Hc'. cbn [Base64.decode_quanta].
  by rewrite Ha, Hb, Hc, Hc'.
Qed.

Lemma decode_quanta_pad2 a b x y :
  Base64.dec a = Some x → Base64.dec b = Some y →
  Base64.decode_quanta
    (String a (String b (String Base64.pad (String Base64.pad EmptyString)))) =
    Ok (String (Base64.byte_of (Base64.quantum x y 0 0) 0) EmptyString).
Proof. intros Ha Hb. cbn [Base64.decode_quanta]. by rewrite Ha, Hb. Qed.

Lemma quantum_of_group a b c :
  let v := Base64.group a b c in
  Base64.quantum (v / 2 ^ (18 - 6 * 0) mod 64) (v / 2 ^ (18 - 6 * 1) mod 64)
    (v / 2 ^ (18 - 6 * 2) mod 64) (v / 2 ^ (18 - 6 * 3) mod 64) = v.
Proof. intros v. apply quantum_digits, group_lt. Qed.

Local Abbreviation round_trip src :=
  (Base64.decode_quanta (Base64.EncodeToString src%string) = Ok src%string).

(** Three bytes at a time: the property for [src] and for [src] behind
    one or two more bytes. *)
Lemma decode_encode_by_three src :
  round_trip src ∧ (∀ a, round_trip (String a src)) ∧
  (∀ a b, round_trip (String a (String b src))).
Proof.
  induction src as [|c src (IH0 & IH1 & IH2)].
  - split; [done|split].
    + intros a. cbn [Base64.EncodeToString].
      rewrite (decode_quanta_pad2 _ _ _ _ (dec_sextet _ 0) (dec_sextet _ 1)).
      pose proof (quantum_of_group a zero zero) as Hq. cbv zeta in Hq.
      change (2 ^ (18 - 6 * 2))%N with 64%N in Hq.
      rewrite group_low_digits in Hq.
      change (2 ^ (18 - 6 * 3))%N with 1%N in Hq.
      rewrite group_low_digit in Hq. rewrite Hq.
      by destruct (group_bytes a zero zero) as (-> & _ & _).
    + intros a b. cbn [Base64.EncodeToString].
      rewrite (decode_quanta_pad1 _ _ _ _ _ _ (dec_sextet _ 0) (dec_sextet _ 1)
                 (sextet_not_pad _ 2) (dec_sextet _ 2)).
      pose proof (quantum_of_group a b zero) as Hq. cbv zeta in Hq.
      change (2 ^ (18 - 6 * 3))%N with 1%N in Hq.
      rewrite group_low_digit in Hq. cbv zeta. rewrite Hq.
      by destruct (group_bytes a b zero) as (-> & -> & _).
  - split; [apply IH1|split; [intros a; apply IH2|]].
    intros a b. cbn [Base64.EncodeToString].
    rewrite (decode_quanta_full _ _ _ _ _ _ _ _ _
               (dec_sextet _ 0) (dec_sextet _ 1)
               (sextet_not_pad _ 2) (dec_sextet _ 2)
               (sextet_not_pad _ 3) (dec_sextet _ 3)).
    rewrite IH0. cbv zeta. rewrite quantum_of_group.
    by destruct (group_bytes a b c) as (-> & -> & ->).
Qed.

Lemma strip_newlines_encoded src :
  Base64.strip_newlines (Base64.EncodeToString src) = Base64.EncodeToString src
  ∧ (∀ a, Base64.strip_newlines (Base64.EncodeToString (String a src))
          = Base64.EncodeToString (String a src))
  ∧ (∀ a b, Base64.strip_newlines (Base64.EncodeToString (String a (String b src)))
            = Base64.EncodeToString (String a (String b src))).
Proof.
  induction src as [|c src (IH0 & IH1 & IH2)].
  - split; [done|split]; intros; cbn [Base64.EncodeToString Base64.strip_newlines];
      by rewrite !sextet_not_newline.
  - split; [apply IH1|split; [intros a; apply IH2|]].
    intros a b. cbn [Base64.EncodeToString Base64.strip_newlines].
    by rewrite !sextet_not_newline, IH0.
Qed.

(** Decoding what [EncodeToString] produced gives the bytes back. *)
Theorem DecodeString_EncodeToString src :
  Base64.DecodeString (Base64.EncodeToString src) = Ok src.
Proof.
  unfold Base64.DecodeString.
  rewrite (proj1 (strip_newlines_encoded src)).
  apply decode_encode_by_three.
Qed.

End Base64Facts.

(** ** Handover *)

Section HandoverClaims.
Context `{GoLib}.

Lemma generateID_length env : String.length (generateID env) = 16%nat.
Proof.
  unfold generateID. rewrite hex_length, take_length; [done|].
  rewrite length_append. simpl. lia.
Qed.

Lemma generateID_lower_hex env :
  forallb Hex.is_lower_hex (list_ascii_of_string (generateID env)) = true.
Proof. apply hex_lower. Qed.

Lemma serve_open_file_by_id env id srv data decoded :
  fileStore srv !! id = Some data →
  Base64.DecodeString (Data data) = Ok decoded →
  let w := (handler env (open_file_by_id id) srv).1.1 in
  StatusCode w = 200%nat ∧ Written w = [Raw decoded].
Proof.
  intros Hid Hdec. rewrite route_open_file by done.
  unfold serve_open_file, open_file_by_id, Query_Get, Query_values. simpl.
  rewrite lookup_singleton_ne by done. simpl.
  rewrite lookup_singleton_eq. simpl. rewrite Hid, Hdec. done.
Qed.

(** C3 (as amended).  A POST /api/cli-handover whose [fileName] has an
    extension that, lower-cased, is neither [.html] nor [.htm] (the name
    does not end in [.html] or [.htm] in any letter case) and whose
    [data] is valid base64 is answered with an identifier of sixteen
    lower-case hexadecimal digits, and the GET /api/open-file?fileId= of
    that identifier that follows returns exactly the decoded bytes. *)
Theorem handover_then_open_returns_bytes env env' r srv fileName data bytes :
  Method r = "POST" → URLPath r = "/api/cli-handover" →
  decode_FileData (body_json r) = Ok {| FileName := fileName; Data := data |} →
  is_html_ext (strings_ToLower (filepath_Ext fileName)) = false →
  Base64.DecodeString data = Ok bytes →
  let '(w, srv', _) := handler env r srv in
  ∃ id,
    StatusCode w = 200%nat ∧ Written w = [Raw id] ∧
    String.length id = 16%nat ∧
    forallb Hex.is_lower_hex (list_ascii_of_string id) = true ∧
    let w' := (handler env' (open_file_by_id id) srv').1.1 in
    StatusCode w' = 200%nat ∧ Written w' = [Raw bytes].
Proof.
  intros Hm Hp Hbody Hext Hdata. rewrite route_cli_handover by done.
  unfold serve_cli_handover. rewrite Hbody. simpl.
  rewrite Hdata, Hext.
  exists (generateID env).
  split; [done|]. split; [done|].
  split; [apply generateID_length|]. split; [apply generateID_lower_hex|].
  apply (serve_open_file_by_id env' _ _ {| FileName := fileName; Data := data |});
    [|done].
  simpl. by rewrite lookup_insert_eq.
Qed.

End HandoverClaims.

Lemma handover_then_open_returns_bytes_witness :
  let '(w, srv', _) :=
    @handler Linux.lib Linux.bare_env
      (handover_request "a.md" "aGVsbG8=") empty_server in
  ∃ id,
    StatusCode w = 200%nat ∧ Written w = [Raw id] ∧
    String.length id = 16%nat ∧
    forallb Hex.is_lower_hex (list_ascii_of_string id) = true ∧
    let w' := (@handler Linux.lib Linux.bare_env (open_file_by_id id) srv').1.1 in
    StatusCode w' = 200%nat ∧ Written w' = [Raw "hello"].
Proof.
  apply (@handover_then_open_returns_bytes Linux.lib Linux.bare_env
           Linux.bare_env (handover_request "a.md" "aGVsbG8=") empty_server
           "a.md" "aGVsbG8=" "hello"); reflexivity.
Defined.

(** C3, the claim as stated fails: [/docs/a.HTML] does not end in
    [.html] or [.htm], yet the handover treats it as HTML, inlines the
    image it references, and the GET that follows returns other bytes
    than the ones that were handed over. *)
Lemma handover_uppercase_extension_counterexample :
  let fileName := "/docs/a.HTML" in
  let bytes := "<img src='img/photo%201.png'>" in
  let data := Base64.EncodeToString bytes in
  let reply := @handler Linux.lib image_env (handover_request fileName data)
                 empty_server in
  let id := @generateID Linux.lib image_env in
  let w' := (@handler Linux.lib image_env (open_file_by_id id) reply.1.2).1.1 in
  Strings.HasSuffix fileName ".html" = false ∧
  Strings.HasSuffix fileName ".htm" = false ∧
  Base64.DecodeString data = Ok bytes ∧
  StatusCode reply.1.1 = 200%nat ∧
  Written reply.1.1 = [Raw id] ∧
  StatusCode w'  = 200%nat ∧
  Written w'
  = [Raw "<img src='data:application/octet-stream;base64,UE5HREFUQQ=='>"] ∧
  Written w' ≠ [Raw bytes].
Proof. vm_compute. repeat split; discriminate. Qed.

(** ** Saving *)

Section SaveFacts.
Context `{GoLib}.

(** The placement decision, read off a successful placement. *)
Lemma placement_PlaceAt env inputPath hasAssets finalDir finalHtmlPath eff :
  placement env inputPath hasAssets = PlaceAt finalDir finalHtmlPath eff →
  let inputDir := filepath_Dir inputPath in
  let inputName := filepath_Base inputPath in
  let inputExt := filepath_Ext inputName in
  let base := Strings.TrimSuffix inputName inputExt in
  let same := strings_EqualFold (filepath_Base inputDir) base in
  (is_markdown_ext inputExt = true →
     finalHtmlPath = inputPath ∧
     finalDir = filepath_Join [inputDir; String.append base "_assets"]) ∧
  (is_markdown_ext inputExt = false → hasAssets = true → same = false →
     finalDir = filepath_Join [inputDir; base] ∧
     finalHtmlPath = filepath_Join [filepath_Join [inputDir; base]; inputName]) ∧
  (is_markdown_ext inputExt = false → hasAssets = true → same = true →
     finalDir = inputDir ∧ finalHtmlPath = inputPath) ∧
  (hasAssets = false → finalHtmlPath = inputPath) ∧
  (∀ e, e ∈ eff → e = FsMkdirAll finalDir).
Proof.
  intros Hpl inputDir inputName inputExt base same.
  unfold placement in Hpl.
  fold inputDir inputName inputExt base in Hpl. fold same in Hpl.
  destruct (is_markdown_ext inputExt), hasAssets, same;
    repeat match type of Hpl with
           | context [os_MkdirAll ?e ?d] => destruct (os_MkdirAll e d)
           end;
    simpl in Hpl; try discriminate; injection Hpl as <- <- <-;
    (split; [|split; [|split; [|split]]]); try done;
    intros e He; try (by inversion He);
    apply list_elem_of_singleton in He; done.
Qed.

Lemma save_assets_flat_map env finalDir assets :
  save_assets env finalDir assets = flat_map (asset_effects env finalDir) assets.
Proof.
  induction assets as [|fh assets IH]; [done|].
  cbn [save_assets flat_map]. unfold asset_effects at 1.
  destruct (FileHeader_Open env fh); simpl; [|done].
  destruct (os_Create env _); simpl; by rewrite IH.
Qed.

Lemma save_assets_under env finalDir assets e :
  e ∈ save_assets env finalDir assets →
  ∃ fh, fh ∈ assets ∧
        (e = FsCreate (filepath_Join [finalDir; Filename fh]) ∨
         e = FsCopy (filepath_Join [finalDir; Filename fh]) (PartBytes fh)).
Proof.
  rewrite save_assets_flat_map. rewrite list_elem_of_In, in_flat_map.
  intros (fh & Hfh & He). exists fh. split; [by apply list_elem_of_In|].
  unfold asset_effects in He.
  destruct (_ && _); [|by inversion He].
  destruct He as [<-|[<-|[]]]; auto.
Qed.

(** The save handler once the document has been written. *)
Lemma serve_save_file_written env r w srv form finalDir finalHtmlPath eff0 htmlFile :
  ParseMultipartForm r = Ok form →
  save_inputPath r form ≠ "" →
  placement env (save_inputPath r form) (save_hasAssets form)
    = PlaceAt finalDir finalHtmlPath eff0 →
  FormFile env form "html" = Ok htmlFile →
  is_ok (os_Create env finalHtmlPath) = true →
  is_ok (io_Copy env finalHtmlPath (PartBytes htmlFile)) = true →
  serve_save_file env r w srv =
    (Encode (json_of_DialogResponse {| Path := finalHtmlPath |})
       (Header_Set "Content-Type" "application/json" w),
     set_locks (unlockFile finalHtmlPath (locks srv)) srv,
     ((eff0 ++ [FsCreate finalHtmlPath; FsCopy finalHtmlPath (PartBytes htmlFile)])
      ++ (if save_hasAssets form
          then save_assets env finalDir (save_assets_of form) else []))%list).
Proof.
  intros Hform Hpath Hpl Hhtml Hcreate Hcopy. unfold serve_save_file.
  rewrite Hform. fold (save_inputPath r form).
  apply String.eqb_neq in Hpath. rewrite Hpath.
  fold (save_assets_of form). fold (save_hasAssets form).
  rewrite Hpl, Hhtml.
  destruct (os_Create env finalHtmlPath); [|discriminate].
  destruct (io_Copy env finalHtmlPath (PartBytes htmlFile)); [|discriminate].
  destruct (save_hasAssets form); [done|]. by rewrite app_nil_r.
Qed.

(** The save handler when the document cannot be written. *)
Lemma serve_save_file_failed env r w srv form finalDir finalHtmlPath eff0 htmlFile :
  ParseMultipartForm r = Ok form →
  save_inputPath r form ≠ "" →
  placement env (save_inputPath r form) (save_hasAssets form)
    = PlaceAt finalDir finalHtmlPath eff0 →
  FormFile env form "html" = Ok htmlFile →
  is_ok (os_Create env finalHtmlPath) = false ∨
  is_ok (io_Copy env finalHtmlPath (PartBytes htmlFile)) = false →
  ∃ msg eff,
    serve_save_file env r w srv =
      (Encode (json_error msg) (WriteHeader StatusInternalServerError w),
       set_locks (lockFile (os_Open env finalHtmlPath) finalHtmlPath
                    (unlockFile finalHtmlPath (locks srv))) srv,
       eff) ∧
    String.prefix "Failed to " msg = true.
Proof.
  intros Hform Hpath Hpl Hhtml Hfail. unfold serve_save_file.
  rewrite Hform. fold (save_inputPath r form).
  apply String.eqb_neq in Hpath. rewrite Hpath.
  fold (save_assets_of form). fold (save_hasAssets form).
  rewrite Hpl, Hhtml.
  destruct (os_Create env finalHtmlPath) as [u|e].
  - destruct (io_Copy env finalHtmlPath (PartBytes htmlFile)) as [u'|e].
    + destruct Hfail; discriminate.
    + eexists _, _. split; [reflexivity|done].
  - eexists _, _. split; [reflexivity|done].
Qed.

(** Only the success path answers 200. *)
Lemma serve_save_file_200 env r srv form :
  ParseMultipartForm r = Ok form →
  StatusCode (serve_save_file env r w0 srv).1.1 = 200%nat →
  ∃ finalDir finalHtmlPath eff0 htmlFile,
    save_inputPath r form ≠ "" ∧
    placement env (save_inputPath r form) (save_hasAssets form)
      = PlaceAt finalDir finalHtmlPath eff0 ∧
    FormFile env form "html" = Ok htmlFile ∧
    is_ok (os_Create env finalHtmlPath) = true ∧
    is_ok (io_Copy env finalHtmlPath (PartBytes htmlFile)) = true.
Proof.
  intros Hform. unfold serve_save_file. rewrite Hform.
  fold (save_inputPath r form).
  destruct (String.eqb_spec (save_inputPath r form) "") as [|Hpath];
    [intros; discriminate|].
  fold (save_assets_of form). fold (save_hasAssets form).
  destruct (placement _ _ _) as [finalDir finalHtmlPath eff0|msg eff0];
    [|intros; discriminate].
  destruct (FormFile env form "html") as [htmlFile|e]; [|intros; discriminate].
  destruct (os_Create env finalHtmlPath) as [u|e] eqn:Hcreate;
    [|intros; discriminate].
  destruct (io_Copy env finalHtmlPath (PartBytes htmlFile)) as [u'|e] eqn:Hcopy;
    [|intros; discriminate].
  intros _. exists finalDir, finalHtmlPath, eff0, htmlFile.
  rewrite Hcreate, Hcopy. done.
Qed.

End SaveFacts.

Section SaveClaims.
Context `{GoLib}.

Lemma TrimSuffix_HasSuffix s suffix :
  Strings.HasSuffix s suffix = true →
  s = String.append (Strings.TrimSuffix s suffix) suffix.
Proof.
  intros Hs. unfold Strings.TrimSuffix. rewrite Hs.
  unfold Strings.HasSuffix in Hs. apply andb_true_iff in Hs as [_ Hs].
  apply String.eqb_eq in Hs.
  set (n := (Strings.len s - Strings.len suffix)%nat) in *.
  rewrite <- Hs. symmetry. apply take_drop.
Qed.

(** C1 (as amended).  The placement of a save is decided by the
    extension, the presence of assets and whether the parent directory's
    name equals the base name when letter case is ignored
    ([strings.EqualFold]): whenever POST /api/save-file answers 200, the
    path in the response is where the document was written, and
    - for a Markdown extension it is the request path, the assets going
      under [<dir>/<base>_assets];
    - for the extension [.html] with assets, when the parent directory's
      name differs from the base name even ignoring case, it is
      [<dir>/<base>/<base>.html], the assets going under [<dir>/<base>];
    - for the extension [.html] with assets, when the two names are
      equal up to case, it is the request path, the assets going under
      [<dir>];
    - without assets it is the request path.
    Two facts about Go's library are assumed: lower-casing [.html] gives
    [.html], and the extension of a file name is a suffix of it. *)
Theorem save_placement_policy env r srv form :
  Method r = "POST" → URLPath r = "/api/save-file" →
  ParseMultipartForm r = Ok form →
  let inputPath := save_inputPath r form in
  let hasAssets := save_hasAssets form in
  let inputDir := filepath_Dir inputPath in
  let inputName := filepath_Base inputPath in
  let inputExt := filepath_Ext inputName in
  let base := Strings.TrimSuffix inputName inputExt in
  let same := strings_EqualFold (filepath_Base inputDir) base in
  let w := (handler env r srv).1.1 in
  let eff := (handler env r srv).2 in
  strings_ToLower ".html" = ".html" →
  Strings.HasSuffix inputName inputExt = true →
  StatusCode w = 200%nat →
  ∃ target assetDir,
    Written w = path_body target ∧
    FsCreate target ∈ eff ∧
    (∀ p, FsCreate p ∈ eff →
          p = target ∨
          ∃ fh, fh ∈ save_assets_of form ∧
                p = filepath_Join [assetDir; Filename fh]) ∧
    (is_markdown_ext inputExt = true →
       target = inputPath ∧
       assetDir = filepath_Join [inputDir; String.append base "_assets"]) ∧
    (inputExt = ".html" → hasAssets = true → same = false →
       assetDir = filepath_Join [inputDir; base] ∧
       target = filepath_Join [filepath_Join [inputDir; base];
                               String.append base ".html"]) ∧
    (inputExt = ".html" → hasAssets = true → same = true →
       assetDir = inputDir ∧ target = inputPath) ∧
    (hasAssets = false → target = inputPath).
Proof.
  intros Hm Hp Hform inputPath hasAssets inputDir inputName inputExt base same.
  rewrite route_save_file by done. cbv zeta.
  intros Hlower Hsuffix Hstatus.
  destruct (serve_save_file_200 env r srv form Hform Hstatus) as
    (finalDir & finalHtmlPath & eff0 & htmlFile & Hpath & Hpl & Hhtml & Hcreate & Hcopy).
  rewrite (serve_save_file_written env r w0 srv form _ _ _ _
             Hform Hpath Hpl Hhtml Hcreate Hcopy). simpl.
  destruct (placement_PlaceAt _ _ _ _ _ _ Hpl) as (Hmd & Hbundle & Hflat & Hnone & Heff0).
  assert (Hnot_md : inputExt = ".html" → is_markdown_ext inputExt = false).
  { intros ->. unfold is_markdown_ext. by rewrite Hlower. }
  assert (Hname : inputExt = ".html" → inputName = String.append base ".html").
  { intros Hext. subst base. rewrite <- Hext. by apply TrimSuffix_HasSuffix. }
  exists finalHtmlPath, finalDir.
  split; [done|]. split.
  { apply elem_of_app. left. apply elem_of_app. right.
    apply elem_of_cons. by left. }
  split.
  { intros p Hin. apply elem_of_app in Hin as [Hin|Hin].
    - apply elem_of_app in Hin as [Hin|Hin].
      + apply Heff0 in Hin. discriminate.
      + apply elem_of_cons in Hin as [[= ->]|Hin]; [by left|].
        apply list_elem_of_singleton in Hin. discriminate.
    - right. destruct (save_hasAssets form); [|by inversion Hin].
      apply save_assets_under in Hin as (fh & Hfh & [[= ->]|?]); [|discriminate].
      by exists fh. }
  split; [exact Hmd|]. split; [|split; [|exact Hnone]].
  - intros Hext Hassets Hsame.
    destruct (Hbundle (Hnot_md Hext) Hassets Hsame) as [-> ->].
    split; [done|]. fold inputDir inputName inputExt base.
    by rewrite <- (Hname Hext).
  - intros Hext Hassets Hsame. exact (Hflat (Hnot_md Hext) Hassets Hsame).
Qed.

(** C10.  Once the document of a POST /api/save-file has been written,
    the endpoint answers 200 with the final path whatever happens to the
    assets: each part is handled on its own, a part that cannot be
    opened or whose file cannot be created leaves no trace, and the
    result of a copy is not looked at. *)
Theorem save_assets_best_effort env r srv form finalDir finalHtmlPath eff0 htmlFile :
  Method r = "POST" → URLPath r = "/api/save-file" →
  ParseMultipartForm r = Ok form →
  save_inputPath r form ≠ "" →
  placement env (save_inputPath r form) (save_hasAssets form)
    = PlaceAt finalDir finalHtmlPath eff0 →
  FormFile env form "html" = Ok htmlFile →
  is_ok (os_Create env finalHtmlPath) = true →
  is_ok (io_Copy env finalHtmlPath (PartBytes htmlFile)) = true →
  let '(w, _, eff) := handler env r srv in
  StatusCode w = 200%nat ∧
  Written w = path_body finalHtmlPath ∧
  Header w !! "Content-Type" = Some "application/json" ∧
  eff = ((eff0 ++ [FsCreate finalHtmlPath;
                   FsCopy finalHtmlPath (PartBytes htmlFile)])
         ++ flat_map (asset_effects env finalDir) (save_assets_of form))%list.
Proof.
  intros Hm Hp Hform Hpath Hpl Hhtml Hcreate Hcopy.
  rewrite route_save_file by done.
  rewrite (serve_save_file_written env r w0 srv form _ _ _ _
             Hform Hpath Hpl Hhtml Hcreate Hcopy).
  split; [done|]. split; [done|]. split; [done|].
  f_equal. rewrite <- save_assets_flat_map.
  unfold save_hasAssets. destruct (save_assets_of form); done.
Qed.

Lemma lockFile_others open path st k :
  k ≠ getLockKey path →
  activeFileHandles (lockFile open path st) !! k = activeFileHandles st !! k.
Proof.
  intros Hk. unfold lockFile.
  destruct (activeFileHandles st !! getLockKey path); [done|].
  destruct open; [|done]. simpl. by rewrite lookup_insert_ne.
Qed.

Lemma unlockFile_others path st k :
  k ≠ getLockKey path →
  activeFileHandles (unlockFile path st) !! k = activeFileHandles st !! k.
Proof.
  intros Hk. unfold unlockFile.
  destruct (activeFileHandles st !! getLockKey path); [|done].
  simpl. by rewrite lookup_delete_ne.
Qed.

(** C7 (as amended).  When creating or writing the target of a save
    fails, the handler calls [lockFile] again on the exact path it
    unlocked just before the write and answers 500 with a readable
    message.  Afterwards the path is locked exactly when that re-open
    succeeds, whether or not it was locked before the attempt, and no
    other path's lock has changed. *)
Theorem save_failure_relocks env r srv form finalDir finalHtmlPath eff0 htmlFile :
  Method r = "POST" → URLPath r = "/api/save-file" →
  ParseMultipartForm r = Ok form →
  save_inputPath r form ≠ "" →
  placement env (save_inputPath r form) (save_hasAssets form)
    = PlaceAt finalDir finalHtmlPath eff0 →
  FormFile env form "html" = Ok htmlFile →
  is_ok (os_Create env finalHtmlPath) = false ∨
  is_ok (io_Copy env finalHtmlPath (PartBytes htmlFile)) = false →
  reachable (locks srv) →
  let '(w, srv', _) := handler env r srv in
  let key := getLockKey finalHtmlPath in
  StatusCode w = 500%nat ∧
  (∃ msg, Written w = error_body msg ∧ String.prefix "Failed to " msg = true) ∧
  locks srv' = lockFile (os_Open env finalHtmlPath) finalHtmlPath
                 (unlockFile finalHtmlPath (locks srv)) ∧
  handlesFor key (locks srv')
    = (if is_ok (os_Open env finalHtmlPath) then 1 else 0)%nat ∧
  (∀ k, k ≠ key →
        activeFileHandles (locks srv') !! k = activeFileHandles (locks srv) !! k) ∧
  reachable (locks srv').
Proof.
  intros Hm Hp Hform Hpath Hpl Hhtml Hfail Hr.
  rewrite route_save_file by done.
  destruct (serve_save_file_failed env r w0 srv form _ _ _ _
              Hform Hpath Hpl Hhtml Hfail) as (msg & eff & -> & Hmsg).
  cbv zeta. simpl locks.
  set (st1 := unlockFile finalHtmlPath (locks srv)).
  set (st2 := lockFile (os_Open env finalHtmlPath) finalHtmlPath st1).
  assert (Hr1 : reachable st1) by (eapply reachable_step; [done|constructor]).
  assert (Hr2 : reachable st2) by (eapply reachable_step; [done|constructor]).
  split; [done|]. split; [by exists msg|]. split; [done|].
  split; [|split; [|done]].
  - rewrite handlesFor_registry by by apply reachable_locks_ok.
    pose proof (lockFile_registered (os_Open env finalHtmlPath) finalHtmlPath st1)
      as Hreg. fold st2 in Hreg.
    subst st1. rewrite unlockFile_unregistered in Hreg.
    destruct (is_ok (os_Open env finalHtmlPath)).
    + destruct (proj2 Hreg) as [f ->]; [by right|done].
    + destruct (activeFileHandles st2 !! getLockKey finalHtmlPath) eqn:Hk; [|done].
      destruct (proj1 Hreg) as [[? ?]|?]; [eauto|discriminate|discriminate].
  - intros k Hk. subst st2 st1.
    by rewrite lockFile_others, unlockFile_others.
Qed.

End SaveClaims.

Lemma save_placement_policy_witness :
  let r := save_request "/docs/report.html" "<p>q3</p>" [logo] in
  StatusCode (@handler Linux.lib willing_env r empty_server).1.1 = 200%nat ∧
  Written (@handler Linux.lib willing_env r empty_server).1.1
  = path_body "/docs/report/report.html".
Proof.
  split; [vm_compute; reflexivity|].
  destruct (@save_placement_policy Linux.lib willing_env
              (save_request "/docs/report.html" "<p>q3</p>" [logo])
              empty_server (save_form "/docs/report.html" "<p>q3</p>" [logo])
              eq_refl eq_refl eq_refl eq_refl
              ltac:(vm_compute; reflexivity) ltac:(vm_compute; reflexivity))
    as (target & assetDir & Hbody & _ & _ & _ & Hbundle & _).
  destruct Hbundle as [_ Htarget]; [vm_compute; reflexivity..|].
  rewrite Hbody, Htarget. vm_compute. reflexivity.
Defined.

(** C1, the claim as stated fails: an HTML document saved with assets
    into a directory whose name differs from the base name only by letter
    case is not bundled. *)
Lemma save_placement_case_counterexample :
  let inputPath := "/home/Doc/doc.html" in
  let r := save_request inputPath "<p>draft</p>" [logo] in
  let w := (@handler Linux.lib willing_env r empty_server).1.1 in
  Linux.Ext (Linux.Base inputPath) = ".html" ∧
  Linux.Base (Linux.Dir inputPath) = "Doc" ∧
  Strings.TrimSuffix (Linux.Base inputPath) ".html" = "doc" ∧
  "Doc" ≠ "doc" ∧
  StatusCode w = 200%nat ∧
  Written w = path_body inputPath ∧
  Written w ≠ path_body "/home/Doc/doc/doc.html".
Proof. vm_compute. repeat split; discriminate. Qed.

Lemma save_assets_best_effort_witness :
  let document := "/docs/notes.md" in
  let env := document_only_env document in
  let r := save_request document "# notes" [logo] in
  is_ok (os_Create env "/docs/notes_assets/logo.png") = false ∧
  StatusCode (@handler Linux.lib env r empty_server).1.1 = 200%nat ∧
  Written (@handler Linux.lib env r empty_server).1.1 = path_body document.
Proof.
  split; [vm_compute; reflexivity|].
  pose proof (@save_assets_best_effort Linux.lib
                (document_only_env "/docs/notes.md")
                (save_request "/docs/notes.md" "# notes" [logo]) empty_server
                (save_form "/docs/notes.md" "# notes" [logo])
                "/docs/notes_assets" "/docs/notes.md"
                [FsMkdirAll "/docs/notes_assets"]
                {| Filename := "content"; PartBytes := "# notes" |}
                eq_refl eq_refl eq_refl
                ltac:(vm_compute; discriminate)
                ltac:(vm_compute; reflexivity)
                ltac:(vm_compute; reflexivity)
                ltac:(vm_compute; reflexivity)
                ltac:(vm_compute; reflexivity)) as Hthm.
  destruct (@handler Linux.lib (document_only_env "/docs/notes.md")
              (save_request "/docs/notes.md" "# notes" [logo]) empty_server)
    as [[w srv'] eff].
  destruct Hthm as (Hstatus & Hbody & _). by split.
Defined.

(** C7, the claim as stated fails: a target that was not locked before
    the save attempt is locked after a failed write. *)
Lemma save_failure_lock_state_counterexample :
  let target := "/docs/report.html" in
  let r := save_request target "<p>q3</p>" [] in
  let reply := @handler Linux.lib read_only_env r empty_server in
  let key := @getLockKey Linux.lib target in
  StatusCode reply.1.1 = 500%nat ∧
  @handlesFor Linux.lib key (locks empty_server) = 0%nat ∧
  @handlesFor Linux.lib key (locks reply.1.2) = 1%nat ∧
  @handlesFor Linux.lib key (locks reply.1.2)
  ≠ @handlesFor Linux.lib key (locks empty_server).
Proof. vm_compute. repeat split; discriminate. Qed.

Lemma save_failure_relocks_witness :
  let target := "/docs/report.html" in
  let r := save_request target "<p>q3</p>" [] in
  let reply := @handler Linux.lib read_only_env r empty_server in
  StatusCode reply.1.1 = 500%nat ∧
  @handlesFor Linux.lib (@getLockKey Linux.lib target) (locks reply.1.2) = 1%nat.
Proof.
  pose proof (@save_failure_relocks Linux.lib read_only_env
                (save_request "/docs/report.html" "<p>q3</p>" []) empty_server
                (save_form "/docs/report.html" "<p>q3</p>" [])
                "/docs" "/docs/report.html" []
                {| Filename := "content"; PartBytes := "<p>q3</p>" |}
                eq_refl eq_refl eq_refl
                ltac:(vm_compute; discriminate)
                ltac:(vm_compute; reflexivity)
                ltac:(vm_compute; reflexivity)
                ltac:(left; vm_compute; reflexivity)
                (rtc_refl _ _)) as Hthm.
  cbv zeta.
  destruct (@handler Linux.lib read_only_env
              (save_request "/docs/report.html" "<p>q3</p>" []) empty_server)
    as [[w srv'] eff].
  destruct Hthm as (Hstatus & _ & _ & Hcount & _). by split.
Defined.

(** ** Inlining local images *)

Section InlineFacts.
Context `{GoLib}.











End InlineFacts.

(** ** The patterns and their descriptions *)

Section PatternFacts.














End PatternFacts.

Section SrcPatternFacts.
















End SrcPatternFacts.

Section LeftmostMatch.





End LeftmostMatch.

Section DegradeFacts.
Context `{GoLib}.







End DegradeFacts.

Section InlineClaim.
Context `{GoLib}.



End InlineClaim.



Example inlineLocalImages_sample :
  @inlineLocalImages Linux.lib image_env sample_page "/docs/a.html"
  = "<p>Hi</p><img alt='a' src='data:application/octet-stream;base64,UE5HREFUQQ=='><IMG SRC='http://x/y.png'><img src='missing.png'><img data-src='q'>tail".
Proof. vm_compute. reflexivity. Qed.

Example segments_sample :
  List.filter is_tag (segments sample_page)
  = [ImgTag "<img alt='a' src='img/photo%201.png?v=2'>";
     ImgTag "<IMG SRC='http://x/y.png'>";
     ImgTag "<img src='missing.png'>";
     ImgTag "<img data-src='q'>"].
Proof. vm_compute. reflexivity. Qed.

(** ** Instance arbitration *)

Section MainClaims.
Context `{GoLib}.

Lemma openDefaultBrowser_quiet env url :
  forallb (λ e, negb (starts_service e)) (openDefaultBrowser env url) = true.
Proof.
  unfold openDefaultBrowser.
  repeat match goal with
         | |- context [if ?b then _ else _] => destruct b
         | |- context [exec_Start env ?argv] => destruct (exec_Start env argv)
         end; done.
Qed.

Lemma hide_console_quiet env :
  forallb (λ e, negb (starts_service e)) (hide_console env) = true.
Proof.
  unfold hide_console. destruct is_windows; [|done].
  by destruct (GetConsoleWindow env =? 0)%Z.
Qed.

Lemma hand_over_quiet env args :
  forallb (λ e, negb (starts_service e)) (hand_over env args) = true.
Proof.
  unfold hand_over.
  destruct args as [|prog [|filePath rest]];
    try apply openDefaultBrowser_quiet.
  destruct (os_Stat env _) as [info|]; [|done].
  destruct (IsDir info); [done|]. simpl.
  destruct (os_ReadFile env _); [|done].
  by destruct (http_Post env _ _).
Qed.

(** C6 (as amended).  When the fixed loopback port cannot be bound the
    process is a secondary instance: it starts neither the HTTP API nor
    the tray loop.  With a file argument that names an existing
    non-directory file which can be read, it posts once, with a
    two-second timeout, the absolute path and the base64 of the content
    to the primary's /api/cli-handover and returns whatever the answer;
    when the file cannot be read it returns without posting.  Without a
    file argument it opens the primary's root URL in the default browser
    and returns. *)
Theorem port_busy_is_secondary env args e :
  net_Listen env listenAddr = Err e →
  ∃ trace,
    main env args = Secondary (hide_console env ++ trace) ∧
    forallb (λ e, negb (starts_service e)) (hide_console env ++ trace) = true ∧
    (∀ prog filePath rest info content,
        args = prog :: filePath :: rest →
        os_Stat env (filepath_Abs filePath) = Ok info → IsDir info = false →
        os_ReadFile env (filepath_Abs filePath) = Ok content →
        trace = [handover_post (filepath_Abs filePath) content]) ∧
    (∀ prog filePath rest info msg,
        args = prog :: filePath :: rest →
        os_Stat env (filepath_Abs filePath) = Ok info → IsDir info = false →
        os_ReadFile env (filepath_Abs filePath) = Err msg →
        trace = []) ∧
    ((length args ≤ 1)%nat → trace = openDefaultBrowser env targetUrl).
Proof.
  intros Hbusy. exists (hand_over env args).
  split; [unfold main; by rewrite Hbusy|].
  split.
  { rewrite forallb_app, hide_console_quiet, hand_over_quiet. done. }
  split; [|split].
  - intros prog filePath rest info content -> Hstat Hfile Hread.
    unfold hand_over. rewrite Hstat, Hfile, Hread. simpl.
    by destruct (http_Post env _ _).
  - intros prog filePath rest info msg -> Hstat Hfile Hread.
    unfold hand_over. by rewrite Hstat, Hfile, Hread.
  - intros Hlen. unfold hand_over.
    destruct args as [|prog [|filePath rest]]; try done. simpl in Hlen. lia.
Qed.

End MainClaims.

(** C6, the claim as stated fails: the port is busy and the argument
    names an existing non-directory file, but the file cannot be read;
    nothing is posted. *)
Lemma port_busy_unreadable_counterexample :
  let args := ["winhtml.exe"; "/docs/locked.md"] in
  is_ok (net_Listen unreadable_env (@listenAddr)) = false ∧
  os_Stat unreadable_env (@filepath_Abs Linux.lib "/docs/locked.md")
  = Ok {| IsDir := false |} ∧
  existsb (@is_post Linux.lib)
    (@trace_of Linux.lib (@main Linux.lib unreadable_env args)) = false.
Proof. vm_compute. repeat split. Qed.

Lemma port_busy_is_secondary_witness :
  @main Linux.lib readable_env ["winhtml.exe"; "a.md"]
  = Secondary [@handover_post Linux.lib "/home/user/a.md" "hello"].
Proof.
  destruct (@port_busy_is_secondary Linux.lib readable_env
              ["winhtml.exe"; "a.md"] "bind: address already in use" eq_refl)
    as (trace & Hmain & _ & Hpost & _).
  rewrite Hmain.
  rewrite (Hpost "winhtml.exe" "a.md" [] {| IsDir := false |} "hello"
             eq_refl eq_refl eq_refl eq_refl).
  reflexivity.
Defined.

(** ** The registry behind the server *)

Section ServerInvariant.
Context `{GoLib}.

Lemma defer_locks cleanup (body : Reply) :
  (∀ srv, locks (cleanup srv) = locks srv) →
  locks (defer cleanup body).1.2 = locks body.1.2.
Proof. intros Hc. destruct body as [[w srv] eff]. simpl. apply Hc. Qed.

Ltac locks_done :=
  simpl;
  repeat first
    [ assumption
    | eapply reachable_step; [|constructor] ].

Lemma serve_save_file_reachable env r w srv :
  reachable (locks srv) → reachable (locks (serve_save_file env r w srv).1.2).
Proof.
  intros Hr. unfold serve_save_file.
  repeat case_match; locks_done.
Qed.

(** Whatever the request, the handler changes the registry only through
    [lockFile], [unlockFile] and [unlockAll]: the registry of a running
    server is always a reachable one. *)
Lemma handler_reachable env r srv :
  reachable (locks srv) → reachable (locks (handler env r srv).1.2).
Proof.
  intros Hr. unfold handler.
  repeat case_match; try done.
  - unfold serve_kill. locks_done.
  - unfold serve_lock. repeat case_match; locks_done.
  - unfold serve_unlock. repeat case_match; locks_done.
  - unfold serve_dialog_open. by repeat case_match.
  - unfold serve_dialog_save. by repeat case_match.
  - unfold serve_cli_handover. by repeat case_match.
  - unfold serve_open_file. by repeat case_match.
  - unfold serve_render_view. by repeat case_match.
  - unfold serve_screenshot.
    repeat case_match; try done; rewrite defer_locks by done;
      by repeat case_match.
  - unfold serve_pdf.
    repeat case_match; try done; rewrite defer_locks by done;
      by repeat case_match.
  - by apply serve_save_file_reachable.
Qed.

(** The server [main] starts has an empty registry. *)
Lemma main_primary_reachable env args srv trace :
  main env args = Primary srv trace → reachable (locks srv).
Proof.
  unfold main. destruct (net_Listen env listenAddr); [|discriminate].
  destruct (initial_file env args) as [initialID store].
  intros [= <- _]. apply rtc_refl.
Qed.

End ServerInvariant.

(** ** Canonical paths *)

Section CanonicalPaths.
Context `{GoLib}.

Lemma getLockKey_windows path :
  GOOS = "windows" → getLockKey path = strings_ToLower (filepath_Clean path).
Proof. intros Hos. unfold getLockKey. by rewrite Hos. Qed.

Lemma getLockKey_elsewhere path :
  GOOS ≠ "windows" → getLockKey path = filepath_Clean path.
Proof.
  intros Hos. unfold getLockKey. apply String.eqb_neq in Hos. by rewrite Hos.
Qed.

(** Two spellings of one canonical path share the lock: once one is
    locked, locking the other changes nothing. *)
Lemma lockFile_other_spelling open path path' st :
  getLockKey path = getLockKey path' →
  is_Some (activeFileHandles st !! getLockKey path) →
  lockFile open path' st = st.
Proof. intros Hkey Hheld. apply lockFile_held. by rewrite <- Hkey. Qed.

End CanonicalPaths.

(** ** The reference library *)

Example Clean_sample : Linux.Clean "a//b/../c/." = "a/c".
Proof. reflexivity. Qed.

Example Clean_rooted : Linux.Clean "/../a/b/" = "/a/b".
Proof. reflexivity. Qed.

Example Clean_dotdot : Linux.Clean "../../a" = "../../a".
Proof. reflexivity. Qed.

Example Clean_empty : Linux.Clean "a/.." = ".".
Proof. reflexivity. Qed.

Example Dir_sample : Linux.Dir "/home/Doc/doc.html" = "/home/Doc".
Proof. reflexivity. Qed.

Example Dir_bare : Linux.Dir "doc.html" = ".".
Proof. reflexivity. Qed.

Example Base_sample : Linux.Base "/home/Doc/" = "Doc".
Proof. reflexivity. Qed.

Example Base_slashes : Linux.Base "///" = "/".
Proof. reflexivity. Qed.

Example Ext_sample : Linux.Ext "/home/Do.c/doc.tar.gz" = ".gz".
Proof. reflexivity. Qed.

Example Ext_none : Linux.Ext "/home/Do.c/doc" = "".
Proof. reflexivity. Qed.

Example Join_sample :
  Linux.Join ["/home/Doc"; "doc"; "doc.html"] = "/home/Doc/doc/doc.html".
Proof. reflexivity. Qed.

Example Join_empty_elements : Linux.Join [""; "a"; ""; "b"] = "a/b".
Proof. reflexivity. Qed.

Example QueryUnescape_sample : Linux.QueryUnescape "a%20b+c" = Ok "a b c".
Proof. reflexivity. Qed.

Example QueryEscape_sample : Linux.QueryEscape "a b/c" = "a+b%2Fc".
Proof. reflexivity. Qed.

Example encodeHeaderValue_sample :
  @encodeHeaderValue Linux.lib "my notes.md" = "my%20notes.md".
Proof. reflexivity. Qed.

Example TrimSuffix_sample : Strings.TrimSuffix "doc.html" ".html" = "doc".
Proof. reflexivity. Qed.

Example IndexAny_sample : Strings.IndexAny "a.png?x#y" "?#" = 5%Z.
Proof. reflexivity. Qed.

Example Replace_first :
  Strings.Replace "a src='x' src='x'" " src='x'" " S" 1 = "a S src='x'".
Proof. reflexivity. Qed.

Example EncodeToString_hello : Base64.EncodeToString "hello" = "aGVsbG8=".
Proof. reflexivity. Qed.

Example DecodeString_hello : Base64.DecodeString "aGVsbG8=" = Ok "hello".
Proof. reflexivity. Qed.

Example DecodeString_unpadded : is_ok (Base64.DecodeString "aGVsbG8") = false.
Proof. reflexivity. Qed.

Example imgTagRe_sample : Regexp.imgTagRe_at "<IMG  src='a'>zz" = Some 14%nat.
Proof. reflexivity. Qed.

Example srcRe_sample :
  Regexp.srcRe_FindStringSubmatch "<img alt='' SRC = 'a.png' >"
  = Some [" SRC = 'a.png'"; " "; "'a.png'"; ""; "a.png"].
Proof. reflexivity. Qed.

Example srcRe_data_src :
  Regexp.srcRe_FindStringSubmatch "<img data-src='a.png' >" = None.
Proof. reflexivity. Qed.

(** On the reference library the extension is a suffix of the name, so a
    name the handover treats as HTML ends in [.html] or [.htm] up to
    case. *)
Section ExtensionSuffix.

Lemma ToLower_append s t :
  Linux.ToLower (String.append s t)
  = String.append (Linux.ToLower s) (Linux.ToLower t).
Proof.
  induction s as [|c s IH]; [done|]. rewrite append_cons. cbn [Linux.ToLower].
  by rewrite append_cons, IH.
Qed.

Lemma from_last_dot_suffix elem :
  ∃ pre, elem = String.append pre (Linux.from_last_dot elem).
Proof.
  induction elem as [|c rest [pre IH]]; [by exists ""|].
  cbn [Linux.from_last_dot]. destruct (Strings.contains_byte rest ".").
  - exists (String c pre). by rewrite append_cons, <- IH.
  - destruct (Ascii.eqb c "."); [by exists ""|].
    exists (String c rest). by rewrite append_nil_r.
Qed.

Lemma Ext_suffix path : ∃ pre, path = String.append pre (Linux.Ext path).
Proof.
  unfold Linux.Ext.
  set (n := Strings.len (Linux.through_last_sep path)).
  destruct (from_last_dot_suffix (Strings.drop n path)) as [pre Hpre].
  exists (String.append (Strings.take n path) pre).
  by rewrite append_assoc, <- Hpre, take_drop.
Qed.

Lemma HasSuffix_append s t : Strings.HasSuffix (String.append s t) t = true.
Proof.
  unfold Strings.HasSuffix, Strings.len. rewrite length_append.
  replace (String.length s + String.length t - String.length t)%nat
    with (String.length s) by lia.
  rewrite drop_append_length, String.eqb_refl, andb_true_r.
  apply Nat.leb_le. lia.
Qed.

Lemma html_ext_is_suffix fileName :
  is_html_ext (Linux.ToLower (Linux.Ext fileName)) = true →
  Strings.HasSuffix (Linux.ToLower fileName) ".html"
  || Strings.HasSuffix (Linux.ToLower fileName) ".htm" = true.
Proof.
  destruct (Ext_suffix fileName) as [pre Hpre]. rewrite Hpre at 2 3.
  rewrite ToLower_append. unfold is_html_ext.
  intros Hext. apply orb_true_iff in Hext as [Hext|Hext];
    apply String.eqb_eq in Hext; rewrite Hext, HasSuffix_append;
    by rewrite ?orb_true_r.
Qed.

(** A name that does not end in [.html] or [.htm], whatever the case of
    its letters, is handed over untouched. *)
Lemma not_html_suffix_not_html_ext fileName :
  Strings.HasSuffix (Linux.ToLower fileName) ".html" = false →
  Strings.HasSuffix (Linux.ToLower fileName) ".htm" = false →
  is_html_ext (@strings_ToLower Linux.lib (@filepath_Ext Linux.lib fileName))
  = false.
Proof.
  intros Hhtml Hhtm.
  destruct (is_html_ext _) eqn:Hext; [|done].
  apply html_ext_is_suffix in Hext. by rewrite Hhtml, Hhtm in Hext.
Qed.

End ExtensionSuffix.

(* ================================================================== *)

(** * Further properties of the program *)

(** ** The lock registry *)

Section RegistryProperties.
Context `{GoLib}.

Lemma unlockAll_registry st : activeFileHandles (unlockAll st) = ∅.
Proof. reflexivity. Qed.

(** X1.  [unlockAll] releases every lock: in a reachable registry it
    leaves no entry and no open handle, and every later [unlockFile] or
    [unlockAll] changes nothing. *)
Theorem unlockAll_releases_everything st :
  reachable st →
  let st' := unlockAll st in
  activeFileHandles st' = ∅ ∧
  openFiles (handles st') = [] ∧
  (∀ key, handlesFor key st' = 0%nat) ∧
  (∀ path, unlockFile path st' = st') ∧
  unlockAll st' = st'.
Proof.
  intros Hr st'. subst st'. pose proof (reachable_locks_ok _ Hr) as Hok.
  pose proof (unlockAll_closes_everything st Hok) as Hnil.
  split; [done|]. split; [done|]. split; [|split].
  - intros key. unfold handlesFor. by rewrite Hnil.
  - intros path. apply unlockFile_free.
    rewrite unlockAll_registry. apply lookup_empty.
  - unfold unlockAll at 1. rewrite unlockAll_registry, map_fold_empty.
    reflexivity.
Qed.

Lemma length_File_Close f h :
  NoDup (fd <$> openFiles h) → f ∈ openFiles h →
  length (openFiles (File_Close f h)) = Nat.pred (length (openFiles h)).
Proof.
  unfold File_Close. simpl. induction (openFiles h) as [|g l IH]; intros Hnd Hf.
  - inversion Hf.
  - simpl in Hnd. apply NoDup_cons in Hnd as [Hg Hnd]. rewrite filter_cons.
    apply elem_of_cons in Hf as [->|Hf].
    + destruct (decide (fd g ≠ fd g)) as [Hne|_]; [done|]. simpl.
      clear IH. induction l as [|x l IH]; [done|].
      rewrite filter_cons. destruct (decide (fd x ≠ fd g)) as [_|Heq].
      * simpl. f_equal. apply IH.
        -- intros Hin. apply Hg. simpl. apply elem_of_cons. by right.
        -- simpl in Hnd. by apply NoDup_cons in Hnd as [_ ?].
      * exfalso. apply Hg. simpl. apply elem_of_cons. left.
        destruct (decide (fd x = fd g)) as [->|?]; [done|]. by destruct Heq.
    + destruct (decide (fd g ≠ fd f)) as [_|Heq].
      * simpl. rewrite IH by done. destruct l; [inversion Hf|done].
      * exfalso. apply Hg.
        destruct (decide (fd g = fd f)) as [->|?]; [|by destruct Heq].
        by apply list_elem_of_fmap_2.
Qed.

(** X2.  The registry leaks no handle: in every reachable state the
    process holds exactly as many lock handles open as the registry has
    entries. *)
Theorem registry_leaks_no_handle st :
  reachable st →
  length (openFiles (handles st)) = size (activeFileHandles st).
Proof.
  unfold reachable. intros Hr.
  apply (rtc_ind_r (R := lock_step)
           (λ st, length (openFiles (handles st)) = size (activeFileHandles st))
           no_locks); [done| |done].
  intros y z Hy Hstep IH. pose proof (reachable_locks_ok y Hy) as Hok.
  destruct Hstep as [open path st0|path st0|st0].
  - unfold lockFile.
    destruct (activeFileHandles st0 !! getLockKey path) eqn:Hk; [done|].
    destruct open; [|done]. simpl.
    rewrite map_size_insert_None by done. by rewrite IH.
  - unfold unlockFile.
    destruct (activeFileHandles st0 !! getLockKey path) as [f|] eqn:Hk; [|done].
    cbn [handles activeFileHandles].
    destruct (ok_registered_open _ Hok _ _ Hk) as [Hf _].
    rewrite length_File_Close by (done || apply Hok).
    rewrite map_size_delete_Some by eauto. by rewrite IH.
  - rewrite (unlockAll_closes_everything _ Hok). simpl.
    by rewrite map_size_empty.
Qed.

(** X3.  Locking or unlocking one path leaves the locks of every other
    canonical path as they were. *)
Theorem lock_operations_are_local st path open key :
  reachable st → key ≠ getLockKey path →
  handlesFor key (lockFile open path st) = handlesFor key st ∧
  handlesFor key (unlockFile path st) = handlesFor key st.
Proof.
  intros Hr Hkey.
  assert (Hl : reachable (lockFile open path st))
    by (apply (reachable_step st); [exact Hr|constructor]).
  assert (Hu : reachable (unlockFile path st))
    by (apply (reachable_step st); [exact Hr|constructor]).
  rewrite !handlesFor_registry by by apply reachable_locks_ok.
  by rewrite lockFile_others, unlockFile_others.
Qed.

End RegistryProperties.

Lemma unlockAll_releases_everything_witness :
  let st := @lockFile Linux.lib (Ok tt) "/docs/b.md"
              (@lockFile Linux.lib (Ok tt) "/docs/a.md" no_locks) in
  @reachable Linux.lib st ∧
  length (openFiles (handles st)) = 2%nat ∧
  openFiles (handles (unlockAll st)) = [].
Proof.
  assert (Hr : @reachable Linux.lib
                 (@lockFile Linux.lib (Ok tt) "/docs/b.md"
                    (@lockFile Linux.lib (Ok tt) "/docs/a.md" no_locks))).
  { eapply rtc_r; [eapply rtc_r; [apply rtc_refl|constructor]|constructor]. }
  split; [exact Hr|]. split; [reflexivity|].
  apply (@unlockAll_releases_everything Linux.lib _ Hr).
Defined.

Lemma registry_leaks_no_handle_witness :
  let st := @unlockFile Linux.lib "/docs/a.md"
              (@lockFile Linux.lib (Ok tt) "/docs/b.md"
                 (@lockFile Linux.lib (Ok tt) "/docs/a.md" no_locks)) in
  @reachable Linux.lib st ∧
  length (openFiles (handles st)) = size (activeFileHandles st).
Proof.
  assert (Hr : @reachable Linux.lib
                 (@unlockFile Linux.lib "/docs/a.md"
                    (@lockFile Linux.lib (Ok tt) "/docs/b.md"
                       (@lockFile Linux.lib (Ok tt) "/docs/a.md" no_locks)))).
  { eapply rtc_r; [eapply rtc_r; [eapply rtc_r; [apply rtc_refl|]|]|];
      constructor. }
  split; [exact Hr|].
  apply (@registry_leaks_no_handle Linux.lib _ Hr).
Defined.

Lemma lock_operations_are_local_witness :
  let st := @lockFile Linux.lib (Ok tt) "/docs/a.md" no_locks in
  @reachable Linux.lib st ∧
  @handlesFor Linux.lib "/docs/a.md" (@unlockFile Linux.lib "/docs/b.md" st)
  = @handlesFor Linux.lib "/docs/a.md" st.
Proof.
  assert (Hr : @reachable Linux.lib
                 (@lockFile Linux.lib (Ok tt) "/docs/a.md" no_locks)).
  { eapply rtc_r; [apply rtc_refl|constructor]. }
  split; [exact Hr|].
  apply (@lock_operations_are_local Linux.lib _ "/docs/b.md" (Ok tt)
           "/docs/a.md" Hr).
  vm_compute. discriminate.
Defined.

(** ** Routes that only answer *)

Section PlainRoutes.
Context `{GoLib}.

Lemma route_options env r srv :
  Method r = "OPTIONS" →
  handler env r srv = (WriteHeader StatusOK w0, srv, []).
Proof. intros Hm. unfold handler. by rewrite Hm. Qed.

Lemma route_kill env r srv :
  Method r ≠ "OPTIONS" → URLPath r = "/api/kill" →
  handler env r srv = serve_kill w0 srv.
Proof.
  intros Hm Hp. unfold handler. apply String.eqb_neq in Hm. by rewrite Hm, Hp.
Qed.

Lemma route_lock env r srv :
  Method r = "POST" → URLPath r = "/api/file/lock" →
  handler env r srv = serve_lock env r w0 srv.
Proof. intros Hm Hp. unfold handler. by rewrite Hm, Hp. Qed.

Lemma route_unlock env r srv :
  Method r = "POST" → URLPath r = "/api/file/unlock" →
  handler env r srv = serve_unlock r w0 srv.
Proof. intros Hm Hp. unfold handler. by rewrite Hm, Hp. Qed.

(** X4.  A preflight request is answered 200 with the three CORS headers
    and an empty body on every path, and does nothing else: an OPTIONS on
    /api/kill kills nothing. *)
Theorem options_only_sets_cors env r srv :
  Method r = "OPTIONS" →
  let reply := handler env r srv in
  StatusCode reply.1.1 = 200%nat ∧
  Written reply.1.1 = [] ∧
  Header reply.1.1 !! "Access-Control-Allow-Origin" = Some "*" ∧
  Header reply.1.1 !! "Access-Control-Allow-Methods" = Some "GET, POST, OPTIONS" ∧
  Header reply.1.1 !! "Access-Control-Allow-Headers" = Some "Content-Type" ∧
  untouched srv reply.
Proof. intros Hm. rewrite route_options by done. by vm_compute. Qed.

(** X5.  /api/kill, under any method but OPTIONS, closes every lock
    handle of a reachable registry, answers 200 and schedules the exit
    100 ms later; the two stores are left alone. *)
Theorem kill_releases_locks_then_exits env r srv :
  Method r ≠ "OPTIONS" → URLPath r = "/api/kill" →
  reachable (locks srv) →
  let reply := handler env r srv in
  StatusCode reply.1.1 = 200%nat ∧
  Written reply.1.1 = [] ∧
  reply.2 = [Go [TimeSleep (100 * time_Millisecond); OsExit 0]] ∧
  activeFileHandles (locks reply.1.2) = ∅ ∧
  openFiles (handles (locks reply.1.2)) = [] ∧
  fileStore reply.1.2 = fileStore srv ∧
  renderStore reply.1.2 = renderStore srv.
Proof.
  intros Hm Hp Hr. rewrite route_kill by done. unfold serve_kill.
  cbv zeta. cbn [fst snd locks set_locks fileStore renderStore].
  repeat split.
  by apply unlockAll_closes_everything, reachable_locks_ok.
Qed.


(** X7.  Locking a path through the API and then unlocking it through
    the API leaves no handle for it; in between it is locked exactly when
    it was locked before or [os.Open] succeeded. *)
Theorem api_lock_then_unlock env env' r1 r2 srv path :
  Method r1 = "POST" → URLPath r1 = "/api/file/lock" →
  Method r2 = "POST" → URLPath r2 = "/api/file/unlock" →
  decode_LockRequest (body_json r1) = Ok {| LockPath := path |} →
  decode_LockRequest (body_json r2) = Ok {| LockPath := path |} →
  path ≠ "" →
  reachable (locks srv) →
  let srv1 := (handler env r1 srv).1.2 in
  let srv2 := (handler env' r2 srv1).1.2 in
  let key := getLockKey path in
  handlesFor key (locks srv1)
  = (if bool_decide (is_Some (activeFileHandles (locks srv) !! key))
        || is_ok (os_Open env path) then 1 else 0)%nat ∧
  handlesFor key (locks srv2) = 0%nat.
Proof.
  intros Hm1 Hp1 Hm2 Hp2 Hd1 Hd2 Hpath Hr srv1 srv2 key.
  apply String.eqb_neq in Hpath.
  assert (Hs1 : locks srv1 = lockFile (os_Open env path) path (locks srv)).
  { subst srv1. rewrite route_lock by done. unfold serve_lock.
    by rewrite Hd1; simpl; rewrite Hpath. }
  assert (Hs2 : locks srv2 = unlockFile path (locks srv1)).
  { subst srv2. rewrite route_unlock by done. unfold serve_unlock.
    by rewrite Hd2; simpl; rewrite Hpath. }
  assert (Hr1 : reachable (locks srv1)).
  { rewrite Hs1. apply (reachable_step (locks srv)); [done|constructor]. }
  assert (Hr2 : reachable (locks srv2)).
  { rewrite Hs2. apply (reachable_step (locks srv1)); [done|constructor]. }
  rewrite !handlesFor_registry by by apply reachable_locks_ok.
  split.
  - rewrite Hs1.
    pose proof (lockFile_registered (os_Open env path) path (locks srv)) as Hreg.
    fold key in Hreg |- *.
    destruct (activeFileHandles (lockFile _ _ _) !! key) as [f|] eqn:Hk.
    + destruct (proj1 Hreg) as [Hs| ->]; [eauto| |by rewrite orb_true_r].
      by rewrite bool_decide_eq_true_2.
    + destruct (is_ok (os_Open env path)).
      * destruct (proj2 Hreg) as [? ?]; [by right|discriminate].
      * rewrite bool_decide_eq_false_2; [done|].
        intros Hs. destruct (proj2 Hreg) as [? ?]; [by left|discriminate].
  - rewrite Hs2. subst key. by rewrite unlockFile_unregistered.
Qed.

(** X8.  When the native dialog returns a selection, the dialog endpoints
    answer 200 with that path; the save dialog is opened with the default
    extension the [filter] parameter selects. *)
Theorem dialog_selection_is_reported env r srv ret path :
  Method r = "GET" →
  (URLPath r = "/api/dialog/open" ∧ GetOpenFileNameW env = (ret, path)) ∨
  (URLPath r = "/api/dialog/save" ∧
   GetSaveFileNameW env (save_dialog_defExt r) = (ret, path)) →
  ret ≠ 0%Z →
  let reply := handler env r srv in
  StatusCode reply.1.1 = 200%nat ∧
  Written reply.1.1 = path_body path ∧
  Header reply.1.1 !! "Content-Type" = Some "application/json" ∧
  untouched srv reply.
Proof.
  intros Hm Hroute Hret. apply Z.eqb_neq in Hret.
  destruct Hroute as [[Hp Hdlg]|[Hp Hdlg]].
  - rewrite route_dialog_open by done.
    unfold serve_dialog_open, getNativeOpenDialog. by rewrite Hdlg, Hret.
  - rewrite route_dialog_save by done.
    unfold serve_dialog_save, getNativeSaveDialog.
    fold (save_dialog_defExt r). by rewrite Hdlg, Hret.
Qed.

End PlainRoutes.

Lemma options_only_sets_cors_witness :
  let reply := @handler Linux.lib Linux.bare_env (options "/api/kill")
                 empty_server in
  StatusCode reply.1.1 = 200%nat ∧ reply.2 = [].
Proof.
  pose proof (@options_only_sets_cors Linux.lib Linux.bare_env
                (options "/api/kill") empty_server eq_refl) as Hthm.
  split; [apply Hthm|apply Hthm].
Defined.

Lemma kill_releases_locks_then_exits_witness :
  let reply := @handler Linux.lib Linux.bare_env (get "/api/kill" ∅)
                 empty_server in
  reply.2 = [Go [TimeSleep (100 * time_Millisecond); OsExit 0]].
Proof.
  apply (@kill_releases_locks_then_exits Linux.lib Linux.bare_env
           (get "/api/kill" ∅) empty_server).
  - vm_compute. discriminate.
  - reflexivity.
  - apply rtc_refl.
Defined.


Lemma api_lock_then_unlock_witness :
  let srv1 := (@handler Linux.lib willing_env (lock_request "/docs/a.md")
                 empty_server).1.2 in
  let srv2 := (@handler Linux.lib willing_env (unlock_request "/docs/a.md")
                 srv1).1.2 in
  @handlesFor Linux.lib "/docs/a.md" (locks srv1) = 1%nat ∧
  @handlesFor Linux.lib "/docs/a.md" (locks srv2) = 0%nat.
Proof.
  apply (@api_lock_then_unlock Linux.lib willing_env willing_env
           (lock_request "/docs/a.md") (unlock_request "/docs/a.md")
           empty_server "/docs/a.md"); try reflexivity.
  - discriminate.
  - apply rtc_refl.
Defined.

Lemma dialog_selection_is_reported_witness :
  let env := sample_dialog_env 1 "C:\docs\a.html" in
  let reply := @handler Linux.lib env (get "/api/dialog/save" ∅) empty_server in
  Written reply.1.1 = path_body "C:\docs\a.html".
Proof.
  apply (@dialog_selection_is_reported Linux.lib
           (sample_dialog_env 1 "C:\docs\a.html") (get "/api/dialog/save" ∅)
           empty_server 1%Z "C:\docs\a.html").
  - reflexivity.
  - right. split; reflexivity.
  - discriminate.
Defined.

(** ** Requests that are turned away *)

Section RejectedRequests.
Context `{GoLib}.

Lemma http_Error_400 msg :
  StatusCode (http_Error msg StatusBadRequest w0) = 400%nat.
Proof. by apply StatusCode_http_Error. Qed.

(** X9.  A request whose body cannot be used is answered 400 and
    processed no further: an undecodable handover, an export without
    HTML (or, for PDF, without a path), a save that is not a multipart
    form or has no file path.  Nothing is stored, rendered, written or
    launched. *)
Theorem unusable_body_is_rejected env r srv :
  Method r = "POST" →
  (URLPath r = "/api/cli-handover" ∧
     is_ok (decode_FileData (body_json r)) = false) ∨
  (URLPath r = "/api/export/screenshot" ∧
     (is_ok (decode_ScreenshotRequest (body_json r)) = false ∨
      ∃ req, decode_ScreenshotRequest (body_json r) = Ok req ∧
             ShotHtml req = "")) ∨
  (URLPath r = "/api/export/pdf" ∧
     (is_ok (decode_PdfExportRequest (body_json r)) = false ∨
      ∃ req, decode_PdfExportRequest (body_json r) = Ok req ∧
             (PdfHtml req = "" ∨ PdfPath req = ""))) ∨
  (URLPath r = "/api/save-file" ∧
     (is_ok (ParseMultipartForm r) = false ∨
      ∃ form, ParseMultipartForm r = Ok form ∧ save_inputPath r form = "")) →
  let reply := handler env r srv in
  StatusCode reply.1.1 = 400%nat ∧ untouched srv reply.
Proof.
  intros Hm [[Hp Hbad]|[[Hp Hbad]|[[Hp Hbad]|[Hp Hbad]]]].
  - rewrite route_cli_handover by done. unfold serve_cli_handover.
    destruct (decode_FileData (body_json r)); [discriminate|].
    split; [apply http_Error_400|done].
  - rewrite route_screenshot by done. unfold serve_screenshot.
    destruct Hbad as [Hbad|(req & -> & ->)].
    + destruct (decode_ScreenshotRequest (body_json r)); [discriminate|].
      split; [apply http_Error_400|done].
    + split; [apply http_Error_400|done].
  - rewrite route_pdf by done. unfold serve_pdf.
    destruct Hbad as [Hbad|(req & -> & Hempty)].
    + destruct (decode_PdfExportRequest (body_json r)); [discriminate|].
      split; [apply http_Error_400|done].
    + assert (String.eqb (PdfHtml req) "" || String.eqb (PdfPath req) "" = true)
        as ->.
      { destruct Hempty as [->| ->]; [done|]. by rewrite orb_true_r. }
      split; [apply http_Error_400|done].
  - rewrite route_save_file by done. unfold serve_save_file.
    destruct Hbad as [Hbad|(form & -> & Hempty)].
    + destruct (ParseMultipartForm r); [discriminate|].
      split; [apply http_Error_400|done].
    + unfold save_inputPath in Hempty. rewrite Hempty.
      split; [apply http_Error_400|done].
Qed.

End RejectedRequests.

(** ** The file store *)

Section FileStoreProperties.
Context `{GoLib}.

(** X10.  A handover that decodes is stored under the identifier that is
    returned, leaves every other entry alone, locks nothing, and launches
    the browser on the root URL with that identifier as [fileId]. *)
Theorem handover_stores_and_launches env r srv payload :
  Method r = "POST" → URLPath r = "/api/cli-handover" →
  decode_FileData (body_json r) = Ok payload →
  let reply := handler env r srv in
  let id := generateID env in
  StatusCode reply.1.1 = 200%nat ∧
  Written reply.1.1 = [Raw id] ∧
  (∃ stored, fileStore reply.1.2 !! id = Some stored ∧
             FileName stored = FileName payload) ∧
  (∀ k, k ≠ id → fileStore reply.1.2 !! k = fileStore srv !! k) ∧
  locks reply.1.2 = locks srv ∧
  renderStore reply.1.2 = renderStore srv ∧
  reply.2 = [Go (openDefaultBrowser env
                   (String.append targetUrl (String.append "/?fileId=" id)))].
Proof.
  intros Hm Hp Hbody. rewrite route_cli_handover by done.
  unfold serve_cli_handover. rewrite Hbody. cbv zeta.
  cbn [fst snd fileStore set_fileStore locks renderStore].
  split; [done|]. split; [done|]. split.
  { rewrite lookup_insert_eq. eexists. split; [done|].
    destruct (Base64.DecodeString (Data payload)); [|done].
    by destruct (is_html_ext _). }
  split; [|done]. intros k Hk. by rewrite lookup_insert_ne.
Qed.

(** X11.  The handover does not insist on valid base64: such a payload is
    stored as it came and answered with an identifier, and it is the later
    GET /api/open-file for that identifier that fails, with 500. *)
Theorem handover_of_invalid_base64 env env' r srv payload :
  Method r = "POST" → URLPath r = "/api/cli-handover" →
  decode_FileData (body_json r) = Ok payload →
  is_ok (Base64.DecodeString (Data payload)) = false →
  let reply := handler env r srv in
  let id := generateID env in
  StatusCode reply.1.1 = 200%nat ∧
  Written reply.1.1 = [Raw id] ∧
  fileStore reply.1.2 !! id = Some payload ∧
  let reply' := handler env' (open_file_by_id id) reply.1.2 in
  StatusCode reply'.1.1 = 500%nat ∧
  Written reply'.1.1
  = [Raw (String.append "Failed to decode stored file" newline)].
Proof.
  intros Hm Hp Hbody Hbad. rewrite route_cli_handover by done.
  unfold serve_cli_handover. rewrite Hbody. cbv zeta.
  destruct (Base64.DecodeString (Data payload)) as [?|e] eqn:Hdec;
    [discriminate|].
  cbn [fst snd fileStore set_fileStore].
  split; [done|]. split; [done|].
  split; [by rewrite lookup_insert_eq|].
  rewrite route_open_file by done.
  unfold serve_open_file, open_file_by_id, Query_Get, Query_values. simpl.
  rewrite lookup_singleton_ne by done. simpl.
  rewrite lookup_singleton_eq. simpl. rewrite lookup_insert_eq, Hdec. done.
Qed.

(** X12.  On GET /api/open-file a [path] parameter takes priority: the
    answer does not depend on the file store (nor on any [fileId]), an
    empty path is a 400 and a file that cannot be read a 404. *)
Theorem open_file_path_takes_priority env r srv srv' filePath more :
  Method r = "GET" → URLPath r = "/api/open-file" →
  Query r !! "path" = Some (filePath :: more) →
  (handler env r srv).1.1 = (handler env r srv').1.1 ∧
  (filePath = "" → StatusCode (handler env r srv).1.1 = 400%nat) ∧
  (filePath ≠ "" → is_ok (os_ReadFile env filePath) = false →
   StatusCode (handler env r srv).1.1 = 404%nat).
Proof.
  intros Hm Hp Hq. rewrite !route_open_file by done.
  unfold serve_open_file, Query_values. rewrite Hq. simpl.
  split; [|split].
  - destruct (String.eqb filePath ""); [done|].
    destruct (os_ReadFile env filePath); [|done].
    by repeat case_match.
  - intros ->. simpl. by apply StatusCode_http_Error.
  - intros Hne Hread. apply String.eqb_neq in Hne. rewrite Hne.
    destruct (os_ReadFile env filePath); [discriminate|].
    by apply StatusCode_http_Error.
Qed.

(** X13.  A file opened by path is served as it is read, an HTML file
    after its local images are inlined; [Content-Length] is the length of
    the body that is written, and the name and path headers carry the
    encoded base name and path. *)
Theorem open_file_by_path_serves_the_file env r srv filePath more content :
  Method r = "GET" → URLPath r = "/api/open-file" →
  Query r !! "path" = Some (filePath :: more) →
  filePath ≠ "" →
  os_ReadFile env filePath = Ok content →
  let html := is_html_ext (strings_ToLower (filepath_Ext filePath)) in
  let body := if html then inlineLocalImages env content filePath else content in
  let w := (handler env r srv).1.1 in
  StatusCode w = 200%nat ∧
  Written w = [Raw body] ∧
  Header w !! "Content-Length" = Some (itoa (N.of_nat (Strings.len body))) ∧
  Header w !! "X-File-Name" = Some (encodeHeaderValue (filepath_Base filePath)) ∧
  Header w !! "X-File-Path" = Some (encodeHeaderValue filePath) ∧
  (html = true → Header w !! "Content-Type" = Some "text/html").
Proof.
  intros Hm Hp Hq Hne Hread. rewrite route_open_file by done.
  unfold serve_open_file, Query_values. rewrite Hq. simpl.
  apply String.eqb_neq in Hne. rewrite Hne, Hread.
  assert (Hw : ∀ mimeType body,
    let w := Write body
               (Header_Set "Content-Length" (itoa (N.of_nat (Strings.len body)))
                  (Header_Set "X-File-Path" (encodeHeaderValue filePath)
                     (Header_Set "X-File-Name"
                        (encodeHeaderValue (filepath_Base filePath))
                        (Header_Set "Content-Type" mimeType w0)))) in
    StatusCode w = 200%nat ∧ Written w = [Raw body] ∧
    Header w !! "Content-Length" = Some (itoa (N.of_nat (Strings.len body))) ∧
    Header w !! "X-File-Name" = Some (encodeHeaderValue (filepath_Base filePath)) ∧
    Header w !! "X-File-Path" = Some (encodeHeaderValue filePath) ∧
    Header w !! "Content-Type" = Some mimeType).
  { intros mimeType body. cbv zeta.
    unfold Write, Write_chunk, Header_Set, StatusCode.
    cbn [Header Status Written].
    split; [done|]. split; [done|].
    split; [by rewrite lookup_insert_eq|].
    split; [by rewrite !lookup_insert_ne, lookup_insert_eq by done|].
    split; [by rewrite !lookup_insert_ne, lookup_insert_eq by done|].
    by rewrite !lookup_insert_ne, lookup_insert_eq by done. }
  destruct (is_html_ext _).
  { cbv zeta. cbn [fst].
    destruct (Hw "text/html" (inlineLocalImages env content filePath))
      as (H1 & H2 & H3 & H4 & H5 & H6).
    split; [exact H1|]. split; [exact H2|]. split; [exact H3|].
    split; [exact H4|]. split; [exact H5|]. intros _. exact H6. }
  assert (Hplain : ∀ mimeType,
    let w := Write content
               (Header_Set "Content-Length" (itoa (N.of_nat (Strings.len content)))
                  (Header_Set "X-File-Path" (encodeHeaderValue filePath)
                     (Header_Set "X-File-Name"
                        (encodeHeaderValue (filepath_Base filePath))
                        (Header_Set "Content-Type" mimeType w0)))) in
    StatusCode w = 200%nat ∧ Written w = [Raw content] ∧
    Header w !! "Content-Length" = Some (itoa (N.of_nat (Strings.len content))) ∧
    Header w !! "X-File-Name" = Some (encodeHeaderValue (filepath_Base filePath)) ∧
    Header w !! "X-File-Path" = Some (encodeHeaderValue filePath) ∧
    (false = true → Header w !! "Content-Type" = Some "text/html")).
  { intros mimeType. destruct (Hw mimeType content) as (H1 & H2 & H3 & H4 & H5 & _).
    cbv zeta. split; [exact H1|]. split; [exact H2|]. split; [exact H3|].
    split; [exact H4|]. split; [exact H5|]. intros; discriminate. }
  destruct (String.eqb _ ".pdf"); [exact (Hplain _)|].
  destruct (String.eqb _ ".docx"); exact (Hplain _).
Qed.

(** X14.  The GET routes of the API never change the server's state:
    after opening a file, serving a render page or either dialog, the
    file store, the render store and the lock registry are what they
    were. *)
Theorem get_routes_keep_the_state env r srv :
  Method r = "GET" →
  URLPath r = "/api/open-file" ∨ URLPath r = "/api/render-view" ∨
  URLPath r = "/api/dialog/open" ∨ URLPath r = "/api/dialog/save" →
  (handler env r srv).1.2 = srv.
Proof.
  intros Hm [Hp|[Hp|[Hp|Hp]]].
  - rewrite route_open_file by done. unfold serve_open_file.
    by repeat case_match.
  - rewrite route_render_view by done. unfold serve_render_view.
    by repeat case_match.
  - rewrite route_dialog_open by done. unfold serve_dialog_open.
    by repeat case_match.
  - rewrite route_dialog_save by done. unfold serve_dialog_save.
    by repeat case_match.
Qed.

End FileStoreProperties.

Lemma unusable_body_is_rejected_witness :
  let reply := @handler Linux.lib willing_env (garbage_post "/api/export/pdf")
                 empty_server in
  StatusCode reply.1.1 = 400%nat ∧ reply.2 = [].
Proof.
  pose proof (@unusable_body_is_rejected Linux.lib willing_env
                (garbage_post "/api/export/pdf") empty_server eq_refl
                (or_intror (or_intror (or_introl
                   (conj eq_refl (or_introl eq_refl)))))) as [Hstatus [_ Heff]].
  by split.
Defined.

Lemma handover_stores_and_launches_witness :
  let reply := @handler Linux.lib willing_env
                 (handover_request "a.md" "aGVsbG8=") empty_server in
  Written reply.1.1 = [Raw "77696e68746d6c21"] ∧
  reply.2 = [Go [Exec ["xdg-open";
                       "http://127.0.0.1:58888/?fileId=77696e68746d6c21"]]].
Proof.
  pose proof (@handover_stores_and_launches Linux.lib willing_env
                (handover_request "a.md" "aGVsbG8=") empty_server
                {| FileName := "a.md"; Data := "aGVsbG8=" |}
                eq_refl eq_refl eq_refl)
    as (_ & Hbody & _ & _ & _ & _ & Heff).
  split; [exact Hbody|exact Heff].
Defined.

Lemma handover_of_invalid_base64_witness :
  let reply := @handler Linux.lib willing_env
                 (handover_request "a.bin" "!!!") empty_server in
  StatusCode reply.1.1 = 200%nat ∧
  StatusCode (@handler Linux.lib willing_env
                (open_file_by_id "77696e68746d6c21") reply.1.2).1.1 = 500%nat.
Proof.
  pose proof (@handover_of_invalid_base64 Linux.lib willing_env willing_env
                (handover_request "a.bin" "!!!") empty_server
                {| FileName := "a.bin"; Data := "!!!" |}
                eq_refl eq_refl eq_refl eq_refl)
    as (Hstatus & _ & _ & Hopen & _).
  split; [exact Hstatus|exact Hopen].
Defined.

Lemma open_file_path_takes_priority_witness :
  StatusCode (@handler Linux.lib willing_env (open_file_by_path "")
                empty_server).1.1 = 400%nat.
Proof.
  apply (@open_file_path_takes_priority Linux.lib willing_env
           (open_file_by_path "") empty_server empty_server "" []);
    reflexivity.
Defined.

Lemma open_file_by_path_serves_the_file_witness :
  Written (@handler Linux.lib readable_env (open_file_by_path "/docs/a.md")
             empty_server).1.1 = [Raw "hello"].
Proof.
  apply (@open_file_by_path_serves_the_file Linux.lib readable_env
           (open_file_by_path "/docs/a.md") empty_server "/docs/a.md" []
           "hello"); try reflexivity.
  discriminate.
Defined.

Lemma get_routes_keep_the_state_witness :
  (@handler Linux.lib willing_env (get "/api/render-view" ∅) empty_server).1.2
  = empty_server.
Proof.
  apply (@get_routes_keep_the_state Linux.lib willing_env
           (get "/api/render-view" ∅) empty_server eq_refl).
  right. left. reflexivity.
Defined.

(** ** Invariants of a running server *)

Section ServingInvariants.
Context `{GoLib}.

Lemma defer_stores cleanup (body : Reply) :
  (defer cleanup body).1.2 = cleanup body.1.2.
Proof. by destruct body as [[w srv] eff]. Qed.

Lemma serve_screenshot_stores env r w srv :
  fileStore (serve_screenshot env r w srv).1.2 = fileStore srv ∧
  (renderStore (serve_screenshot env r w srv).1.2 = renderStore srv ∨
   renderStore (serve_screenshot env r w srv).1.2
   = delete (generateID env) (renderStore srv)).
Proof.
  unfold serve_screenshot.
  destruct (decode_ScreenshotRequest (body_json r)) as [req|]; [|split; [done|by left]].
  destruct (String.eqb (ShotHtml req) ""); [split; [done|by left]|].
  rewrite defer_stores.
  destruct (chromedp_Run env _ _); simpl; (split; [done|right]);
    by rewrite delete_insert_eq.
Qed.

Lemma serve_pdf_stores env r w srv :
  fileStore (serve_pdf env r w srv).1.2 = fileStore srv ∧
  (renderStore (serve_pdf env r w srv).1.2 = renderStore srv ∨
   renderStore (serve_pdf env r w srv).1.2
   = delete (generateID env) (renderStore srv)).
Proof.
  unfold serve_pdf.
  destruct (decode_PdfExportRequest (body_json r)) as [req|]; [|split; [done|by left]].
  destruct (_ || _); [split; [done|by left]|].
  rewrite defer_stores.
  destruct (chromedp_Run env _ _); simpl.
  - destruct (os_WriteFile env _ _); simpl; (split; [done|right]);
      by rewrite delete_insert_eq.
  - split; [done|right]. by rewrite delete_insert_eq.
Qed.

Lemma serve_save_file_stores env r w srv :
  fileStore (serve_save_file env r w srv).1.2 = fileStore srv ∧
  renderStore (serve_save_file env r w srv).1.2 = renderStore srv.
Proof. unfold serve_save_file. by repeat case_match. Qed.

(** The render store after a request: as before, or without the token of
    this request. *)
Lemma handler_renderStore env r srv :
  renderStore (handler env r srv).1.2 = renderStore srv ∨
  renderStore (handler env r srv).1.2
  = delete (generateID env) (renderStore srv).
Proof.
  unfold handler.
  repeat case_match; try (by left).
  - unfold serve_lock. left. by repeat case_match.
  - unfold serve_unlock. left. by repeat case_match.
  - unfold serve_dialog_open. left. by repeat case_match.
  - unfold serve_dialog_save. left. by repeat case_match.
  - unfold serve_cli_handover. left. by repeat case_match.
  - unfold serve_open_file. left. by repeat case_match.
  - unfold serve_render_view. left. by repeat case_match.
  - apply serve_screenshot_stores.
  - apply serve_pdf_stores.
  - left. apply serve_save_file_stores.
Qed.

(** The file store after a request: as before, or with one entry put
    under the identifier of this request. *)
Lemma handler_fileStore env r srv :
  fileStore (handler env r srv).1.2 = fileStore srv ∨
  ∃ payload,
    fileStore (handler env r srv).1.2
    = <[generateID env := payload]> (fileStore srv).
Proof.
  unfold handler.
  repeat case_match; try (by left).
  - unfold serve_lock. left. by repeat case_match.
  - unfold serve_unlock. left. by repeat case_match.
  - unfold serve_dialog_open. left. by repeat case_match.
  - unfold serve_dialog_save. left. by repeat case_match.
  - unfold serve_cli_handover.
    destruct (decode_FileData (body_json r)); [|by left].
    right. by eexists.
  - unfold serve_open_file. left. by repeat case_match.
  - unfold serve_render_view. left. by repeat case_match.
  - left. apply serve_screenshot_stores.
  - left. apply serve_pdf_stores.
  - left. apply serve_save_file_stores.
Qed.

Lemma main_primary_stores env args srv trace :
  main env args = Primary srv trace →
  renderStore srv = ∅ ∧ locks srv = no_locks ∧
  (fileStore srv = ∅ ∨
   ∃ payload, fileStore srv = {[ generateID env := payload ]}).
Proof.
  unfold main. destruct (net_Listen env listenAddr); [|discriminate].
  destruct (initial_file env args) as [initialID store] eqn:Hinit.
  intros [= <- _]. split; [done|]. split; [done|]. simpl.
  unfold initial_file in Hinit.
  repeat case_match; simplify_eq; eauto.
Qed.

Lemma is_ID_generateID env : is_ID (generateID env) = true.
Proof.
  unfold is_ID. rewrite generateID_length, generateID_lower_hex. done.
Qed.

(** X15.  Between requests the render store of a running server is
    empty: whatever requests were served and however their renders ended,
    no HTML stays behind, and a render page asked for from outside is
    always 404. *)
Theorem render_store_is_empty_between_requests srv :
  serving srv →
  renderStore srv = ∅ ∧
  ∀ env token,
    StatusCode (handler env (render_view_get token) srv).1.1 = 404%nat.
Proof.
  intros Hs.
  assert (Hempty : renderStore srv = ∅).
  { induction Hs as [env args srv trace Hmain|env r srv Hs IH].
    - by apply main_primary_stores in Hmain as [? _].
    - destruct (handler_renderStore env r srv) as [-> | ->]; [done|].
      rewrite IH. apply delete_empty. }
  split; [done|]. intros env token. apply render_view_unknown_token.
  rewrite Hempty. apply lookup_empty.
Qed.

(** X16.  The file store of a running server only grows, and only under
    identifiers of sixteen lower-case hexadecimal digits: an entry, once
    stored, is found after every later request, and a GET /api/open-file
    that names neither a path nor such an identifier is answered 404. *)
Theorem file_store_keeps_its_entries srv :
  serving srv →
  (∀ id, is_Some (fileStore srv !! id) → is_ID id = true) ∧
  (∀ env r id, is_Some (fileStore srv !! id) →
               is_Some (fileStore (handler env r srv).1.2 !! id)) ∧
  (∀ env r, Method r = "GET" → URLPath r = "/api/open-file" →
            Query r !! "path" = None →
            is_ID (Query_Get r "fileId") = false →
            StatusCode (handler env r srv).1.1 = 404%nat).
Proof.
  intros Hs.
  assert (Hids : ∀ id, is_Some (fileStore srv !! id) → is_ID id = true).
  { induction Hs as [env args srv trace Hmain|env r srv Hs IH]; intros id Hid.
    - apply main_primary_stores in Hmain as (_ & _ & [Hst|[payload Hst]]);
        rewrite Hst in Hid.
      + rewrite lookup_empty in Hid. by destruct Hid.
      + destruct (decide (id = generateID env)) as [->|Hne];
          [apply is_ID_generateID|].
        rewrite lookup_singleton_ne in Hid by done. by destruct Hid.
    - destruct (handler_fileStore env r srv) as [Hst|[payload Hst]];
        rewrite Hst in Hid; [by apply IH|].
      destruct (decide (id = generateID env)) as [->|Hne];
        [apply is_ID_generateID|].
      rewrite lookup_insert_ne in Hid by done. by apply IH. }
  split; [done|]. split.
  - intros env r id Hid.
    destruct (handler_fileStore env r srv) as [-> | [payload ->]]; [done|].
    destruct (decide (id = generateID env)) as [->|Hne].
    + rewrite lookup_insert_eq. eauto.
    + by rewrite lookup_insert_ne.
  - intros env r Hm Hp Hq Hid. rewrite route_open_file by done.
    unfold serve_open_file, Query_values. rewrite Hq. simpl.
    destruct (fileStore srv !! Query_Get r "fileId") eqn:Hk.
    + rewrite Hids in Hid by eauto. discriminate.
    + by apply StatusCode_http_Error.
Qed.

End ServingInvariants.

Lemma render_store_is_empty_between_requests_witness :
  renderStore (@handler Linux.lib willing_env screenshot_request
                 empty_server).1.2 = ∅.
Proof.
  assert (Hs : @serving Linux.lib empty_server).
  { apply (@serving_start Linux.lib primary_env ["winhtml.exe"] empty_server
             [Go [HttpServe "127.0.0.1:58888"];
              Go [TimeSleep (200 * time_Millisecond);
                  Exec ["xdg-open"; "http://127.0.0.1:58888"]];
              RunTrayApp "http://127.0.0.1:58888"]).
    vm_compute. reflexivity. }
  apply (@render_store_is_empty_between_requests Linux.lib _
           (@serving_step Linux.lib willing_env screenshot_request _ Hs)).
Defined.

Lemma file_store_keeps_its_entries_witness :
  let srv := (@handler Linux.lib willing_env
                (handover_request "a.md" "aGVsbG8=") empty_server).1.2 in
  is_Some (fileStore srv !! "77696e68746d6c21") ∧
  is_Some (fileStore (@handler Linux.lib willing_env
                        (handover_request "b.md" "aGk=") srv).1.2
           !! "77696e68746d6c21").
Proof.
  assert (Hs : @serving Linux.lib empty_server).
  { apply (@serving_start Linux.lib primary_env ["winhtml.exe"] empty_server
             [Go [HttpServe "127.0.0.1:58888"];
              Go [TimeSleep (200 * time_Millisecond);
                  Exec ["xdg-open"; "http://127.0.0.1:58888"]];
              RunTrayApp "http://127.0.0.1:58888"]).
    vm_compute. reflexivity. }
  assert (Hin : is_Some (fileStore (@handler Linux.lib willing_env
                   (handover_request "a.md" "aGVsbG8=") empty_server).1.2
                 !! "77696e68746d6c21")) by (vm_compute; eauto).
  split; [exact Hin|].
  apply (@file_store_keeps_its_entries Linux.lib _
           (@serving_step Linux.lib willing_env
              (handover_request "a.md" "aGVsbG8=") _ Hs)).
  exact Hin.
Defined.

(** ** From the command line to the editor *)

Section LaunchFile.
Context `{GoLib}.

Lemma generateID_nonempty env : String.eqb (generateID env) "" = false.
Proof.
  apply String.eqb_neq. intros Heq.
  pose proof (generateID_length env) as Hlen. by rewrite Heq in Hlen.
Qed.

Lemma open_stored_file env id srv fileName content :
  fileStore srv !! id
  = Some {| FileName := fileName; Data := Base64.EncodeToString content |} →
  let w := (handler env (open_file_by_id id) srv).1.1 in
  StatusCode w = 200%nat ∧ Written w = [Raw content] ∧
  Header w !! "X-File-Path" = Some (encodeHeaderValue fileName).
Proof.
  intros Hid. rewrite route_open_file by done.
  unfold serve_open_file, open_file_by_id, Query_Get, Query_values. simpl.
  rewrite lookup_singleton_ne by done. simpl.
  rewrite lookup_singleton_eq. simpl. rewrite Hid. simpl.
  rewrite DecodeString_EncodeToString.
  unfold Write, Write_chunk, Header_Set, StatusCode. cbn [fst Header Status Written].
  split; [done|]. split; [done|].
  by rewrite lookup_insert_ne, lookup_insert_eq.
Qed.

(** X17.  A primary instance launched with a readable file keeps its
    content in the file store, an HTML file with its local images
    inlined, opens the browser on the identifier after 200 ms, and
    serves exactly that content for the identifier; it starts with no
    lock held. *)
Theorem primary_serves_the_launch_file env env' prog filePath rest info content :
  is_ok (net_Listen env listenAddr) = true →
  os_Stat env (filepath_Abs filePath) = Ok info → IsDir info = false →
  os_ReadFile env (filepath_Abs filePath) = Ok content →
  let absPath := filepath_Abs filePath in
  let id := generateID env in
  let body :=
    if is_html_ext (strings_ToLower (filepath_Ext absPath))
    then inlineLocalImages env content absPath else content in
  ∃ srv trace,
    main env (prog :: filePath :: rest) = Primary srv trace ∧
    locks srv = no_locks ∧
    Go (TimeSleep (200 * time_Millisecond)
          :: openDefaultBrowser env
               (String.append targetUrl (String.append "/?fileId=" id)))
      ∈ trace ∧
    let w := (handler env' (open_file_by_id id) srv).1.1 in
    StatusCode w = 200%nat ∧ Written w = [Raw body] ∧
    Header w !! "X-File-Path" = Some (encodeHeaderValue absPath).
Proof.
  intros Hlisten Hstat Hfile Hread absPath id body.
  unfold main. destruct (net_Listen env listenAddr); [|discriminate].
  unfold initial_file. rewrite Hstat, Hfile, Hread. cbn [negb].
  fold absPath. fold id. fold body.
  subst id. rewrite generateID_nonempty. cbn [negb].
  eexists _, _. split; [reflexivity|]. split; [done|]. split.
  { apply elem_of_app. right. apply elem_of_cons. right.
    apply elem_of_cons. by left. }
  apply (open_stored_file env' _ _ absPath body).
  cbn [fileStore set_fileStore]. by rewrite lookup_singleton_eq.
Qed.

(** X18.  What a secondary instance posts is what the editor gets: when
    the primary handles the posted document and the browser then asks for
    the returned identifier, the answer is the content of the file the
    secondary read (an HTML file with its local images inlined by the
    primary) under its absolute path.  The two JSON field names must not
    be equal up to case, which holds for Go's [EqualFold]. *)
Theorem handover_end_to_end env2 env1 env' prog filePath rest info content srv :
  strings_EqualFold "data" "fileName" = false →
  strings_EqualFold "fileName" "data" = false →
  is_ok (net_Listen env2 listenAddr) = false →
  os_Stat env2 (filepath_Abs filePath) = Ok info → IsDir info = false →
  os_ReadFile env2 (filepath_Abs filePath) = Ok content →
  let absPath := filepath_Abs filePath in
  let body :=
    if is_html_ext (strings_ToLower (filepath_Ext absPath))
    then inlineLocalImages env1 content absPath else content in
  ∃ doc,
    List.filter is_post (trace_of (main env2 (prog :: filePath :: rest)))
    = [HttpPost (String.append targetUrl "/api/cli-handover")
         "application/json" doc (2 * time_Second)] ∧
    let reply := handler env1 (post_json "/api/cli-handover" doc) srv in
    Written reply.1.1 = [Raw (generateID env1)] ∧
    let w := (handler env' (open_file_by_id (generateID env1)) reply.1.2).1.1 in
    StatusCode w = 200%nat ∧ Written w = [Raw body] ∧
    Header w !! "X-File-Path" = Some (encodeHeaderValue absPath).
Proof.
  intros Hfold1 Hfold2 Hbusy Hstat Hfile Hread absPath body.
  exists (json_of_FileData
            {| FileName := absPath; Data := Base64.EncodeToString content |}).
  split.
  { unfold main. destruct (net_Listen env2 listenAddr); [discriminate|].
    cbn [trace_of]. rewrite List.filter_app.
    assert (List.filter is_post (hide_console env2) = []) as ->.
    { unfold hide_console. destruct is_windows; [|done].
      by destruct (GetConsoleWindow env2 =? 0)%Z. }
    unfold hand_over. rewrite Hstat, Hfile, Hread. cbn [negb].
    fold absPath. by destruct (http_Post env2 _ _). }
  rewrite (route_cli_handover env1) by done.
  unfold serve_cli_handover.
  assert (decode_FileData
            (body_json (post_json "/api/cli-handover"
               (json_of_FileData
                  {| FileName := absPath;
                     Data := Base64.EncodeToString content |})))
          = Ok {| FileName := absPath; Data := Base64.EncodeToString content |})
    as ->.
  { unfold decode_FileData, decode_struct, json_of_FileData. cbn.
    unfold names_field. rewrite Hfold1, Hfold2. cbn.
    done. }
  cbv zeta. cbn [Data FileName]. rewrite DecodeString_EncodeToString.
  fold absPath. cbn [fst snd]. split; [done|].
  apply (open_stored_file env' _ _ absPath body).
  cbn [fileStore set_fileStore]. rewrite lookup_insert_eq.
  subst body. by destruct (is_html_ext _).
Qed.

End LaunchFile.

Lemma primary_serves_the_launch_file_witness :
  ∃ srv trace,
    @main Linux.lib primary_env ["winhtml.exe"; "a.md"] = Primary srv trace ∧
    Written (@handler Linux.lib willing_env
               (open_file_by_id (@generateID Linux.lib primary_env)) srv).1.1
    = [Raw "hello"].
Proof.
  destruct (@primary_serves_the_launch_file Linux.lib primary_env willing_env
              "winhtml.exe" "a.md" [] {| IsDir := false |} "hello"
              eq_refl eq_refl eq_refl eq_refl)
    as (srv & trace & Hmain & _ & _ & _ & Hbody & _).
  exists srv, trace. split; [exact Hmain|exact Hbody].
Defined.

Lemma handover_end_to_end_witness :
  ∃ doc,
    List.filter (@is_post Linux.lib)
      (@trace_of Linux.lib (@main Linux.lib readable_env ["winhtml.exe"; "a.md"]))
    = [HttpPost "http://127.0.0.1:58888/api/cli-handover" "application/json"
         doc (2 * time_Second)] ∧
    Written (@handler Linux.lib willing_env
               (open_file_by_id (@generateID Linux.lib willing_env))
               (@handler Linux.lib willing_env
                  (post_json "/api/cli-handover" doc) empty_server).1.2).1.1
    = [Raw "hello"].
Proof.
  destruct (@handover_end_to_end Linux.lib readable_env willing_env willing_env
              "winhtml.exe" "a.md" [] {| IsDir := false |} "hello" empty_server
              eq_refl eq_refl eq_refl eq_refl eq_refl eq_refl)
    as (doc & Hpost & _ & _ & Hbody & _).
  exists doc. split; [exact Hpost|exact Hbody].
Defined.

(** ** Exports *)

Section ExportProperties.
Context `{GoLib}.

(** X19.  A PDF export that passes validation runs the driver once, with
    a 60 s deadline, on the render URL of its token, where the request's
    HTML is served while it runs.  If the driver fails the answer is 500
    with the driver's error and nothing is written; otherwise the
    driver's bytes are written to the request's path, and the answer is
    200 with an empty body, or 500 if the write fails. *)
Theorem pdf_export_outcomes env r srv req :
  Method r = "POST" → URLPath r = "/api/export/pdf" →
  decode_PdfExportRequest (body_json r) = Ok req →
  PdfHtml req ≠ "" → PdfPath req ≠ "" →
  let reply := handler env r srv in
  let token := generateID env in
  let running := set_renderStore (<[token := PdfHtml req]> (renderStore srv)) srv in
  ∃ job rest,
    reply.2 = Render job :: rest ∧
    deadline job = (60 * time_Second)%Z ∧
    Navigate (renderURL token) ∈ actions job ∧
    Written (render_page token running) = [Raw (PdfHtml req)] ∧
    match chromedp_Run env job (render_page token running) with
    | Err e =>
        StatusCode reply.1.1 = 500%nat ∧
        Written reply.1.1
        = [Raw (String.append (String.append "Chromedp Error: " e) newline)] ∧
        (∀ p b, FsWriteFile p b ∉ reply.2)
    | Ok buf =>
        FsWriteFile (PdfPath req) buf ∈ reply.2 ∧
        (∀ p b, FsWriteFile p b ∈ reply.2 → p = PdfPath req ∧ b = buf) ∧
        match os_WriteFile env (PdfPath req) buf with
        | Ok _ => StatusCode reply.1.1 = 200%nat ∧ Written reply.1.1 = []
        | Err _ =>
            StatusCode reply.1.1 = 500%nat ∧
            Written reply.1.1
            = [Raw (String.append "Failed to write PDF file" newline)]
        end
    end.
Proof.
  intros Hm Hp Hdec Hhtml Hpath. rewrite route_pdf by done.
  unfold serve_pdf. rewrite Hdec.
  apply String.eqb_neq in Hhtml, Hpath. rewrite Hhtml, Hpath. cbn [orb].
  cbv zeta.
  match goal with
  | |- context [chromedp_Run env ?j ?p] => set (job := j); set (page := p)
  end.
  destruct (render_page_stored (generateID env) (PdfHtml req) srv) as [_ Hpage].
  assert (Hin : ∀ (x : @Effect float64) l, x ∈ x :: l)
    by (intros; apply elem_of_cons; by left).
  destruct (chromedp_Run env job page) as [buf|e] eqn:Hrun.
  - assert (Hall : ∀ l p b,
              (∀ e, e ∈ l → ∃ msg, e = LogPrint msg) →
              FsWriteFile p b ∈ Render job :: FsWriteFile (PdfPath req) buf :: l →
              p = PdfPath req ∧ b = buf).
    { intros l p b Hl Hmem. apply elem_of_cons in Hmem as [Hmem|Hmem];
        [discriminate|].
      apply elem_of_cons in Hmem as [Hmem|Hmem]; [by injection Hmem|].
      destruct (Hl _ Hmem) as [msg ?]. discriminate. }
    destruct (os_WriteFile env (PdfPath req) buf) as [u|e] eqn:Hwrite.
    + eexists job, _. cbn [defer fst snd]. split; [reflexivity|].
      split; [done|]. split; [apply elem_of_cons; by left|].
      split; [exact Hpage|]. rewrite Hrun. split.
      { apply elem_of_cons. right. apply Hin. }
      split.
      { intros p b. apply Hall. intros e He. inversion He. }
      by rewrite Hwrite.
    + eexists job, _. cbn [defer fst snd]. split; [reflexivity|].
      split; [done|]. split; [apply elem_of_cons; by left|].
      split; [exact Hpage|]. rewrite Hrun. split.
      { apply elem_of_cons. right. apply Hin. }
      split.
      { intros p b. apply Hall. intros e' He.
        apply list_elem_of_singleton in He. eauto. }
      by rewrite Hwrite.
  - eexists job, _. cbn [defer fst snd]. split; [reflexivity|].
    split; [done|]. split; [apply elem_of_cons; by left|].
    split; [exact Hpage|]. rewrite Hrun.
    split; [done|]. split; [done|].
    intros p b Hmem. apply elem_of_cons in Hmem as [Hmem|Hmem]; [discriminate|].
    apply list_elem_of_singleton in Hmem. discriminate.
Qed.

Lemma parse_int_int64 lit v :
  parse_int lit = Some v → (math_MinInt64 ≤ v ≤ math_MaxInt64)%Z.
Proof.
  unfold parse_int. destruct (decimal lit) as [d|]; [|discriminate].
  destruct (math_MinInt64 <=? d)%Z eqn:Hlo; [|discriminate].
  destruct (d <=? math_MaxInt64)%Z eqn:Hhi; [|discriminate].
  intros [= <-]. split; [by apply Z.leb_le|by apply Z.leb_le].
Qed.

Lemma decode_field_int64 field ms cur v :
  (math_MinInt64 ≤ cur ≤ math_MaxInt64)%Z →
  decode_field as_int field ms cur = Ok v →
  (math_MinInt64 ≤ v ≤ math_MaxInt64)%Z.
Proof.
  revert cur. induction ms as [|[key j] ms IH]; intros cur Hcur.
  - by intros [= <-].
  - cbn [decode_field]. destruct (names_field field key); [|by apply IH].
    destruct j as [|b|lit|str|items|members]; try discriminate;
      [by apply IH|].
    cbn [as_int]. destruct (parse_int lit) as [n|] eqn:Hlit; [|discriminate].
    apply IH. by apply (parse_int_int64 lit).
Qed.

(** A decoded width is a value of Go's [int]. *)
Lemma decode_ScreenshotRequest_int64 body req :
  decode_ScreenshotRequest body = Ok req →
  (math_MinInt64 ≤ Width req ≤ math_MaxInt64)%Z.
Proof.
  unfold decode_ScreenshotRequest, decode_struct.
  destruct body as [[| | | | |members]|]; try discriminate.
  - intros [= <-]. done.
  - destruct (decode_field as_string "html" members "") as [h|]; [|discriminate].
    destruct (decode_field as_int "width" members 0%Z) as [w|] eqn:Hw;
      [|discriminate].
    intros [= <-]. by apply (decode_field_int64 "width" members 0%Z).
Qed.

(** X20.  A screenshot that passes validation (a body that decodes, the
    width fitting Go's [int], and non-empty HTML) runs the driver once,
    with a 30 s deadline and the requested viewport width, on the render
    URL of its token.  The driver's bytes are the body, sent as
    [image/png] with their length; a driver failure is a 500 carrying
    the driver's error.  Nothing is written to disk. *)
Theorem screenshot_outcomes env r srv req :
  Method r = "POST" → URLPath r = "/api/export/screenshot" →
  decode_ScreenshotRequest (body_json r) = Ok req →
  ShotHtml req ≠ "" →
  let reply := handler env r srv in
  let token := generateID env in
  let running := set_renderStore (<[token := ShotHtml req]> (renderStore srv)) srv in
  (math_MinInt64 ≤ Width req ≤ math_MaxInt64)%Z ∧
  ∃ job rest,
    reply.2 = Render job :: rest ∧
    deadline job = (30 * time_Second)%Z ∧
    actions job !! 0%nat = Some (EmulateViewport (Width req) 1 "3.0") ∧
    actions job !! 1%nat = Some (Navigate (renderURL token)) ∧
    Written (render_page token running) = [Raw (ShotHtml req)] ∧
    (∀ e, e ∈ rest → ∃ msg, e = LogPrint msg) ∧
    match chromedp_Run env job (render_page token running) with
    | Err e =>
        StatusCode reply.1.1 = 500%nat ∧
        Written reply.1.1
        = [Raw (String.append (String.append "Chromedp Error: " e) newline)]
    | Ok buf =>
        StatusCode reply.1.1 = 200%nat ∧
        Written reply.1.1 = [Raw buf] ∧
        Header reply.1.1 !! "Content-Type" = Some "image/png" ∧
        Header reply.1.1 !! "Content-Length"
        = Some (itoa (N.of_nat (Strings.len buf)))
    end.
Proof.
  intros Hm Hp Hdec Hhtml. cbv zeta.
  split; [by apply (decode_ScreenshotRequest_int64 (body_json r))|].
  rewrite route_screenshot by done.
  unfold serve_screenshot. rewrite Hdec.
  apply String.eqb_neq in Hhtml. rewrite Hhtml.
  cbv zeta.
  match goal with
  | |- context [chromedp_Run env ?j ?p] => set (job := j); set (page := p)
  end.
  destruct (render_page_stored (generateID env) (ShotHtml req) srv) as [_ Hpage].
  destruct (chromedp_Run env job page) as [buf|e] eqn:Hrun.
  - eexists job, _. cbn [defer fst snd]. split; [reflexivity|].
    split; [done|]. split; [done|]. split; [done|].
    split; [exact Hpage|]. split; [intros e He; inversion He|].
    rewrite Hrun.
    unfold Write, Write_chunk, Header_Set, StatusCode.
    cbn [Header Status Written].
    split; [done|]. split; [done|].
    split; [by rewrite lookup_insert_ne, lookup_insert_eq|].
    by rewrite lookup_insert_eq.
  - eexists job, _. cbn [defer fst snd]. split; [reflexivity|].
    split; [done|]. split; [done|]. split; [done|].
    split; [exact Hpage|]. split.
    { intros e' He. apply list_elem_of_singleton in He. eauto. }
    by rewrite Hrun.
Qed.

End ExportProperties.

(** ** More on saving *)

Section SaveProperties.
Context `{GoLib}.

(** X21.  A save stops before it touches the target when the directory
    for the assets cannot be made (500) or the content part is missing
    (400): no file is created or written, the lock registry and the
    stores are as before, and the only call made is the [MkdirAll] of the
    asset directory. *)
Theorem save_stops_before_the_target env r srv form :
  Method r = "POST" → URLPath r = "/api/save-file" →
  ParseMultipartForm r = Ok form →
  save_inputPath r form ≠ "" →
  (∃ msg eff, placement env (save_inputPath r form) (save_hasAssets form)
              = PlaceFailed msg eff) ∨
  is_ok (FormFile env form "html") = false →
  let reply := handler env r srv in
  StatusCode reply.1.1
  = match placement env (save_inputPath r form) (save_hasAssets form) with
    | PlaceFailed _ _ => 500%nat
    | PlaceAt _ _ _ => 400%nat
    end ∧
  reply.1.2 = srv ∧
  ∀ e, e ∈ reply.2 → ∃ dir, e = FsMkdirAll dir.
Proof.
  intros Hm Hp Hform Hpath Hstop. rewrite route_save_file by done.
  unfold serve_save_file. rewrite Hform. fold (save_inputPath r form).
  apply String.eqb_neq in Hpath. rewrite Hpath.
  fold (save_assets_of form). fold (save_hasAssets form).
  destruct (placement env _ _) as [finalDir finalHtmlPath eff0|msg eff0] eqn:Hpl.
  - destruct Hstop as [(? & ? & ?)|Hhtml]; [discriminate|].
    destruct (FormFile env form "html"); [discriminate|].
    cbv zeta. cbn [fst snd].
    split; [by apply StatusCode_http_Error|]. split; [done|].
    intros e He. exists finalDir.
    by apply (placement_PlaceAt _ _ _ _ _ _ Hpl).
  - cbv zeta. cbn [fst snd].
    split; [by apply StatusCode_http_Error|]. split; [done|].
    intros e He. unfold placement in Hpl.
    repeat case_match; simplify_eq; apply list_elem_of_singleton in He; eauto.
Qed.

(** X22.  A save that succeeds leaves its target unlocked, whether or not
    it was locked before, and changes no other path's lock; the stores
    are not touched. *)
Theorem save_success_unlocks_the_target env r srv form :
  Method r = "POST" → URLPath r = "/api/save-file" →
  ParseMultipartForm r = Ok form →
  reachable (locks srv) →
  let reply := handler env r srv in
  StatusCode reply.1.1 = 200%nat →
  ∃ target,
    Written reply.1.1 = path_body target ∧
    locks reply.1.2 = unlockFile target (locks srv) ∧
    handlesFor (getLockKey target) (locks reply.1.2) = 0%nat ∧
    (∀ k, k ≠ getLockKey target →
          handlesFor k (locks reply.1.2) = handlesFor k (locks srv)) ∧
    fileStore reply.1.2 = fileStore srv ∧
    renderStore reply.1.2 = renderStore srv.
Proof.
  intros Hm Hp Hform Hr. rewrite route_save_file by done. cbv zeta.
  intros Hstatus.
  destruct (serve_save_file_200 env r srv form Hform Hstatus) as
    (finalDir & finalHtmlPath & eff0 & htmlFile & Hpath & Hpl & Hhtml & Hcreate & Hcopy).
  rewrite (serve_save_file_written env r w0 srv form _ _ _ _
             Hform Hpath Hpl Hhtml Hcreate Hcopy).
  cbn [fst snd locks set_locks fileStore renderStore].
  exists finalHtmlPath.
  assert (Hr' : reachable (unlockFile finalHtmlPath (locks srv)))
    by (apply (reachable_step (locks srv)); [exact Hr|constructor]).
  split; [done|]. split; [done|]. split; [|split; [|done]].
  - rewrite handlesFor_registry by by apply reachable_locks_ok.
    by rewrite unlockFile_unregistered.
  - intros k Hk. rewrite !handlesFor_registry by by apply reachable_locks_ok.
    by rewrite unlockFile_others.
Qed.

End SaveProperties.

Lemma pdf_export_outcomes_witness :
  let env := with_render (Ok "%PDF-1.7") willing_env in
  let reply := @handler Linux.lib env (pdf_request "<p>q3</p>" "/out/q3.pdf")
                 empty_server in
  StatusCode reply.1.1 = 200%nat ∧
  FsWriteFile "/out/q3.pdf" "%PDF-1.7" ∈ reply.2.
Proof.
  destruct (@pdf_export_outcomes Linux.lib
              (with_render (Ok "%PDF-1.7") willing_env)
              (pdf_request "<p>q3</p>" "/out/q3.pdf") empty_server
              (@Build_PdfExportRequest Linux.lib "<p>q3</p>" "/out/q3.pdf"
                 (0 # 1)%Q)
              eq_refl eq_refl eq_refl ltac:(discriminate) ltac:(discriminate))
    as (job & rest & _ & _ & _ & _ & Hrun).
  cbn [chromedp_Run with_render os_WriteFile willing_env sample_env PdfPath]
    in Hrun.
  destruct Hrun as (Hin & _ & Hstatus & _). split; [exact Hstatus|exact Hin].
Defined.

Lemma screenshot_outcomes_witness :
  let env := with_render (Ok "PNG") willing_env in
  let reply := @handler Linux.lib env screenshot_request empty_server in
  StatusCode reply.1.1 = 200%nat ∧ Written reply.1.1 = [Raw "PNG"].
Proof.
  destruct (@screenshot_outcomes Linux.lib (with_render (Ok "PNG") willing_env)
              screenshot_request empty_server
              {| ShotHtml := "<div class='ProseMirror'>hi</div>"; Width := 800 |}
              eq_refl eq_refl eq_refl ltac:(discriminate))
    as (_ & job & rest & _ & _ & _ & _ & _ & _ & Hrun).
  cbn [chromedp_Run with_render] in Hrun.
  destruct Hrun as (Hstatus & Hbody & _). split; [exact Hstatus|exact Hbody].
Defined.

(** A width that does not fit Go's [int] does not decode: the request is
    answered 400 and nothing is rendered. *)
Example screenshot_width_overflow_is_rejected :
  let r := post_json "/api/export/screenshot"
             (JObject [("html", JString "<p>x</p>");
                       ("width", JNumber "9223372036854775808")]) in
  let reply := @handler Linux.lib (with_render (Ok "PNG") willing_env) r
                 empty_server in
  is_ok (@decode_ScreenshotRequest Linux.lib (body_json r)) = false ∧
  StatusCode reply.1.1 = 400%nat ∧ reply.2 = [].
Proof. vm_compute. done. Qed.

Lemma save_stops_before_the_target_witness :
  let reply := @handler Linux.lib willing_env
                 (post_form "/api/save-file" form_without_content)
                 empty_server in
  StatusCode reply.1.1 = 400%nat ∧ reply.1.2 = empty_server.
Proof.
  destruct (@save_stops_before_the_target Linux.lib willing_env
              (post_form "/api/save-file" form_without_content) empty_server
              form_without_content eq_refl eq_refl eq_refl
              ltac:(vm_compute; discriminate)
              (or_intror eq_refl))
    as (_ & Hsrv & _).
  split; [vm_compute; reflexivity|exact Hsrv].
Defined.

Lemma save_success_unlocks_the_target_witness :
  let reply := @handler Linux.lib willing_env
                 (save_request "/docs/notes.md" "# notes" []) empty_server in
  StatusCode reply.1.1 = 200%nat ∧
  @handlesFor Linux.lib "/docs/notes.md" (locks reply.1.2) = 0%nat.
Proof.
  assert (Hstatus : StatusCode (@handler Linux.lib willing_env
                      (save_request "/docs/notes.md" "# notes" [])
                      empty_server).1.1 = 200%nat)
    by (vm_compute; reflexivity).
  destruct (@save_success_unlocks_the_target Linux.lib willing_env
              (save_request "/docs/notes.md" "# notes" []) empty_server
              (save_form "/docs/notes.md" "# notes" [])
              eq_refl eq_refl eq_refl (rtc_refl _ _) Hstatus)
    as (target & Hbody & _ & Hcount & _).
  split; [exact Hstatus|].
  assert (Htarget : target = "/docs/notes.md").
  { assert (Hb : Written (@handler Linux.lib willing_env
                   (save_request "/docs/notes.md" "# notes" [])
                   empty_server).1.1 = path_body "/docs/notes.md")
      by (vm_compute; reflexivity).
    rewrite Hb in Hbody. by injection Hbody. }
  rewrite Htarget in Hcount. exact Hcount.
Defined.

(** ** Helpers of the handlers *)

Section HelperProperties.
Context `{GoLib}.

(** X23.  [findBrowserPath] answers the empty path off Windows.  What it
    answers otherwise is one of its five candidates and exists; it is an
    Edge path as soon as one of the two Edge paths exists (Edge is
    preferred to Chrome); and when it answers the empty path no candidate
    exists. *)
Theorem findBrowserPath_picks_an_installed_browser env :
  let edge :=
    ["C:\Program Files (x86)\Microsoft\Edge\Application\msedge.exe";
     "C:\Program Files\Microsoft\Edge\Application\msedge.exe"] in
  let chrome :=
    ["C:\Program Files\Google\Chrome\Application\chrome.exe";
     "C:\Program Files (x86)\Google\Chrome\Application\chrome.exe";
     filepath_Join [os_Getenv env "LOCALAPPDATA";
                    "Google\Chrome\Application\chrome.exe"]] in
  (is_windows = false → findBrowserPath env = "") ∧
  (findBrowserPath env ≠ "" →
   is_ok (os_Stat env (findBrowserPath env)) = true ∧
   findBrowserPath env ∈ (edge ++ chrome)%list) ∧
  (is_windows = true →
   ∀ p, p ∈ edge → is_ok (os_Stat env p) = true →
        findBrowserPath env ∈ edge) ∧
  (is_windows = true → findBrowserPath env = "" →
   ∀ p, p ∈ (edge ++ chrome)%list → p ≠ "" → is_ok (os_Stat env p) = false).
Proof.
  intros edge chrome. unfold findBrowserPath, first_existing.
  fold edge. fold chrome.
  destruct is_windows; cbn [negb].
  2: { split; [done|]. split; [done|]. split; discriminate. }
  split; [discriminate|].
  destruct (find _ edge) as [p|] eqn:Hedge.
  - apply find_some in Hedge as [Hin Hstat]. apply list_elem_of_In in Hin.
    split; [|split].
    + intros _. split; [done|]. apply elem_of_app. by left.
    + done.
    + intros _ ->. exfalso.
      subst edge. repeat (apply elem_of_cons in Hin as [Hin|Hin]; [discriminate|]).
      by apply elem_of_nil in Hin.
  - pose proof (find_none _ _ Hedge) as Hno.
    split; [|split].
    + destruct (find _ chrome) as [p|] eqn:Hchrome; [|done].
      apply find_some in Hchrome as [Hin Hstat]. apply list_elem_of_In in Hin.
      intros _. split; [done|]. apply elem_of_app. by right.
    + intros _ p Hin Hstat. apply list_elem_of_In, Hno in Hin. congruence.
    + intros _ Hempty p Hin Hp.
      apply elem_of_app in Hin as [Hin|Hin].
      * by apply list_elem_of_In, Hno in Hin.
      * destruct (find _ chrome) as [q|] eqn:Hchrome.
        -- simpl in Hempty. subst q.
           (* the candidate that was found is the empty path, so every
              candidate before it, and hence every named one, is absent *)
           subst chrome. cbn [find] in Hchrome.
           destruct (is_ok (os_Stat env
             "C:\Program Files\Google\Chrome\Application\chrome.exe"))
             eqn:H1; [discriminate|].
           destruct (is_ok (os_Stat env
             "C:\Program Files (x86)\Google\Chrome\Application\chrome.exe"))
             eqn:H2; [discriminate|].
           apply elem_of_cons in Hin as [->|Hin]; [exact H1|].
           apply elem_of_cons in Hin as [->|Hin]; [exact H2|].
           apply list_elem_of_singleton in Hin. subst p.
           destruct (is_ok (os_Stat env (filepath_Join _))) eqn:H3;
             [|reflexivity].
           injection Hchrome as Hjoin. by rewrite Hjoin in Hp.
        -- by apply list_elem_of_In, (find_none _ _ Hchrome) in Hin.
Qed.

Lemma replace_plus n s :
  (String.length s < n)%nat →
  Strings.replace_from "+" "%20" n 0 s
  = concat_strings
      (map (λ c, if Ascii.eqb c "+" then "%20" else String c EmptyString)
           (list_ascii_of_string s)).
Proof.
  revert n. induction s as [|c s IH]; intros n Hn; [done|].
  destruct n as [|n]; [simpl in Hn; lia|].
  cbn [Strings.replace_from String.prefix list_ascii_of_string map
       concat_strings fold_right Strings.len String.length Nat.pred].
  fold (concat_strings
          (map (λ c, if Ascii.eqb c "+" then "%20" else String c EmptyString)
               (list_ascii_of_string s))).
  simpl in Hn.
  destruct (ascii_dec "+" c) as [<-|Hc].
  - rewrite Ascii.eqb_refl.
    replace (String.prefix EmptyString s) with true by (by destruct s).
    rewrite IH by lia. done.
  - replace (Ascii.eqb c "+") with false
      by (symmetry; apply Ascii.eqb_neq; congruence).
    rewrite append_cons, append_nil_l, IH by lia. done.
Qed.

(** X24.  A header value is the query-escaped string with every [+]
    replaced by [%20] and every other byte kept: it never contains a
    [+]. *)
Theorem encodeHeaderValue_replaces_every_plus s :
  encodeHeaderValue s
  = concat_strings
      (map (λ c, if Ascii.eqb c "+" then "%20" else String c EmptyString)
           (list_ascii_of_string (url_QueryEscape s))) ∧
  Strings.contains_byte (encodeHeaderValue s) "+"%char = false.
Proof.
  assert (Heq : encodeHeaderValue s
    = concat_strings
        (map (λ c, if Ascii.eqb c "+" then "%20" else String c EmptyString)
             (list_ascii_of_string (url_QueryEscape s)))).
  { unfold encodeHeaderValue, Strings.ReplaceAll, Strings.Replace.
    apply replace_plus. unfold Strings.len. lia. }
  split; [done|]. rewrite Heq. clear Heq.
  generalize (url_QueryEscape s). intros t.
  induction t as [|c t IH]; [done|].
  cbn [list_ascii_of_string map concat_strings fold_right].
  fold (concat_strings
          (map (λ c, if Ascii.eqb c "+" then "%20" else String c EmptyString)
               (list_ascii_of_string t))).
  unfold Strings.contains_byte in *.
  destruct (Ascii.eqb c "+") eqn:Hc.
  - rewrite !append_cons, append_nil_l.
    cbn [list_ascii_of_string existsb]. rewrite IH. done.
  - rewrite append_cons, append_nil_l.
    cbn [list_ascii_of_string existsb]. rewrite IH.
    rewrite Ascii.eqb_sym, Hc. done.
Qed.

Lemma hex_digit_inj n m :
  (n < 16)%N → (m < 16)%N → Hex.digit n = Hex.digit m → n = m.
Proof.
  intros Hn Hm Heq.
  set (value := λ c : ascii,
    match list_find (λ d, d = c) (list_ascii_of_string Hex.hextable) with
    | Some (i, _) => N.of_nat i
    | None => 0%N
    end).
  assert (Hvalue : ∀ k, (k < 16)%N → value (Hex.digit k) = k).
  { intros k Hk. destruct k as [|p]; [reflexivity|].
    do 4 (destruct p as [p|p|]; try reflexivity); lia. }
  rewrite <- (Hvalue n Hn), <- (Hvalue m Hm). by rewrite Heq.
Qed.

Lemma hex_EncodeToString_inj a b :
  Hex.EncodeToString a = Hex.EncodeToString b → a = b.
Proof.
  revert b. induction a as [|x a IH]; intros [|y b] Heq; try done.
  cbn [Hex.EncodeToString] in Heq. injection Heq as Hhi Hlo Hrest.
  pose proof (N_ascii_bounded x) as Hx. pose proof (N_ascii_bounded y) as Hy.
  apply hex_digit_inj in Hhi;
    [|apply N.Div0.div_lt_upper_bound; lia..].
  apply hex_digit_inj in Hlo; [|apply N.mod_lt; lia..].
  f_equal; [|by apply IH].
  rewrite <- (ascii_N_embedding x), <- (ascii_N_embedding y). f_equal.
  rewrite (N.div_mod (N_of_ascii x) 16), (N.div_mod (N_of_ascii y) 16) by lia.
  by rewrite Hhi, Hlo.
Qed.

(** X25.  Identifiers separate random bytes: two identifiers are equal
    only if the eight-byte buffers behind them are, so different bytes
    from the generator give different identifiers. *)
Theorem generateID_separates_random_bytes env env' :
  Strings.take 8 (String.append (rand_Read env) (zero_byte_buffer 8))
  ≠ Strings.take 8 (String.append (rand_Read env') (zero_byte_buffer 8)) →
  generateID env ≠ generateID env'.
Proof.
  intros Hne Heq. apply Hne. by apply hex_EncodeToString_inj.
Qed.

End HelperProperties.

Lemma findBrowserPath_picks_an_installed_browser_witness :
  let env := windows_env
               ["C:\Program Files\Microsoft\Edge\Application\msedge.exe";
                "C:\Program Files\Google\Chrome\Application\chrome.exe"] in
  is_ok (os_Stat env (@findBrowserPath windows_lib env)) = true ∧
  @findBrowserPath windows_lib env
  ∈ ["C:\Program Files (x86)\Microsoft\Edge\Application\msedge.exe";
     "C:\Program Files\Microsoft\Edge\Application\msedge.exe"].
Proof.
  destruct (@findBrowserPath_picks_an_installed_browser windows_lib
              (windows_env
                 ["C:\Program Files\Microsoft\Edge\Application\msedge.exe";
                  "C:\Program Files\Google\Chrome\Application\chrome.exe"]))
    as (_ & Hexists & Hedge & _).
  split.
  - apply Hexists. vm_compute. discriminate.
  - apply (Hedge eq_refl
             "C:\Program Files\Microsoft\Edge\Application\msedge.exe").
    + apply elem_of_cons. right. apply elem_of_cons. by left.
    + reflexivity.
Defined.

Lemma generateID_separates_random_bytes_witness :
  @generateID Linux.lib willing_env ≠ @generateID Linux.lib Linux.bare_env.
Proof.
  apply (@generateID_separates_random_bytes Linux.lib willing_env
           Linux.bare_env).
  vm_compute. discriminate.
Defined.

(** ** Headers *)

Section CorsProperties.
Context `{GoLib}.

Lemma has_cors_start : has_cors (cors_headers new_response).
Proof. by split; [|split]. Qed.

Lemma has_cors_Header_Set k v w :
  has_cors w →
  k ≠ "Access-Control-Allow-Origin" →
  k ≠ "Access-Control-Allow-Methods" →
  k ≠ "Access-Control-Allow-Headers" →
  has_cors (Header_Set k v w).
Proof.
  intros (H1 & H2 & H3) ? ? ?. unfold has_cors, Header_Set. cbn [Header].
  by rewrite !lookup_insert_ne by done.
Qed.

Lemma has_cors_WriteHeader code w : has_cors w → has_cors (WriteHeader code w).
Proof. done. Qed.

Lemma has_cors_Write_chunk c w : has_cors w → has_cors (Write_chunk c w).
Proof. done. Qed.

Lemma has_cors_http_Error msg code w : has_cors w → has_cors (http_Error msg code w).
Proof.
  intros (H1 & H2 & H3). unfold http_Error. apply has_cors_Write_chunk.
  apply has_cors_WriteHeader.
  do 2 (apply has_cors_Header_Set; [|done..]).
  unfold has_cors. cbn [Header]. by rewrite !lookup_delete_ne by done.
Qed.

Lemma defer_writer cleanup (body : Reply) : (defer cleanup body).1.1 = body.1.1.
Proof. by destruct body as [[w srv] eff]. Qed.

Ltac cors :=
  repeat match goal with
  | |- has_cors (http_Error _ _ _) => apply has_cors_http_Error
  | |- has_cors (Write_chunk _ _) => apply has_cors_Write_chunk
  | |- has_cors (WriteHeader _ _) => apply has_cors_WriteHeader
  | |- has_cors (Header_Set _ _ _) =>
      apply has_cors_Header_Set; [|discriminate..]
  | |- has_cors _ => assumption
  end.

Ltac cors_cases :=
  repeat case_match; cbn [fst snd]; rewrite ?defer_writer; cbn [fst snd];
  unfold http_NotFound, Write, Encode; cors.

Lemma has_cors_serve_kill w srv :
  has_cors w → has_cors (serve_kill w srv).1.1.
Proof. intros Hw. unfold serve_kill. cors_cases. Qed.

Lemma has_cors_serve_lock env r w srv :
  has_cors w → has_cors (serve_lock env r w srv).1.1.
Proof. intros Hw. unfold serve_lock. cors_cases. Qed.

Lemma has_cors_serve_unlock r w srv :
  has_cors w → has_cors (serve_unlock r w srv).1.1.
Proof. intros Hw. unfold serve_unlock. cors_cases. Qed.

Lemma has_cors_serve_dialog_open env w srv :
  has_cors w → has_cors (serve_dialog_open env w srv).1.1.
Proof. intros Hw. unfold serve_dialog_open. cors_cases. Qed.

Lemma has_cors_serve_dialog_save env r w srv :
  has_cors w → has_cors (serve_dialog_save env r w srv).1.1.
Proof. intros Hw. unfold serve_dialog_save. cors_cases. Qed.

Lemma has_cors_serve_cli_handover env r w srv :
  has_cors w → has_cors (serve_cli_handover env r w srv).1.1.
Proof. intros Hw. unfold serve_cli_handover. cors_cases. Qed.

Lemma has_cors_serve_open_file env r w srv :
  has_cors w → has_cors (serve_open_file env r w srv).1.1.
Proof.
  intros Hw. unfold serve_open_file.
  destruct (Query_values r "path") as [|filePath more].
  - destruct (fileStore srv !! _) as [data|]; [|cbn [fst]; cors].
    destruct (Base64.DecodeString _); cbn [fst]; unfold Write; cors.
  - destruct (String.eqb filePath ""); [cbn [fst]; cors|].
    destruct (os_ReadFile env filePath); [|cbn [fst]; cors].
    destruct (if is_html_ext _ then _ else _) as [mimeType finalContent].
    cbn [fst]. unfold Write. cors.
Qed.

Lemma has_cors_serve_render_view r w srv :
  has_cors w → has_cors (serve_render_view r w srv).1.1.
Proof. intros Hw. unfold serve_render_view. cors_cases. Qed.

Lemma has_cors_serve_screenshot env r w srv :
  has_cors w → has_cors (serve_screenshot env r w srv).1.1.
Proof. intros Hw. unfold serve_screenshot. cors_cases. Qed.

Lemma has_cors_serve_pdf env r w srv :
  has_cors w → has_cors (serve_pdf env r w srv).1.1.
Proof. intros Hw. unfold serve_pdf. cors_cases. Qed.

Lemma has_cors_serve_save_file env r w srv :
  has_cors w → has_cors (serve_save_file env r w srv).1.1.
Proof. intros Hw. unfold serve_save_file. cors_cases. Qed.

(** X26.  Every answer the handler writes itself carries the three CORS
    headers it set on entry, whatever the route and however the request
    ends; a request it does not answer goes to the file server with these
    headers set, and changes nothing. *)
Theorem every_answer_carries_cors env r srv :
  has_cors (handler env r srv).1.1 ∨
  handler env r srv = (FileServer env r (cors_headers new_response), srv, []).
Proof.
  pose proof has_cors_start as Hw. unfold handler.
  set (w := cors_headers new_response) in *. clearbody w.
  repeat case_match; try (by right); left.
  - by apply has_cors_WriteHeader.
  - by apply has_cors_serve_kill.
  - by apply has_cors_serve_lock.
  - by apply has_cors_serve_unlock.
  - by apply has_cors_serve_dialog_open.
  - by apply has_cors_serve_dialog_save.
  - by apply has_cors_serve_cli_handover.
  - by apply has_cors_serve_open_file.
  - by apply has_cors_serve_render_view.
  - by apply has_cors_serve_screenshot.
  - by apply has_cors_serve_pdf.
  - by apply has_cors_serve_save_file.
Qed.

End CorsProperties.
